(** * Campus Event Management System: registration and capacity core

A shallow embedding of the backend of the web version
([backend/models], [backend/services], and the guarded operations of
[backend/main.py]) and the statements about it.

- Python objects are records; the two enum-valued attributes ([status],
  [category]) are modelled as the code treats them in [to_dict]: either a
  member of the enum or some other (raw) value.
- The JSON files are lists of dictionaries ([gmap string json]); every
  read goes through [from_dict] and every write through [to_dict], as in
  the services.
- Exceptions ([KeyError], [ValueError]) are values of [result]; the
  services run in a state-and-exception monad over the two files, and
  their [try ... except Exception] blocks are [try_except].
- [datetime.now()], [secrets.token_hex] and [hashlib.sha256] are inputs of
  the operations. *)

From Stdlib Require Import ZArith Lia.
From stdpp Require Import base tactics option list strings gmap pretty.

Open Scope Z_scope.

(** ** Python's [datetime] *)

Module datetime.

(** A [datetime] object: its position on the time line, whether it carries
    a time zone, and what [isoformat()] prints for it. *)
Record t := mk { ticks : Z; aware : bool; isoformat : string }.

(** [a > b]: comparing a naive with an aware value raises [TypeError]
    ([None] here). *)
Definition gt (a b : t) : option bool :=
  if Bool.eqb (aware a) (aware b) then Some (ticks b <? ticks a) else None.

End datetime.

(** ** JSON values, dictionaries and exceptions *)

Inductive json :=
  | JNull
  | JBool (b : bool)
  | JInt (n : Z)
  | JStr (s : string)
  | JList (l : list string).

Abbreviation dict := (gmap string json).

Inductive exn :=
  | KeyError (key : string)
  | ValueError (msg : string)
  | TypeError (msg : string).

(** [str(e)] for the message of a failure result. *)
Definition str_exn (e : exn) : string :=
  match e with
  | KeyError key => "'" +:+ key +:+ "'"
  | ValueError msg => msg
  | TypeError msg => msg
  end.

Inductive result (A : Type) :=
  | Ok (a : A)
  | Raise (e : exn).
Arguments Ok {A} a.
Arguments Raise {A} e.

Definition result_bind {A B} (m : result A) (k : A -> result B) : result B :=
  match m with
  | Ok a => k a
  | Raise e => Raise e
  end.

Declare Scope result_scope.
Delimit Scope result_scope with res.
Bind Scope result_scope with result.
Notation "x <- m ;; k" := (result_bind m (fun x => k))
  (at level 100, m at next level, right associativity) : result_scope.

(** [repr(s)] of a string, as CPython's [unicode_repr] builds it: single
    quotes unless the text holds a single quote and no double quote; the
    backslash and the chosen quote are escaped, tab, line feed and carriage
    return are written as their letters, the other ASCII control characters
    as two hex digits.  A string is its UTF-8 bytes here, and the bytes above
    127 are kept, which is what [repr] does for printable characters. *)
Definition single_quote : Ascii.ascii := Ascii.ascii_of_nat 39.
Definition double_quote : Ascii.ascii := Ascii.ascii_of_nat 34.
Definition backslash : Ascii.ascii := Ascii.ascii_of_nat 92.

Definition hex_digit (n : nat) : Ascii.ascii :=
  Ascii.ascii_of_nat (if Nat.ltb n 10 then 48 + n else 87 + n).

Definition repr_char (quote c : Ascii.ascii) : string :=
  let n := Ascii.nat_of_ascii c in
  if Ascii.eqb c backslash || Ascii.eqb c quote
  then String backslash (String c EmptyString)
  else if Nat.eqb n 9 then String backslash (String (Ascii.ascii_of_nat 116) EmptyString)
  else if Nat.eqb n 10 then String backslash (String (Ascii.ascii_of_nat 110) EmptyString)
  else if Nat.eqb n 13 then String backslash (String (Ascii.ascii_of_nat 114) EmptyString)
  else if Nat.ltb n 32 || Nat.eqb n 127
  then String backslash
         (String (Ascii.ascii_of_nat 120)
            (String (hex_digit (Nat.div n 16))
               (String (hex_digit (Nat.modulo n 16)) EmptyString)))
  else String c EmptyString.

Fixpoint holds_char (c : Ascii.ascii) (s : string) : bool :=
  match s with
  | EmptyString => false
  | String c' s' => Ascii.eqb c c' || holds_char c s'
  end.

Fixpoint repr_chars (quote : Ascii.ascii) (s : string) : string :=
  match s with
  | EmptyString => EmptyString
  | String c s' => repr_char quote c +:+ repr_chars quote s'
  end.

Definition repr_str (s : string) : string :=
  let quote :=
    if holds_char single_quote s && negb (holds_char double_quote s)
    then double_quote else single_quote in
  String quote (repr_chars quote s +:+ String quote EmptyString).

(** [repr(v)], as the message of an enum's [ValueError] shows the value. *)
Definition repr (v : json) : string :=
  match v with
  | JNull => "None"
  | JBool true => "True"
  | JBool false => "False"
  | JInt n => pretty n
  | JStr s => repr_str s
  | JList l => "[" +:+ String.concat ", " (repr_str <$> l) +:+ "]"
  end.

(** [data[key]] *)
Definition getitem (data : dict) (key : string) : result json :=
  match data !! key with
  | Some v => Ok v
  | None => Raise (KeyError key)
  end.

(** [data.get(key, default)] *)
Definition get (data : dict) (key : string) (default : json) : json :=
  match data !! key with
  | Some v => v
  | None => default
  end.

(** [v == s] for a string [s]: values of other types are simply unequal. *)
Definition eq_str (v : json) (s : string) : bool :=
  match v with
  | JStr s' => bool_decide (s' = s)
  | _ => false
  end.

(** The attributes of the records below are typed as the constructors'
  annotations give them.  A dictionary holding a value of another JSON type
  in such a place is outside the typed records: Python would keep the value
  as it is, here reading it stops with [TypeError].  The model follows the
  code on the files whose records hold values of the annotated types
  ([typed] below); on those [from_dict] never takes this branch
  ([Event_from_dict_typed], [Registration_from_dict_typed]), and the
  statements about files the application did not write itself are made
  for them. *)
Definition as_str (v : json) : result string :=
  match v with
  | JStr s => Ok s
  | _ => Raise (TypeError "str expected")
  end.

Definition as_int (v : json) : result Z :=
  match v with
  | JInt n => Ok n
  | _ => Raise (TypeError "int expected")
  end.

Definition as_list (v : json) : result (list string) :=
  match v with
  | JList l => Ok l
  | _ => Raise (TypeError "list expected")
  end.

(** An attribute that is meant to hold a member of the enum [E]; [to_dict]
  tests [isinstance(self.status, E)] and so provides for any other value. *)
Inductive attr (E : Type) :=
  | Member (e : E)
  | Raw (v : json).
Arguments Member {E} e.
Arguments Raw {E} v.

Definition is_member {E} (a : attr E) : Prop :=
  match a with
  | Member _ => True
  | Raw _ => False
  end.

(** ** models/registration.py *)

Module RegistrationStatus.

Inductive t := PENDING | CONFIRMED | CANCELLED | ATTENDED | NO_SHOW.

#[global] Instance eq_dec : EqDecision t.
Proof. solve_decision. Defined.

Definition value (s : t) : string :=
  match s with
  | PENDING => "pending"
  | CONFIRMED => "confirmed"
  | CANCELLED => "cancelled"
  | ATTENDED => "attended"
  | NO_SHOW => "no_show"
  end.

Definition members : list t := [PENDING; CONFIRMED; CANCELLED; ATTENDED; NO_SHOW].

(** [RegistrationStatus(v)]: the member whose value is [v]. *)
Definition of_value (v : json) : result t :=
  match List.find (fun m => eq_str v (value m)) members with
  | Some m => Ok m
  | None => Raise (ValueError (repr v +:+ " is not a valid RegistrationStatus"))
  end.

End RegistrationStatus.

Module Registration.

Record t := mk {
    registration_id : string;
    event_id : string;
    user_id : string;
    status : attr RegistrationStatus.t;
    registered_at : string;
    updated_at : string;
    notes : string
  }.

(** [__init__]: two readings of the clock. *)
Definition init (now1 now2 : datetime.t) (registration_id event_id user_id : string) : t :=
  {| registration_id := registration_id;
     event_id := event_id;
     user_id := user_id;
     status := Member RegistrationStatus.CONFIRMED;
     registered_at := datetime.isoformat now1;
     updated_at := datetime.isoformat now2;
     notes := "" |}.

Definition status_value (a : attr RegistrationStatus.t) : json :=
  match a with
  | Member s => JStr (RegistrationStatus.value s)
  | Raw v => v
  end.

Definition to_dict (self : t) : dict :=
  list_to_map [
    ("registration_id", JStr (registration_id self));
    ("event_id", JStr (event_id self));
    ("user_id", JStr (user_id self));
    ("status", status_value (status self));
    ("registered_at", JStr (registered_at self));
    ("updated_at", JStr (updated_at self));
    ("notes", JStr (notes self))
  ].

(** [from_dict]; [now] stands for the clock readings of the constructor and
    of the defaults, which only show when a key is absent.  The code reads
    the clock once for each default, so two absent timestamps may differ
    there by the time between the readings; here they are the one [now].
    [to_dict] writes both timestamps, so files the application wrote never
    show a default. *)
Definition from_dict (now : datetime.t) (data : dict) : result t :=
  (registration_id <- result_bind (getitem data "registration_id") as_str ;;
   event_id <- result_bind (getitem data "event_id") as_str ;;
   user_id <- result_bind (getitem data "user_id") as_str ;;
   status <- RegistrationStatus.of_value (get data "status" (JStr "confirmed")) ;;
   registered_at <- as_str (get data "registered_at" (JStr (datetime.isoformat now))) ;;
   updated_at <- as_str (get data "updated_at" (JStr (datetime.isoformat now))) ;;
   notes <- as_str (get data "notes" (JStr "")) ;;
   Ok {| registration_id := registration_id;
         event_id := event_id;
         user_id := user_id;
         status := Member status;
         registered_at := registered_at;
         updated_at := updated_at;
         notes := notes |})%res.

(** [self] with another value of [status]. *)
Definition with_status (status : attr RegistrationStatus.t) (self : t) : t :=
  {| registration_id := registration_id self;
     event_id := event_id self;
     user_id := user_id self;
     status := status;
     registered_at := registered_at self;
     updated_at := updated_at self;
     notes := notes self |}.

(** The lifecycle methods; each reads the clock once. *)
Definition confirm (now : datetime.t) (self : t) : t :=
  {| registration_id := registration_id self;
     event_id := event_id self;
     user_id := user_id self;
     status := Member RegistrationStatus.CONFIRMED;
     registered_at := registered_at self;
     updated_at := datetime.isoformat now;
     notes := notes self |}.

Definition cancel (now : datetime.t) (reason : string) (self : t) : t :=
  {| registration_id := registration_id self;
     event_id := event_id self;
     user_id := user_id self;
     status := Member RegistrationStatus.CANCELLED;
     registered_at := registered_at self;
     updated_at := datetime.isoformat now;
     notes := reason |}.

Definition mark_attended (now : datetime.t) (self : t) : t :=
  {| registration_id := registration_id self;
     event_id := event_id self;
     user_id := user_id self;
     status := Member RegistrationStatus.ATTENDED;
     registered_at := registered_at self;
     updated_at := datetime.isoformat now;
     notes := notes self |}.

Definition mark_no_show (now : datetime.t) (self : t) : t :=
  {| registration_id := registration_id self;
     event_id := event_id self;
     user_id := user_id self;
     status := Member RegistrationStatus.NO_SHOW;
     registered_at := registered_at self;
     updated_at := datetime.isoformat now;
     notes := notes self |}.

(** [self.status in [PENDING, CONFIRMED]] *)
Definition is_active (self : t) : bool :=
  match status self with
  | Member s => bool_decide (s ∈ [RegistrationStatus.PENDING; RegistrationStatus.CONFIRMED])
  | Raw _ => false
  end.

End Registration.

(** ** models/event.py *)

Module EventStatus.

Inductive t := DRAFT | ACTIVE | CANCELLED | COMPLETED.

#[global] Instance eq_dec : EqDecision t.
Proof. solve_decision. Defined.

Definition value (s : t) : string :=
  match s with
  | DRAFT => "draft"
  | ACTIVE => "active"
  | CANCELLED => "cancelled"
  | COMPLETED => "completed"
  end.

Definition members : list t := [DRAFT; ACTIVE; CANCELLED; COMPLETED].

Definition of_value (v : json) : result t :=
  match List.find (fun m => eq_str v (value m)) members with
  | Some m => Ok m
  | None => Raise (ValueError (repr v +:+ " is not a valid EventStatus"))
  end.

End EventStatus.

Module EventCategory.

Inductive t := ACADEMIC | CULTURAL | SPORTS | WORKSHOP | SEMINAR | COMPETITION | OTHER.

#[global] Instance eq_dec : EqDecision t.
Proof. solve_decision. Defined.

Definition value (c : t) : string :=
  match c with
  | ACADEMIC => "academic"
  | CULTURAL => "cultural"
  | SPORTS => "sports"
  | WORKSHOP => "workshop"
  | SEMINAR => "seminar"
  | COMPETITION => "competition"
  | OTHER => "other"
  end.

Definition members : list t :=
  [ACADEMIC; CULTURAL; SPORTS; WORKSHOP; SEMINAR; COMPETITION; OTHER].

Definition of_value (v : json) : result t :=
  match List.find (fun m => eq_str v (value m)) members with
  | Some m => Ok m
  | None => Raise (ValueError (repr v +:+ " is not a valid EventCategory"))
  end.

End EventCategory.

Module Event.

Record t := mk {
    event_id : string;
    title : string;
    description : string;
    organizer_id : string;
    event_date : string;
    location : string;
    max_capacity : Z;
    category : attr EventCategory.t;
    status : attr EventStatus.t;
    created_at : string;
    updated_at : string;
    current_attendees : Z;
    tags : list string
  }.

Definition init (now1 now2 : datetime.t)
    (event_id title description organizer_id event_date location : string)
    (max_capacity : Z) (category : attr EventCategory.t) : t :=
  {| event_id := event_id;
     title := title;
     description := description;
     organizer_id := organizer_id;
     event_date := event_date;
     location := location;
     max_capacity := max_capacity;
     category := category;
     status := Member EventStatus.ACTIVE;
     created_at := datetime.isoformat now1;
     updated_at := datetime.isoformat now2;
     current_attendees := 0;
     tags := [] |}.

Definition category_value (a : attr EventCategory.t) : json :=
  match a with
  | Member c => JStr (EventCategory.value c)
  | Raw v => v
  end.

Definition status_value (a : attr EventStatus.t) : json :=
  match a with
  | Member s => JStr (EventStatus.value s)
  | Raw v => v
  end.

Definition to_dict (self : t) : dict :=
  list_to_map [
    ("event_id", JStr (event_id self));
    ("title", JStr (title self));
    ("description", JStr (description self));
    ("organizer_id", JStr (organizer_id self));
    ("event_date", JStr (event_date self));
    ("location", JStr (location self));
    ("max_capacity", JInt (max_capacity self));
    ("category", category_value (category self));
    ("status", status_value (status self));
    ("created_at", JStr (created_at self));
    ("updated_at", JStr (updated_at self));
    ("current_attendees", JInt (current_attendees self));
    ("tags", JList (tags self))
  ].

(** [from_dict]; as for a registration, [now] stands for the clock readings
    behind the two default timestamps. *)
Definition from_dict (now : datetime.t) (data : dict) : result t :=
  (event_id <- result_bind (getitem data "event_id") as_str ;;
   title <- result_bind (getitem data "title") as_str ;;
   description <- result_bind (getitem data "description") as_str ;;
   organizer_id <- result_bind (getitem data "organizer_id") as_str ;;
   event_date <- result_bind (getitem data "event_date") as_str ;;
   location <- result_bind (getitem data "location") as_str ;;
   max_capacity <- result_bind (getitem data "max_capacity") as_int ;;
   category <- EventCategory.of_value (get data "category" (JStr "other")) ;;
   status <- EventStatus.of_value (get data "status" (JStr "active")) ;;
   created_at <- as_str (get data "created_at" (JStr (datetime.isoformat now))) ;;
   updated_at <- as_str (get data "updated_at" (JStr (datetime.isoformat now))) ;;
   current_attendees <- as_int (get data "current_attendees" (JInt 0)) ;;
   tags <- as_list (get data "tags" (JList [])) ;;
   Ok {| event_id := event_id;
         title := title;
         description := description;
         organizer_id := organizer_id;
         event_date := event_date;
         location := location;
         max_capacity := max_capacity;
         category := Member category;
         status := Member status;
         created_at := created_at;
         updated_at := updated_at;
         current_attendees := current_attendees;
         tags := tags |})%res.

(** [self] with other values of [category] and [status]. *)
Definition with_enums (category : attr EventCategory.t) (status : attr EventStatus.t)
    (self : t) : t :=
  {| event_id := event_id self;
     title := title self;
     description := description self;
     organizer_id := organizer_id self;
     event_date := event_date self;
     location := location self;
     max_capacity := max_capacity self;
     category := category;
     status := status;
     created_at := created_at self;
     updated_at := updated_at self;
     current_attendees := current_attendees self;
     tags := tags self |}.

(** [self] with [current_attendees] set and [updated_at] stamped. *)
Definition with_attendees (now : datetime.t) (n : Z) (self : t) : t :=
  {| event_id := event_id self;
     title := title self;
     description := description self;
     organizer_id := organizer_id self;
     event_date := event_date self;
     location := location self;
     max_capacity := max_capacity self;
     category := category self;
     status := status self;
     created_at := created_at self;
     updated_at := datetime.isoformat now;
     current_attendees := n;
     tags := tags self |}.

(** [self.status != EventStatus.ACTIVE]: a raw value equals no member. *)
Definition status_is (self : t) (s : EventStatus.t) : bool :=
  match status self with
  | Member s' => bool_decide (s' = s)
  | Raw _ => false
  end.

Section availability.

(** [datetime.fromisoformat]: [None] when it raises [ValueError]. *)
Variable fromisoformat : string -> option datetime.t.

(** The bare [except:] answers [True] for whatever the [try] block
    raises: the parse, or the comparison of an aware with a naive value. *)
Definition is_available_for_registration (now : datetime.t) (self : t) : bool :=
  if negb (status_is self EventStatus.ACTIVE) then false
  else if bool_decide (current_attendees self >= max_capacity self) then false
  else
    match fromisoformat (event_date self) with
    | Some event_datetime =>
        match datetime.gt event_datetime now with
        | Some b => b
        | None => true
        end
    | None => true
    end.

End availability.

(** The mutators return the method's answer and the object after it. *)
Definition add_attendee (now : datetime.t) (self : t) : bool * t :=
  if bool_decide (current_attendees self < max_capacity self)
  then (true, with_attendees now (current_attendees self + 1) self)
  else (false, self).

Definition remove_attendee (now : datetime.t) (self : t) : bool * t :=
  if bool_decide (current_attendees self > 0)
  then (true, with_attendees now (current_attendees self - 1) self)
  else (false, self).

Definition is_full (self : t) : bool :=
  bool_decide (current_attendees self >= max_capacity self).

Definition get_remaining_slots (self : t) : Z :=
  Z.max 0 (max_capacity self - current_attendees self).

(** [cancel] and [complete]: the status changes, [updated_at] is stamped. *)
Definition cancel (now : datetime.t) (self : t) : t :=
  {| event_id := event_id self;
     title := title self;
     description := description self;
     organizer_id := organizer_id self;
     event_date := event_date self;
     location := location self;
     max_capacity := max_capacity self;
     category := category self;
     status := Member EventStatus.CANCELLED;
     created_at := created_at self;
     updated_at := datetime.isoformat now;
     current_attendees := current_attendees self;
     tags := tags self |}.

Definition complete (now : datetime.t) (self : t) : t :=
  {| event_id := event_id self;
     title := title self;
     description := description self;
     organizer_id := organizer_id self;
     event_date := event_date self;
     location := location self;
     max_capacity := max_capacity self;
     category := category self;
     status := Member EventStatus.COMPLETED;
     created_at := created_at self;
     updated_at := datetime.isoformat now;
     current_attendees := current_attendees self;
     tags := tags self |}.

End Event.

(** ** models/user.py *)

Module UserRole.

Inductive t := ADMIN | ORGANIZER | STUDENT | VISITOR.

#[global] Instance eq_dec : EqDecision t.
Proof. solve_decision. Defined.

Definition value (r : t) : string :=
  match r with
  | ADMIN => "admin"
  | ORGANIZER => "organizer"
  | STUDENT => "student"
  | VISITOR => "visitor"
  end.

Definition members : list t := [ADMIN; ORGANIZER; STUDENT; VISITOR].

(** [UserRole(v)]: the member whose value is [v]. *)
Definition of_value (v : json) : result t :=
  match List.find (fun m => eq_str v (value m)) members with
  | Some m => Ok m
  | None => Raise (ValueError (repr v +:+ " is not a valid UserRole"))
  end.

End UserRole.

Module User.

Record t := mk {
    user_id : string;
    username : string;
    email : string;
    password : string;
    role : UserRole.t;
    full_name : string;
    created_at : string;
    last_login : option string;
    is_active : bool
  }.

(** The [permissions] dictionary of [has_permission], in the order written. *)
Definition permissions : list (UserRole.t * list string) := [
    (UserRole.ADMIN,
      ["create_event"; "update_event"; "delete_event";
       "view_all_events"; "view_all_users"; "generate_reports"]);
    (UserRole.ORGANIZER,
      ["create_event"; "update_own_event"; "delete_own_event";
       "view_own_events"; "manage_registrations"]);
    (UserRole.STUDENT,
      ["view_events"; "register_event"; "view_own_registrations"]);
    (UserRole.VISITOR,
      ["view_events"; "register_event"])
  ].

(** [d.get(key, default)] on a dictionary given by its items. *)
Fixpoint items_get {V} (d : list (UserRole.t * V)) (key : UserRole.t) (default : V) : V :=
  match d with
  | [] => default
  | (k, v) :: d' => if bool_decide (k = key) then v else items_get d' key default
  end.

Definition has_permission (self : t) (action : string) : bool :=
  bool_decide (action ∈ items_get permissions (role self) []).

(** [__init__]: a new user is active and has never logged in. *)
Definition init (now : datetime.t) (user_id username email password : string)
    (role : UserRole.t) (full_name : string) : t :=
  {| user_id := user_id;
     username := username;
     email := email;
     password := password;
     role := role;
     full_name := full_name;
     created_at := datetime.isoformat now;
     last_login := None;
     is_active := true |}.

(** [last_login] is [None] or a timestamp. *)
Definition last_login_value (o : option string) : json :=
  match o with
  | Some s => JStr s
  | None => JNull
  end.

(** [to_dict]; the role of a record is a member of [UserRole], the branch
    that the [isinstance] test of the source takes for it. *)
Definition to_dict (self : t) : dict :=
  list_to_map [
    ("user_id", JStr (user_id self));
    ("username", JStr (username self));
    ("email", JStr (email self));
    ("password", JStr (password self));
    ("role", JStr (UserRole.value (role self)));
    ("full_name", JStr (full_name self));
    ("created_at", JStr (created_at self));
    ("last_login", last_login_value (last_login self));
    ("is_active", JBool (is_active self))
  ].

Definition as_optional_str (v : json) : result (option string) :=
  match v with
  | JNull => Ok None
  | JStr s => Ok (Some s)
  | _ => Raise (TypeError "str or None expected")
  end.

Definition as_bool (v : json) : result bool :=
  match v with
  | JBool b => Ok b
  | _ => Raise (TypeError "bool expected")
  end.

(** [from_dict]: [role] is a required key, unlike the status of an event or
    a registration. *)
Definition from_dict (now : datetime.t) (data : dict) : result t :=
  (user_id <- result_bind (getitem data "user_id") as_str ;;
   username <- result_bind (getitem data "username") as_str ;;
   email <- result_bind (getitem data "email") as_str ;;
   password <- result_bind (getitem data "password") as_str ;;
   role <- result_bind (getitem data "role") UserRole.of_value ;;
   full_name <- as_str (get data "full_name" (JStr "")) ;;
   created_at <- as_str (get data "created_at" (JStr (datetime.isoformat now))) ;;
   last_login <- as_optional_str (get data "last_login" JNull) ;;
   is_active <- as_bool (get data "is_active" (JBool true)) ;;
   Ok {| user_id := user_id;
         username := username;
         email := email;
         password := password;
         role := role;
         full_name := full_name;
         created_at := created_at;
         last_login := last_login;
         is_active := is_active |})%res.

Definition update_last_login (now : datetime.t) (self : t) : t :=
  {| user_id := user_id self;
     username := username self;
     email := email self;
     password := password self;
     role := role self;
     full_name := full_name self;
     created_at := created_at self;
     last_login := Some (datetime.isoformat now);
     is_active := is_active self |}.

Definition with_password (password : string) (self : t) : t :=
  {| user_id := user_id self;
     username := username self;
     email := email self;
     password := password;
     role := role self;
     full_name := full_name self;
     created_at := created_at self;
     last_login := last_login self;
     is_active := is_active self |}.

End User.

(** ** utils/file_manager.py: the two JSON files

[load_json(filename, [])] answers the list stored in the file (the empty
list when the file is missing), [save_json] replaces it.  [json.dump] of
the records that [dict] denotes does not fail, so the branch of [save_json]
that answers [False] is left to the operating system (a full disk, a
missing permission) and is not part of the model. *)

Record Store := mkStore {
  events_json : list dict;          (* data/events.json *)
  registrations_json : list dict    (* data/registrations.json *)
}.

Inductive filename := events_file | registrations_file.

(** The services' monad: the files are threaded through, and what was
  written before an exception stays written. *)
Definition M (A : Type) : Type := Store -> result A * Store.

Definition ret {A} (a : A) : M A := fun st => (Ok a, st).

Definition bind {A B} (m : M A) (k : A -> M B) : M B :=
  fun st =>
    match m st with
    | (Ok a, st') => k a st'
    | (Raise e, st') => (Raise e, st')
    end.

Definition lift {A} (r : result A) : M A := fun st => (r, st).

(** [try: body except Exception as e: return handler(e)] *)
Definition try_except {A} (body : M A) (handler : exn -> A) : M A :=
  fun st =>
    match body st with
    | (Ok a, st') => (Ok a, st')
    | (Raise e, st') => (Ok (handler e), st')
    end.

Declare Scope M_scope.
Delimit Scope M_scope with M.
Bind Scope M_scope with M.
Notation "x <- m ;; k" := (bind m (fun x => k))
  (at level 100, m at next level, right associativity) : M_scope.

Module FileManager.

Definition load_json (f : filename) : M (list dict) :=
  fun st =>
    (Ok (match f with
         | events_file => events_json st
         | registrations_file => registrations_json st
         end), st).

Definition save_json (f : filename) (data : list dict) : M bool :=
  fun st =>
    (Ok true,
     match f with
     | events_file =>
         {| events_json := data; registrations_json := registrations_json st |}
     | registrations_file =>
         {| events_json := events_json st; registrations_json := data |}
     end).

End FileManager.

(** [for i, d in enumerate(data): if d[key] == value: ...]: the first pair
  of [enumerate(data)] whose dictionary holds [value] under [key].  Looking
  at a dictionary without the key raises [KeyError]. *)
Fixpoint find_index (key value : string) (data : list dict) (i : nat)
    : result (option (nat * dict)) :=
  match data with
  | [] => Ok None
  | d :: rest =>
      (v <- getitem d key ;;
       if eq_str v value then Ok (Some (i, d)) else find_index key value rest (S i))%res
  end.

(** What the services answer: a dictionary with [success] and [message],
  and [registration] or [cancelled_count] where the operation adds it. *)
Record Result := mkResult {
  success : bool;
  message : string;
  registration : option Registration.t;
  cancelled_count : option nat
}.

Definition failure (msg : string) : Result :=
  {| success := false; message := msg; registration := None; cancelled_count := None |}.

Definition succeeded (msg : string) : Result :=
  {| success := true; message := msg; registration := None; cancelled_count := None |}.

(** ** services/event_service.py *)

Module EventService.

Section methods.

(** The clock reading that [from_dict] falls back on. *)
Variable now : datetime.t.

Fixpoint get_event_by_id_loop (event_id : string) (events_data : list dict)
    : result (option Event.t) :=
  match events_data with
  | [] => Ok None
  | event_data :: rest =>
      (v <- getitem event_data "event_id" ;;
       if eq_str v event_id
       then (event <- Event.from_dict now event_data ;; Ok (Some event))
       else get_event_by_id_loop event_id rest)%res
  end.

Definition get_event_by_id (event_id : string) : M (option Event.t) :=
  (events_data <- FileManager.load_json events_file ;;
   lift (get_event_by_id_loop event_id events_data))%M.

Definition _save_event (event : Event.t) : M bool :=
  (events_data <- FileManager.load_json events_file ;;
   i <- lift (find_index "event_id" (Event.event_id event) events_data 0) ;;
   FileManager.save_json events_file
     (match i with
      | Some (i, _) => <[i := Event.to_dict event]> events_data
      | None => events_data
      end))%M.

End methods.

Section more_methods.

(** As in [RegistrationService]: [clock 0] is what [from_dict] falls back
    on, [clock 1] is stamped on the record the call writes. *)
Variable clock : nat -> datetime.t.

(** [[Event.from_dict(d) for d in events_data]] *)
Fixpoint from_dicts (events_data : list dict) : result (list Event.t) :=
  match events_data with
  | [] => Ok []
  | event_data :: rest =>
      (event <- Event.from_dict (clock 0) event_data ;;
       events <- from_dicts rest ;;
       Ok (event :: events))%res
  end.

Definition get_all_events : M (list Event.t) :=
  (events_data <- FileManager.load_json events_file ;;
   lift (from_dicts events_data))%M.

Fixpoint get_events_by_organizer_loop (organizer_id : string) (events_data : list dict)
    : result (list Event.t) :=
  match events_data with
  | [] => Ok []
  | event_data :: rest =>
      (v <- getitem event_data "organizer_id" ;;
       if eq_str v organizer_id
       then (event <- Event.from_dict (clock 0) event_data ;;
             events <- get_events_by_organizer_loop organizer_id rest ;;
             Ok (event :: events))
       else get_events_by_organizer_loop organizer_id rest)%res
  end.

Definition get_events_by_organizer (organizer_id : string) : M (list Event.t) :=
  (events_data <- FileManager.load_json events_file ;;
   lift (get_events_by_organizer_loop organizer_id events_data))%M.

(** [del events_data[i]] for the first record with the id. *)
Definition delete_event (event_id : string) : M Result :=
  try_except
    (events_data <- FileManager.load_json events_file ;;
     i <- lift (find_index "event_id" event_id events_data 0) ;;
     match i with
     | Some (i, _) =>
         _ <- FileManager.save_json events_file (delete i events_data) ;;
         ret (succeeded "Xóa sự kiện thành công")
     | None => ret (failure "Không tìm thấy sự kiện")
     end)%M
    (fun e => failure ("Lỗi xóa sự kiện: " +:+ str_exn e)).

(** [cancel_event]: with a non-empty [reason] the source also sets
    [event.notes = reason], an attribute that [to_dict] does not write, so
    it is gone with the object. *)
Definition cancel_event (event_id reason : string) : M Result :=
  try_except
    (event <- get_event_by_id (clock 0) event_id ;;
     match event with
     | None => ret (failure "Không tìm thấy sự kiện")
     | Some event =>
         let event := Event.cancel (clock 1) event in
         _ <- _save_event event ;;
         ret (succeeded "Hủy sự kiện thành công")
     end)%M
    (fun e => failure ("Lỗi hủy sự kiện: " +:+ str_exn e)).

Definition complete_event (event_id : string) : M Result :=
  try_except
    (event <- get_event_by_id (clock 0) event_id ;;
     match event with
     | None => ret (failure "Không tìm thấy sự kiện")
     | Some event =>
         let event := Event.complete (clock 1) event in
         _ <- _save_event event ;;
         ret (succeeded "Đánh dấu hoàn thành sự kiện thành công")
     end)%M
    (fun e => failure ("Lỗi hoàn thành sự kiện: " +:+ str_exn e)).

(** [sorted(events, key=lambda x: x.current_attendees, reverse=True)]:
    Python's sort is stable, also with [reverse=True], so events with equal
    counts keep their order; the output of a stable sort is determined by
    the keys, and the insertion sort below is one. *)
Fixpoint insert_by_attendees (x : Event.t) (l : list Event.t) : list Event.t :=
  match l with
  | [] => [x]
  | y :: l' =>
      if bool_decide (Event.current_attendees y > Event.current_attendees x)
      then y :: insert_by_attendees x l'
      else x :: y :: l'
  end.

Definition sorted_by_attendees (l : list Event.t) : list Event.t :=
  foldr insert_by_attendees [] l.

(** [l[:limit]]: a negative [limit] counts from the end. *)
Definition slice_to {A} (limit : Z) (l : list A) : list A :=
  if bool_decide (limit < 0)
  then take (Z.to_nat (Z.of_nat (length l) + limit)) l
  else take (Z.to_nat limit) l.

Definition get_popular_events (limit : Z) : M (list Event.t) :=
  (events <- get_all_events ;;
   ret (slice_to limit (sorted_by_attendees events)))%M.

End more_methods.

End EventService.

(** ** services/registration_service.py *)

Module RegistrationService.

(** [f"reg_{secrets.token_hex(6)}"]; the token is the caller's. *)
Definition _generate_registration_id (token : string) : string := "reg_" +:+ token.

Definition MSG_EVENT_NOT_FOUND : string := "Không tìm thấy sự kiện".
Definition MSG_EVENT_NOT_AVAILABLE : string := "Sự kiện không sẵn sàng để đăng ký".
Definition MSG_ALREADY_REGISTERED : string := "Bạn đã đăng ký sự kiện này rồi".
Definition MSG_EVENT_FULL : string := "Sự kiện đã đầy, không thể đăng ký thêm".
Definition MSG_REGISTERED : string := "Đăng ký tham gia sự kiện thành công".
Definition MSG_REGISTRATION_NOT_FOUND : string := "Không tìm thấy đăng ký".
Definition MSG_ALREADY_CANCELLED : string := "Đăng ký đã được hủy hoặc không hợp lệ".
Definition MSG_CANCELLED : string := "Hủy đăng ký thành công".

Section methods.

Variable fromisoformat : string -> option datetime.t.

(** The readings of [datetime.now()] that a call keeps or compares:
    [clock 0] is the one [is_available_for_registration] compares with
    (and what [from_dict] falls back on), [clock 1], [clock 2], ... are
    stamped on the records in the order the call writes them. *)
Variable clock : nat -> datetime.t.

Fixpoint get_registration_loop (event_id user_id : string) (registrations_data : list dict)
    : result (option Registration.t) :=
  match registrations_data with
  | [] => Ok None
  | reg_data :: rest =>
      (e <- getitem reg_data "event_id" ;;
       matches <- (if eq_str e event_id
                   then (u <- getitem reg_data "user_id" ;; Ok (eq_str u user_id))
                   else Ok false) ;;
       if (matches : bool)
       then (r <- Registration.from_dict (clock 0) reg_data ;; Ok (Some r))
       else get_registration_loop event_id user_id rest)%res
  end.

Definition get_registration (event_id user_id : string) : M (option Registration.t) :=
  (registrations_data <- FileManager.load_json registrations_file ;;
   lift (get_registration_loop event_id user_id registrations_data))%M.

Fixpoint get_event_registrations_loop (event_id : string) (registrations_data : list dict)
    : result (list Registration.t) :=
  match registrations_data with
  | [] => Ok []
  | reg_data :: rest =>
      (e <- getitem reg_data "event_id" ;;
       if eq_str e event_id
       then (r <- Registration.from_dict (clock 0) reg_data ;;
             rs <- get_event_registrations_loop event_id rest ;;
             Ok (r :: rs))
       else get_event_registrations_loop event_id rest)%res
  end.

Definition get_event_registrations (event_id : string) : M (list Registration.t) :=
  (registrations_data <- FileManager.load_json registrations_file ;;
   lift (get_event_registrations_loop event_id registrations_data))%M.

Definition _save_registration (registration : Registration.t) : M bool :=
  (registrations_data <- FileManager.load_json registrations_file ;;
   i <- lift (find_index "registration_id" (Registration.registration_id registration)
                registrations_data 0) ;;
   FileManager.save_json registrations_file
     (match i with
      | Some (i, _) => <[i := Registration.to_dict registration]> registrations_data
      | None => registrations_data
      end))%M.

Definition register_for_event (token : string) (event_id user_id : string) : M Result :=
  try_except
    (event <- EventService.get_event_by_id (clock 0) event_id ;;
     match event with
     | None => ret (failure MSG_EVENT_NOT_FOUND)
     | Some event =>
         if negb (Event.is_available_for_registration fromisoformat (clock 0) event)
         then ret (failure MSG_EVENT_NOT_AVAILABLE)
         else
           existing_registration <- get_registration event_id user_id ;;
           if match existing_registration with
              | Some r => Registration.is_active r
              | None => false
              end
           then ret (failure MSG_ALREADY_REGISTERED)
           else if Event.is_full event
           then ret (failure MSG_EVENT_FULL)
           else
             let registration :=
               Registration.init (clock 1) (clock 2)
                 (_generate_registration_id token) event_id user_id in
             registrations_data <- FileManager.load_json registrations_file ;;
             _ <- FileManager.save_json registrations_file
                    (registrations_data ++ [Registration.to_dict registration]) ;;
             let event := snd (Event.add_attendee (clock 3) event) in
             _ <- EventService._save_event event ;;
             ret {| success := true;
                    message := MSG_REGISTERED;
                    registration := Some registration;
                    cancelled_count := None |}
     end)%M
    (fun e => failure ("Lỗi đăng ký: " +:+ str_exn e)).

Definition cancel_registration (event_id user_id reason : string) : M Result :=
  try_except
    (registration <- get_registration event_id user_id ;;
     match registration with
     | None => ret (failure MSG_REGISTRATION_NOT_FOUND)
     | Some registration =>
         if negb (Registration.is_active registration)
         then ret (failure MSG_ALREADY_CANCELLED)
         else
           let registration := Registration.cancel (clock 1) reason registration in
           _ <- _save_registration registration ;;
           event <- EventService.get_event_by_id (clock 0) event_id ;;
           _ <- match event with
                | Some event =>
                    let event := snd (Event.remove_attendee (clock 2) event) in
                    EventService._save_event event
                | None => ret true
                end ;;
           ret (succeeded MSG_CANCELLED)
     end)%M
    (fun e => failure ("Lỗi hủy đăng ký: " +:+ str_exn e)).

Definition mark_attendance (registration_id : string) (attended : bool) : M Result :=
  try_except
    (registrations_data <- FileManager.load_json registrations_file ;;
     i <- lift (find_index "registration_id" registration_id registrations_data 0) ;;
     match i with
     | Some (i, reg_data) =>
         registration <- lift (Registration.from_dict (clock 0) reg_data) ;;
         let registration :=
           if attended
           then Registration.mark_attended (clock 1) registration
           else Registration.mark_no_show (clock 1) registration in
         _ <- FileManager.save_json registrations_file
                (<[i := Registration.to_dict registration]> registrations_data) ;;
         ret (succeeded ("Đã đánh dấu " +:+
                          (if attended then "tham gia" else "không tham gia")))
     | None => ret (failure MSG_REGISTRATION_NOT_FOUND)
     end)%M
    (fun e => failure ("Lỗi đánh dấu tham gia: " +:+ str_exn e)).

(** The [for] loop of [bulk_cancel_event_registrations]: the registrations
    were read once, before the loop; each save reads the file again. *)
Fixpoint bulk_cancel_loop (reason : string) (event_registrations : list Registration.t)
    (cancelled_count : nat) : M nat :=
  match event_registrations with
  | [] => ret cancelled_count
  | registration :: rest =>
      if Registration.is_active registration
      then
        (let registration :=
           Registration.cancel (clock (S cancelled_count)) reason registration in
         _ <- _save_registration registration ;;
         bulk_cancel_loop reason rest (S cancelled_count))%M
      else bulk_cancel_loop reason rest cancelled_count
  end.

Definition bulk_cancel_event_registrations (event_id reason : string) : M Result :=
  try_except
    (event_registrations <- get_event_registrations event_id ;;
     cancelled_count <- bulk_cancel_loop reason event_registrations 0 ;;
     ret {| success := true;
            message := "Đã hủy " +:+ pretty cancelled_count +:+ " đăng ký";
            registration := None;
            cancelled_count := Some cancelled_count |})%M
    (fun e => failure ("Lỗi hủy đăng ký hàng loạt: " +:+ str_exn e)).
End methods.

Section more_methods.

Variable clock : nat -> datetime.t.

Fixpoint get_user_registrations_loop (user_id : string) (registrations_data : list dict)
    : result (list Registration.t) :=
  match registrations_data with
  | [] => Ok []
  | reg_data :: rest =>
      (u <- getitem reg_data "user_id" ;;
       if eq_str u user_id
       then (r <- Registration.from_dict (clock 0) reg_data ;;
             rs <- get_user_registrations_loop user_id rest ;;
             Ok (r :: rs))
       else get_user_registrations_loop user_id rest)%res
  end.

Definition get_user_registrations (user_id : string) : M (list Registration.t) :=
  (registrations_data <- FileManager.load_json registrations_file ;;
   lift (get_user_registrations_loop user_id registrations_data))%M.

(** [[Registration.from_dict(d) for d in registrations_data]] *)
Fixpoint from_dicts (registrations_data : list dict) : result (list Registration.t) :=
  match registrations_data with
  | [] => Ok []
  | reg_data :: rest =>
      (r <- Registration.from_dict (clock 0) reg_data ;;
       rs <- from_dicts rest ;;
       Ok (r :: rs))%res
  end.

Definition get_all_registrations : M (list Registration.t) :=
  (registrations_data <- FileManager.load_json registrations_file ;;
   lift (from_dicts registrations_data))%M.

(** The loop of [get_user_registered_events]: a registration that is
    filtered out, or whose event is not found, adds nothing. *)
Fixpoint get_user_registered_events_loop (include_cancelled : bool)
    (user_registrations : list Registration.t) : M (list (Event.t * Registration.t)) :=
  match user_registrations with
  | [] => ret []
  | registration :: rest =>
      if negb include_cancelled && negb (Registration.is_active registration)
      then get_user_registered_events_loop include_cancelled rest
      else
        (event <- EventService.get_event_by_id (clock 0)
                    (Registration.event_id registration) ;;
         registered_events <- get_user_registered_events_loop include_cancelled rest ;;
         ret (match event with
              | Some event => (event, registration) :: registered_events
              | None => registered_events
              end))%M
  end.

Definition get_user_registered_events (user_id : string) (include_cancelled : bool)
    : M (list (Event.t * Registration.t)) :=
  (user_registrations <- get_user_registrations user_id ;;
   get_user_registered_events_loop include_cancelled user_registrations)%M.

(** The inner dictionary of [event_statistics]. *)
Record EventStat := mkEventStat {
  total : nat;
  confirmed : nat;
  cancelled : nat;
  attended : nat
}.

Record Statistics := mkStatistics {
  total_registrations : nat;
  status_statistics : gmap string nat;
  event_statistics : gmap string EventStat
}.

(** [reg.status.value]; a raw value has no [value] attribute (Python's
    [AttributeError], which [exn] renders as a [TypeError]). *)
Definition status_tag (a : attr RegistrationStatus.t) : result string :=
  match a with
  | Member s => Ok (RegistrationStatus.value s)
  | Raw _ => Raise (TypeError "object has no attribute 'value'")
  end.

(** [if status not in status_stats: status_stats[status] = 0] and then
    [status_stats[status] += 1], for each registration in turn. *)
Fixpoint status_stats_loop (registrations : list Registration.t)
    (status_stats : gmap string nat) : result (gmap string nat) :=
  match registrations with
  | [] => Ok status_stats
  | reg :: rest =>
      (status <- status_tag (Registration.status reg) ;;
       status_stats_loop rest
         (<[status := S (default 0%nat (status_stats !! status))]> status_stats))%res
  end.

Definition status_equals (r : Registration.t) (s : RegistrationStatus.t) : bool :=
  match Registration.status r with
  | Member s' => bool_decide (s' = s)
  | Raw _ => false
  end.

(** One round of the second loop on the entry of the registration's event. *)
Definition count_registration (reg : Registration.t) (st : EventStat) : EventStat :=
  let st := {| total := S (total st); confirmed := confirmed st;
               cancelled := cancelled st; attended := attended st |} in
  if status_equals reg RegistrationStatus.CONFIRMED
  then {| total := total st; confirmed := S (confirmed st);
          cancelled := cancelled st; attended := attended st |}
  else if status_equals reg RegistrationStatus.CANCELLED
  then {| total := total st; confirmed := confirmed st;
          cancelled := S (cancelled st); attended := attended st |}
  else if status_equals reg RegistrationStatus.ATTENDED
  then {| total := total st; confirmed := confirmed st;
          cancelled := cancelled st; attended := S (attended st) |}
  else st.

Fixpoint event_stats_loop (registrations : list Registration.t)
    (event_stats : gmap string EventStat) : gmap string EventStat :=
  match registrations with
  | [] => event_stats
  | reg :: rest =>
      let event_id := Registration.event_id reg in
      let entry := default (mkEventStat 0 0 0 0) (event_stats !! event_id) in
      event_stats_loop rest (<[event_id := count_registration reg entry]> event_stats)
  end.

Definition get_registration_statistics : M Statistics :=
  (registrations <- get_all_registrations ;;
   status_stats <- lift (status_stats_loop registrations ∅) ;;
   ret {| total_registrations := length registrations;
          status_statistics := status_stats;
          event_statistics := event_stats_loop registrations ∅ |})%M.

End more_methods.

End RegistrationService.

(** ** services/auth_services.py

    The service keeps the users file and the logged-in user. *)

Module AuthService.

Record State := mkState {
  users_json : list dict;          (* data/users.json *)
  current_user : option User.t     (* self.current_user *)
}.

(** The answers of the service: [success], [message], and [user] where the
    operation adds it. *)
Record Answer := mkAnswer {
  success : bool;
  message : string;
  user : option User.t
}.

Definition refused (msg : string) : Answer :=
  {| success := false; message := msg; user := None |}.

Section methods.

(** [hashlib.sha256(password.encode()).hexdigest()] *)
Variable sha256_hexdigest : string -> string.

(** [clock 0] is what [from_dict] falls back on, [clock 1] is stamped on
    the record the call writes. *)
Variable clock : nat -> datetime.t.

Definition _hash_password (password : string) : string := sha256_hexdigest password.

(** [f"user_{secrets.token_hex(4)}"]; the token is the caller's. *)
Definition _generate_user_id (token : string) : string := "user_" +:+ token.

(** The loop shared by [get_user_by_username], [get_user_by_email] and
    [get_user_by_id]: the first record whose [key] holds [value]. *)
Fixpoint get_user_by (key value : string) (users_data : list dict) : result (option User.t) :=
  match users_data with
  | [] => Ok None
  | user_data :: rest =>
      (v <- getitem user_data key ;;
       if eq_str v value
       then (u <- User.from_dict (clock 0) user_data ;; Ok (Some u))
       else get_user_by key value rest)%res
  end.

Definition get_user_by_username (username : string) (st : State) : result (option User.t) :=
  get_user_by "username" username (users_json st).

Definition get_user_by_email (email : string) (st : State) : result (option User.t) :=
  get_user_by "email" email (users_json st).

Definition get_user_by_id (user_id : string) (st : State) : result (option User.t) :=
  get_user_by "user_id" user_id (users_json st).

(** [_update_user]: the file after it, or the exception of the loop. *)
Definition _update_user (u : User.t) (st : State) : result State :=
  (i <- find_index "user_id" (User.user_id u) (users_json st) 0 ;;
   Ok {| users_json := match i with
                       | Some (i, _) => <[i := User.to_dict u]> (users_json st)
                       | None => users_json st
                       end;
         current_user := current_user st |})%res.

Definition register_user (token username email password : string) (role : UserRole.t)
    (full_name : string) (st : State) : Answer * State :=
  match get_user_by_username username st with
  | Raise e => (refused ("Lỗi đăng ký: " +:+ str_exn e), st)
  | Ok (Some _) => (refused "Tên đăng nhập đã tồn tại", st)
  | Ok None =>
      match get_user_by_email email st with
      | Raise e => (refused ("Lỗi đăng ký: " +:+ str_exn e), st)
      | Ok (Some _) => (refused "Email đã được sử dụng", st)
      | Ok None =>
          let u := User.init (clock 1) (_generate_user_id token) username email
                     (_hash_password password) role full_name in
          ({| success := true; message := "Đăng ký thành công"; user := Some u |},
           {| users_json := users_json st ++ [User.to_dict u];
              current_user := current_user st |})
      end
  end.

Definition login (username password : string) (st : State) : Answer * State :=
  match get_user_by_username username st with
  | Raise e => (refused ("Lỗi đăng nhập: " +:+ str_exn e), st)
  | Ok None => (refused "Tên đăng nhập không tồn tại", st)
  | Ok (Some u) =>
      if negb (User.is_active u)
      then (refused "Tài khoản đã bị khóa", st)
      else if negb (bool_decide (User.password u = _hash_password password))
      then (refused "Mật khẩu không đúng", st)
      else
        let u := User.update_last_login (clock 1) u in
        match _update_user u st with
        | Raise e => (refused ("Lỗi đăng nhập: " +:+ str_exn e), st)
        | Ok st' =>
            ({| success := true; message := "Đăng nhập thành công"; user := Some u |},
             {| users_json := users_json st'; current_user := Some u |})
        end
  end.


Definition change_password (user_id old_password new_password : string) (st : State)
    : Answer * State :=
  match get_user_by_id user_id st with
  | Raise e => (refused ("Lỗi đổi mật khẩu: " +:+ str_exn e), st)
  | Ok None => (refused "Không tìm thấy user", st)
  | Ok (Some u) =>
      if negb (bool_decide (User.password u = _hash_password old_password))
      then (refused "Mật khẩu cũ không đúng", st)
      else
        match _update_user (User.with_password (_hash_password new_password) u) st with
        | Raise e => (refused ("Lỗi đổi mật khẩu: " +:+ str_exn e), st)
        | Ok st' =>
            ({| success := true; message := "Đổi mật khẩu thành công"; user := None |}, st')
        end
  end.

End methods.


Definition has_permission (action : string) (st : State) : bool :=
  match current_user st with
  | Some u => User.has_permission u action
  | None => false
  end.

End AuthService.

(** ** backend/main.py: the manager's guarded operations

    [current_user] is [self.auth_service.current_user] at the time of the
    call; the manager's methods have no [try] of their own, so an exception
    of [get_event_by_id] leaves them as it is. *)

Module CampusEventManager.

Section methods.

Variable fromisoformat : string -> option datetime.t.
Variable clock : nat -> datetime.t.
Variable current_user : option User.t.

Definition MSG_NOT_LOGGED_IN : string := "Chưa đăng nhập".
Definition MSG_EVENT_NOT_FOUND : string := "Không tìm thấy sự kiện".
Definition MSG_DELETE_DENIED : string := "Không có quyền xóa sự kiện này".
Definition MSG_EVENT_DELETED : string := "Sự kiện đã bị xóa".

(** Admin, or the Organizer who owns the event. *)
Definition may_manage (u : User.t) (event : Event.t) : bool :=
  bool_decide (User.role u = UserRole.ADMIN)
  || (bool_decide (User.role u = UserRole.ORGANIZER)
      && bool_decide (Event.organizer_id event = User.user_id u)).

Definition delete_event (event_id : string) : M Result :=
  match current_user with
  | None => ret (failure MSG_NOT_LOGGED_IN)
  | Some u =>
      (event <- EventService.get_event_by_id (clock 0) event_id ;;
       match event with
       | None => ret (failure MSG_EVENT_NOT_FOUND)
       | Some event =>
           if may_manage u event
           then
             _ <- RegistrationService.bulk_cancel_event_registrations clock
                    event_id MSG_EVENT_DELETED ;;
             EventService.delete_event event_id
           else ret (failure MSG_DELETE_DENIED)
       end)%M
  end.

Definition register_for_event (token event_id : string) : M Result :=
  match current_user with
  | None => ret (failure MSG_NOT_LOGGED_IN)
  | Some u =>
      RegistrationService.register_for_event fromisoformat clock token event_id
        (User.user_id u)
  end.

Definition cancel_registration (event_id reason : string) : M Result :=
  match current_user with
  | None => ret (failure MSG_NOT_LOGGED_IN)
  | Some u =>
      RegistrationService.cancel_registration clock event_id (User.user_id u) reason
  end.

(** The registrations of an event, for the Admin and for the Organizer who
    owns it; the empty list for everybody else. *)
Definition get_event_registrations (event_id : string) : M (list Registration.t) :=
  match current_user with
  | None => ret []
  | Some u =>
      if bool_decide (User.role u = UserRole.ADMIN)
      then RegistrationService.get_event_registrations clock event_id
      else if bool_decide (User.role u = UserRole.ORGANIZER)
      then
        (event <- EventService.get_event_by_id (clock 0) event_id ;;
         match event with
         | Some event =>
             if bool_decide (Event.organizer_id event = User.user_id u)
             then RegistrationService.get_event_registrations clock event_id
             else ret []
         | None => ret []
         end)%M
      else ret []
  end.

End methods.

End CampusEventManager.

(** ** The coordinator's operations as a transition system *)

Inductive Op :=
  | Register (clock : nat -> datetime.t) (token event_id user_id : string)
  | Cancel (clock : nat -> datetime.t) (event_id user_id reason : string)
  | BulkCancel (clock : nat -> datetime.t) (event_id reason : string)
  | MarkAttendance (clock : nat -> datetime.t) (registration_id : string) (attended : bool).

Definition call (fromisoformat : string -> option datetime.t) (op : Op) : M Result :=
  match op with
  | Register clock token event_id user_id =>
      RegistrationService.register_for_event fromisoformat clock token event_id user_id
  | Cancel clock event_id user_id reason =>
      RegistrationService.cancel_registration clock event_id user_id reason
  | BulkCancel clock event_id reason =>
      RegistrationService.bulk_cancel_event_registrations clock event_id reason
  | MarkAttendance clock registration_id attended =>
      RegistrationService.mark_attendance clock registration_id attended
  end.

Definition step (fromisoformat : string -> option datetime.t) (st : Store) (op : Op) : Store :=
  snd (call fromisoformat op st).

Definition run (fromisoformat : string -> option datetime.t) (st : Store) (ops : list Op) : Store :=
  fold_left (step fromisoformat) ops st.

(** ** Files written by the application

A file the services wrote holds the [to_dict] image of each record. *)

Definition written (es : list Event.t) (rs : list Registration.t) : Store :=
  {| events_json := Event.to_dict <$> es;
     registrations_json := Registration.to_dict <$> rs |}.

Definition Registration_wf (r : Registration.t) : Prop := is_member (Registration.status r).

Definition Event_wf (e : Event.t) : Prop :=
  is_member (Event.category e) /\ is_member (Event.status e).

(** ** Files of well-typed records

A record is well typed when each attribute it holds has the JSON type of
the constructor's annotation.  Keys may be missing, other keys may be
there, and [status] and [category] may hold any value: the enum constructors
answer those with [ValueError]. *)

Definition is_str (v : json) : Prop :=
  match v with
  | JStr _ => True
  | _ => False
  end.

Definition is_int (v : json) : Prop :=
  match v with
  | JInt _ => True
  | _ => False
  end.

Definition is_list (v : json) : Prop :=
  match v with
  | JList _ => True
  | _ => False
  end.

(** What [d] holds under [key], if anything, is of the kind [ok]. *)
Definition typed_at (ok : json -> Prop) (d : dict) (key : string) : Prop :=
  match d !! key with
  | Some v => ok v
  | None => True
  end.

Definition event_typed (d : dict) : Prop :=
  Forall (typed_at is_str d)
    ["event_id"; "title"; "description"; "organizer_id"; "event_date"; "location";
     "created_at"; "updated_at"]
  /\ Forall (typed_at is_int d) ["max_capacity"; "current_attendees"]
  /\ typed_at is_list d "tags".

Definition registration_typed (d : dict) : Prop :=
  Forall (typed_at is_str d)
    ["registration_id"; "event_id"; "user_id"; "registered_at"; "updated_at"; "notes"].

Definition typed (st : Store) : Prop :=
  Forall event_typed (events_json st) /\ Forall registration_typed (registrations_json st).

(** The registration of a pair, and of an event. *)
Definition for_pair (event_id user_id : string) (r : Registration.t) : Prop :=
  Registration.event_id r = event_id /\ Registration.user_id r = user_id.

#[global] Instance for_pair_dec event_id user_id r : Decision (for_pair event_id user_id r).
Proof. unfold for_pair. apply _. Defined.

(** The active registrations of a pair in a file of records. *)
Definition active_for (event_id user_id : string) (rs : list Registration.t) : list Registration.t :=
  filter (fun r => for_pair event_id user_id r /\ Registration.is_active r = true) rs.

(** The uniqueness invariant of the data model. *)
Definition unique_active (rs : list Registration.t) : Prop :=
  forall event_id user_id, (length (active_for event_id user_id rs) <= 1)%nat.

(** The statuses with no outgoing transition in the spec's state machine. *)
Definition terminal (s : RegistrationStatus.t) : bool :=
  bool_decide (s ∈ [RegistrationStatus.CANCELLED; RegistrationStatus.ATTENDED;
                    RegistrationStatus.NO_SHOW]).

(** A stored record whose [status] is one of the terminal tags. *)
Definition terminal_dict (d : dict) : Prop :=
  exists s, d !! "status" = Some (JStr (RegistrationStatus.value s)) /\ terminal s = true.

(** One registrations file takes over the terminal records of another:
  wherever the first holds a record with a terminal status, the second
  holds one too. *)
Definition absorbs (regs regs' : list dict) : Prop :=
  forall i d, regs !! i = Some d -> terminal_dict d ->
    exists d', regs' !! i = Some d' /\ terminal_dict d'.

Definition marks (op : Op) : bool :=
  match op with
  | MarkAttendance _ _ _ => true
  | _ => false
  end.

(** The registrations that [bulk_cancel_event_registrations] cancels. *)
Definition active_of_event (event_id : string) (r : Registration.t) : Prop :=
  Registration.event_id r = event_id /\ Registration.is_active r = true.

#[global] Instance active_of_event_dec event_id r : Decision (active_of_event event_id r).
Proof. unfold active_of_event. apply _. Defined.

(** One pass over a file of records that cancels the active registrations of
  the event, the [k+1]-th of them with the reading [clock (S k)]. *)
Fixpoint cancel_sweep (clock : nat -> datetime.t) (event_id reason : string)
    (k : nat) (rs : list Registration.t) : list Registration.t :=
  match rs with
  | [] => []
  | r :: rest =>
      if decide (active_of_event event_id r)
      then Registration.cancel (clock (S k)) reason r
             :: cancel_sweep clock event_id reason (S k) rest
      else r :: cancel_sweep clock event_id reason k rest
  end.

(** The actions the permission table lists for an Admin. *)
Definition admin_actions : list string :=
  ["create_event"; "update_event"; "delete_event";
   "view_all_events"; "view_all_users"; "generate_reports"].

(** ** Sample data for the closed examples *)

(** A parser that agrees with [datetime.fromisoformat] on the strings the
  examples use: two timestamps, and text that is no date. *)
Definition sample_fromisoformat (s : string) : option datetime.t :=
  if bool_decide (s = "2030-06-01T09:00:00") then Some (datetime.mk 1906534800 false s)
  else if bool_decide (s = "2020-01-01T09:00:00") then Some (datetime.mk 1577869200 false s)
  else None.

Definition sample_clock (k : nat) : datetime.t :=
  datetime.mk (1780000000 + Z.of_nat k) false ("2026-05-28T20:26:4" +:+ pretty k).

Definition sample_event (event_date : string) (max_capacity current_attendees : Z) : Event.t :=
  {| Event.event_id := "event_a1";
     Event.title := "Robotics workshop";
     Event.description := "Line followers";
     Event.organizer_id := "user_org";
     Event.event_date := event_date;
     Event.location := "Hall A";
     Event.max_capacity := max_capacity;
     Event.category := Member EventCategory.WORKSHOP;
     Event.status := Member EventStatus.ACTIVE;
     Event.created_at := "2026-01-10T08:00:00";
     Event.updated_at := "2026-01-10T08:00:00";
     Event.current_attendees := current_attendees;
     Event.tags := [] |}.

Definition sample_registration (registration_id user_id : string)
    (status : attr RegistrationStatus.t) : Registration.t :=
  {| Registration.registration_id := registration_id;
     Registration.event_id := "event_a1";
     Registration.user_id := user_id;
     Registration.status := status;
     Registration.registered_at := "2026-02-01T10:00:00";
     Registration.updated_at := "2026-02-01T10:00:00";
     Registration.notes := "" |}.

Definition sample_admin : User.t :=
  {| User.user_id := "user_adm";
     User.username := "admin";
     User.email := "admin@campus.edu";
     User.password := "secret";
     User.role := UserRole.ADMIN;
     User.full_name := "Administrator";
     User.created_at := "2026-01-01T00:00:00";
     User.last_login := None;
     User.is_active := true |}.

(** An event on which [update(status=...)] stored a string that names no
  member of [EventStatus]. *)
Definition sample_event_raw_status : Event.t :=
  {| Event.event_id := "event_a1";
     Event.title := "Robotics workshop";
     Event.description := "Line followers";
     Event.organizer_id := "user_org";
     Event.event_date := "2030-06-01T09:00:00";
     Event.location := "Hall A";
     Event.max_capacity := 5;
     Event.category := Member EventCategory.WORKSHOP;
     Event.status := Raw (JStr "postponed");
     Event.created_at := "2026-01-10T08:00:00";
     Event.updated_at := "2026-01-10T08:00:00";
     Event.current_attendees := 0;
     Event.tags := [] |}.

(** Three registrations of the sample event with distinct ids. *)
Definition sample_registrations : list Registration.t :=
  [sample_registration "reg_01" "user_s1" (Member RegistrationStatus.CONFIRMED);
   sample_registration "reg_02" "user_s2" (Member RegistrationStatus.CANCELLED);
   sample_registration "reg_03" "user_s3" (Member RegistrationStatus.CONFIRMED)].

(** A run in which a student registers, cancels, and registers twice more. *)
Definition reregistration_ops : list Op :=
  [Register sample_clock "0a0a0a0a0a0a" "event_a1" "user_s1";
   Cancel sample_clock "event_a1" "user_s1" "timetable clash";
   Register sample_clock "1b1b1b1b1b1b" "event_a1" "user_s1";
   Register sample_clock "2c2c2c2c2c2c" "event_a1" "user_s1"].

(** ** Orders and counts used by the statements *)

(** Events in descending order of [current_attendees]. *)
Definition descending_attendance (l : list Event.t) : Prop :=
  forall i j a b,
    l !! i = Some a -> l !! j = Some b -> (i <= j)%nat ->
    Event.current_attendees b <= Event.current_attendees a.

(** Two more events for the examples. *)
Definition sample_event_b2 (current_attendees : Z) : Event.t :=
  {| Event.event_id := "event_b2";
     Event.title := "Chess night";
     Event.description := "Rapid games";
     Event.organizer_id := "user_org";
     Event.event_date := "2030-07-01T18:00:00";
     Event.location := "Library";
     Event.max_capacity := 40;
     Event.category := Member EventCategory.CULTURAL;
     Event.status := Member EventStatus.ACTIVE;
     Event.created_at := "2026-01-11T08:00:00";
     Event.updated_at := "2026-01-11T08:00:00";
     Event.current_attendees := current_attendees;
     Event.tags := ["games"] |}.

Definition sample_event_c3 (current_attendees : Z) : Event.t :=
  {| Event.event_id := "event_c3";
     Event.title := "Career fair";
     Event.description := "Employers on campus";
     Event.organizer_id := "user_org2";
     Event.event_date := "2030-08-01T09:00:00";
     Event.location := "Gym";
     Event.max_capacity := 300;
     Event.category := Member EventCategory.OTHER;
     Event.status := Member EventStatus.ACTIVE;
     Event.created_at := "2026-01-12T08:00:00";
     Event.updated_at := "2026-01-12T08:00:00";
     Event.current_attendees := current_attendees;
     Event.tags := [] |}.

(** An event record whose count lies between 0 and its capacity. *)
Definition capacity_ok (d : dict) : Prop :=
  exists c m,
    d !! "current_attendees" = Some (JInt c)
    /\ d !! "max_capacity" = Some (JInt m)
    /\ 0 <= c <= m.

(** The second registrations file has a record wherever the first has one,
    and under the same [registration_id]. *)
Definition keeps_ids (regs regs' : list dict) : Prop :=
  forall i d,
    regs !! i = Some d ->
    exists d', regs' !! i = Some d' /\ d' !! "registration_id" = d !! "registration_id".

(** A registration paired with the event it points to, when that event is
    stored. *)
Definition with_event (es : list Event.t) (r : Registration.t)
    : option (Event.t * Registration.t) :=
  match list_find (fun e => Event.event_id e = Registration.event_id r) es with
  | Some (_, e) => Some (e, r)
  | None => None
  end.

(** How many of the registrations have the status [s]. *)
Definition count_status (s : RegistrationStatus.t) (rs : list Registration.t) : nat :=
  length (filter (fun r => RegistrationService.status_equals r s = true) rs).

(** A stand-in for [sha256(...).hexdigest()] in the examples. *)
Definition sample_sha256 (password : string) : string := "sha256:" +:+ password.

Definition sample_student : User.t :=
  {| User.user_id := "user_s1";
     User.username := "student1";
     User.email := "student1@campus.edu";
     User.password := sample_sha256 "student123";
     User.role := UserRole.STUDENT;
     User.full_name := "Student One";
     User.created_at := "2026-01-02T00:00:00";
     User.last_login := None;
     User.is_active := true |}.


(** An event record that has lost its [event_id] and its [title] but is
    well typed, in front of a whole one. *)
Definition sample_untitled_event : dict :=
  list_to_map [("description", JStr "Line followers"); ("max_capacity", JInt 5);
               ("status", JStr "postponed")].

(** ** Proof steps for the services' monad *)

Ltac unfold_M :=
  unfold bind, ret, lift, try_except, FileManager.load_json, FileManager.save_json in *.

Ltac reduce_M := unfold ret; cbn [snd fst registrations_json events_json].

(** * Proofs *)

(** ** Dictionaries and the two round trips *)

Lemma eq_str_JStr a b : eq_str (JStr a) b = bool_decide (a = b).
Proof. reflexivity. Qed.

Lemma RegistrationStatus_of_value s :
  RegistrationStatus.of_value (JStr (RegistrationStatus.value s)) = Ok s.
Proof. by destruct s. Qed.

Lemma EventStatus_of_value s : EventStatus.of_value (JStr (EventStatus.value s)) = Ok s.
Proof. by destruct s. Qed.

Lemma EventCategory_of_value c : EventCategory.of_value (JStr (EventCategory.value c)) = Ok c.
Proof. by destruct c. Qed.

Lemma Registration_from_to_dict now r :
  Registration_wf r -> Registration.from_dict now (Registration.to_dict r) = Ok r.
Proof.
  destruct r as [rid eid uid [s|v] reg upd notes]; [intros _|intros []].
  unfold Registration.from_dict, Registration.to_dict, getitem, get.
  by destruct s.
Qed.

Lemma Event_from_to_dict now e :
  Event_wf e -> Event.from_dict now (Event.to_dict e) = Ok e.
Proof.
  destruct e as [eid ti de org date loc cap [c|v] [s|w] cr upd cur tags];
    intros [Hc Hs]; try destruct Hc; try destruct Hs.
  unfold Event.from_dict, Event.to_dict, getitem, get.
  by destruct c, s.
Qed.

(** What [from_dict] makes of a [to_dict] image, whatever the enum-valued
    attributes hold. *)
Lemma Registration_from_to_dict_any now r :
  Registration.from_dict now (Registration.to_dict r)
  = (s <- RegistrationStatus.of_value (Registration.status_value (Registration.status r)) ;;
     Ok (Registration.with_status (Member s) r))%res.
Proof. by destruct r. Qed.

Lemma Event_from_to_dict_any now e :
  Event.from_dict now (Event.to_dict e)
  = (c <- EventCategory.of_value (Event.category_value (Event.category e)) ;;
     s <- EventStatus.of_value (Event.status_value (Event.status e)) ;;
     Ok (Event.with_enums (Member c) (Member s) e))%res.
Proof. by destruct e. Qed.

(** [from_dict] only builds records whose enum attributes hold members. *)
Lemma Registration_from_dict_wf now data r :
  Registration.from_dict now data = Ok r -> Registration_wf r.
Proof.
  unfold Registration.from_dict, result_bind. intros H.
  repeat match type of H with
         | match ?x with _ => _ end = _ => destruct x; try discriminate
         end.
  by injection H as <-.
Qed.

Lemma Event_from_dict_wf now data e : Event.from_dict now data = Ok e -> Event_wf e.
Proof.
  unfold Event.from_dict, result_bind. intros H.
  repeat match type of H with
         | match ?x with _ => _ end = _ => destruct x; try discriminate
         end.
  by injection H as <-.
Qed.

Lemma Registration_to_dict_id r :
  Registration.to_dict r !! "registration_id" = Some (JStr (Registration.registration_id r)).
Proof. reflexivity. Qed.

Lemma Registration_to_dict_event r :
  Registration.to_dict r !! "event_id" = Some (JStr (Registration.event_id r)).
Proof. reflexivity. Qed.

Lemma Registration_to_dict_user r :
  Registration.to_dict r !! "user_id" = Some (JStr (Registration.user_id r)).
Proof. reflexivity. Qed.

Lemma Registration_to_dict_status r :
  Registration.to_dict r !! "status" = Some (Registration.status_value (Registration.status r)).
Proof. reflexivity. Qed.

Lemma Event_to_dict_id e :
  Event.to_dict e !! "event_id" = Some (JStr (Event.event_id e)).
Proof. reflexivity. Qed.

(** ** The loops on files the application wrote *)

Section find_index_written.

Context {A : Type} (to_dict : A -> dict) (key : string) (proj : A -> string).
Hypothesis to_dict_key : forall a, to_dict a !! key = Some (JStr (proj a)).

Lemma find_index_fmap value l i :
  find_index key value (to_dict <$> l) i
  = Ok (prod_map (fun j => (i + j)%nat) to_dict <$> list_find (fun a => proj a = value) l).
Proof.
  revert i. induction l as [|a l IH]; intros i; [reflexivity|].
  cbn [fmap list_fmap find_index list_find]. unfold getitem. rewrite to_dict_key.
  cbn [result_bind]. rewrite eq_str_JStr.
  destruct (decide (proj a = value)) as [Heq|Hne].
  - rewrite bool_decide_eq_true_2 by done. cbn. by rewrite Nat.add_0_r.
  - rewrite bool_decide_eq_false_2 by done. rewrite IH.
    destruct (list_find _ l) as [[j x]|]; cbn; [|done].
    do 3 f_equal. lia.
Qed.

End find_index_written.

Lemma find_index_registrations rid rs :
  find_index "registration_id" rid (Registration.to_dict <$> rs) 0
  = Ok (prod_map id Registration.to_dict
          <$> list_find (fun r => Registration.registration_id r = rid) rs).
Proof.
  rewrite (find_index_fmap Registration.to_dict "registration_id"
             Registration.registration_id Registration_to_dict_id).
  by destruct (list_find _ rs) as [[j x]|].
Qed.

Lemma find_index_events eid es :
  find_index "event_id" eid (Event.to_dict <$> es) 0
  = Ok (prod_map id Event.to_dict <$> list_find (fun e => Event.event_id e = eid) es).
Proof.
  rewrite (find_index_fmap Event.to_dict "event_id" Event.event_id Event_to_dict_id).
  by destruct (list_find _ es) as [[j x]|].
Qed.

Lemma get_event_by_id_loop_written now eid es :
  Forall Event_wf es ->
  EventService.get_event_by_id_loop now eid (Event.to_dict <$> es)
  = Ok (snd <$> list_find (fun e => Event.event_id e = eid) es).
Proof.
  induction 1 as [|e es He _ IH]; [reflexivity|].
  cbn [fmap list_fmap EventService.get_event_by_id_loop list_find].
  unfold getitem. rewrite Event_to_dict_id. cbn [result_bind]. rewrite eq_str_JStr.
  destruct (decide (Event.event_id e = eid)) as [Heq|Hne].
  - rewrite bool_decide_eq_true_2 by done. by rewrite Event_from_to_dict.
  - rewrite bool_decide_eq_false_2 by done. rewrite IH.
    by destruct (list_find _ es) as [[j x]|].
Qed.

Lemma get_registration_loop_written clock eid uid rs :
  Forall Registration_wf rs ->
  RegistrationService.get_registration_loop clock eid uid (Registration.to_dict <$> rs)
  = Ok (snd <$> list_find (for_pair eid uid) rs).
Proof.
  induction 1 as [|r rs Hr _ IH]; [reflexivity|].
  cbn [fmap list_fmap RegistrationService.get_registration_loop list_find].
  unfold getitem. rewrite Registration_to_dict_event, Registration_to_dict_user.
  cbn [result_bind]. rewrite !eq_str_JStr.
  destruct (decide (for_pair eid uid r)) as [[He Hu]|Hne].
  - rewrite !bool_decide_eq_true_2 by done. cbn [result_bind].
    by rewrite Registration_from_to_dict.
  - assert ((if bool_decide (Registration.event_id r = eid)
             then Ok (bool_decide (Registration.user_id r = uid))
             else Ok false) = Ok false) as ->.
    { repeat case_bool_decide; try done. by destruct Hne. }
    cbn [result_bind]. rewrite IH. by destruct (list_find _ rs) as [[j x]|].
Qed.

Lemma get_event_registrations_loop_written clock eid rs :
  Forall Registration_wf rs ->
  RegistrationService.get_event_registrations_loop clock eid (Registration.to_dict <$> rs)
  = Ok (filter (fun r => Registration.event_id r = eid) rs).
Proof.
  induction 1 as [|r rs Hr _ IH]; [reflexivity|].
  cbn [fmap list_fmap RegistrationService.get_event_registrations_loop].
  unfold getitem. rewrite Registration_to_dict_event. cbn [result_bind]. rewrite eq_str_JStr.
  rewrite filter_cons. destruct (decide (Registration.event_id r = eid)) as [Heq|Hne].
  - rewrite bool_decide_eq_true_2 by done. rewrite Registration_from_to_dict by done.
    cbn [result_bind]. by rewrite IH.
  - by rewrite bool_decide_eq_false_2.
Qed.

(** ** The services, one call at a time *)

Lemma get_registration_run clock eid uid st :
  RegistrationService.get_registration clock eid uid st
  = (RegistrationService.get_registration_loop clock eid uid (registrations_json st), st).
Proof. reflexivity. Qed.

Lemma get_event_registrations_run clock eid st :
  RegistrationService.get_event_registrations clock eid st
  = (RegistrationService.get_event_registrations_loop clock eid (registrations_json st), st).
Proof. reflexivity. Qed.

Lemma get_event_by_id_run now eid st :
  EventService.get_event_by_id now eid st
  = (EventService.get_event_by_id_loop now eid (events_json st), st).
Proof. reflexivity. Qed.

(** ** C2: what an Admin may do *)

(** C2, as the code has it: for a user whose role is Admin,
    [has_permission(action)] is true exactly for the six actions listed under
    [UserRole.ADMIN] in the permission table, and false for every other
    action string. *)
Theorem has_permission_admin (u : User.t) (action : string) :
  User.role u = UserRole.ADMIN ->
  User.has_permission u action = true <-> action ∈ admin_actions.
Proof.
  intros Hrole. unfold User.has_permission. rewrite Hrole.
  change (User.items_get User.permissions UserRole.ADMIN []) with admin_actions.
  apply bool_decide_eq_true.
Qed.

Lemma has_permission_admin_witness :
  User.has_permission sample_admin "delete_event" = true <-> "delete_event" ∈ admin_actions.
Proof. apply (has_permission_admin sample_admin "delete_event"). reflexivity. Defined.

(** C2 fails as stated: an Admin is refused [register_event], an action the
    table grants to students and visitors. *)
Lemma has_permission_admin_counterexample :
  User.role sample_admin = UserRole.ADMIN
  /\ User.has_permission sample_admin "register_event" = false.
Proof. split; reflexivity. Qed.

(** ** C5: availability for registration *)

(** C5, as the code has it: an event is available exactly when its status is
    Active, it has a free slot, and its date does not lie in the past or
    present: a date that parses and compares must be strictly later than
    now, and a date that does not parse (or cannot be compared with the
    naive [now]) counts as available. *)
Theorem is_available_for_registration_iff
    (fromisoformat : string -> option datetime.t) (now : datetime.t) (e : Event.t) :
  Event.is_available_for_registration fromisoformat now e = true
  <-> (Event.status e = Member EventStatus.ACTIVE
       /\ Event.current_attendees e < Event.max_capacity e
       /\ forall d, fromisoformat (Event.event_date e) = Some d ->
                    datetime.gt d now <> Some false).
Proof.
  unfold Event.is_available_for_registration, Event.status_is.
  destruct (Event.status e) as [s|v] eqn:Hs; cbn [negb].
  2:{ split; [done|]. intros [? _]. done. }
  case_bool_decide as Hact; cbn [negb].
  2:{ split; [done|]. intros [[= ->] _]. done. }
  subst s. case_bool_decide as Hfull.
  { split; [done|]. intros (_ & ? & _). lia. }
  destruct (fromisoformat (Event.event_date e)) as [d|].
  - destruct (datetime.gt d now) as [[]|] eqn:Hgt.
    + split; [|done]. intros _. repeat split; [lia|]. intros d' [= <-]. by rewrite Hgt.
    + split; [done|]. intros (_ & _ & H). by destruct (H d).
    + split; [|done]. intros _. repeat split; [lia|]. intros d' [= <-]. by rewrite Hgt.
  - split; [|done]. intros _. repeat split; [lia|]. done.
Qed.

(** C5 fails as stated: an Active event with free slots whose date is text
    that [fromisoformat] rejects is available, although it has no date in
    the future. *)
Lemma is_available_for_registration_counterexample :
  sample_fromisoformat (Event.event_date (sample_event "TBA" 10 3)) = None
  /\ Event.is_available_for_registration sample_fromisoformat (sample_clock 0)
       (sample_event "TBA" 10 3) = true.
Proof. split; reflexivity. Qed.

(** ** C8: cancelling what is not active *)

(** C8: when the registration that [get_registration] fetches for the pair is
    not active (Cancelled, Attended or NoShow), [cancel_registration]
    answers the "already cancelled" failure and writes nothing: both files,
    and so the event's [current_attendees], are as before. *)
Theorem cancel_registration_already_cancelled
    (clock : nat -> datetime.t) (event_id user_id reason : string)
    (st : Store) (r : Registration.t) :
  fst (RegistrationService.get_registration clock event_id user_id st) = Ok (Some r) ->
  Registration.is_active r = false ->
  RegistrationService.cancel_registration clock event_id user_id reason st
  = (Ok (failure RegistrationService.MSG_ALREADY_CANCELLED), st).
Proof.
  intros Hget Hact. rewrite get_registration_run in Hget. cbn [fst] in Hget.
  unfold RegistrationService.cancel_registration, try_except, bind.
  by rewrite get_registration_run, Hget, Hact.
Qed.

Lemma cancel_registration_already_cancelled_witness :
  RegistrationService.cancel_registration sample_clock "event_a1" "user_s1" "changed my mind"
    (written [sample_event "2030-06-01T09:00:00" 5 0]
             [sample_registration "reg_01" "user_s1" (Member RegistrationStatus.CANCELLED)])
  = (Ok (failure RegistrationService.MSG_ALREADY_CANCELLED),
     written [sample_event "2030-06-01T09:00:00" 5 0]
             [sample_registration "reg_01" "user_s1" (Member RegistrationStatus.CANCELLED)]).
Proof.
  apply (cancel_registration_already_cancelled sample_clock "event_a1" "user_s1" _ _
           (sample_registration "reg_01" "user_s1" (Member RegistrationStatus.CANCELLED)));
    reflexivity.
Defined.

(** ** C9: the serialization round trip *)

(** C9, as the code has it: for every Registration whose [status] holds a
    member of [RegistrationStatus], and every Event whose [category] and
    [status] hold members of their enums (what the constructors, [from_dict]
    and the lifecycle methods store), [from_dict(to_dict(x))] returns [x],
    every field reproduced.  [to_dict] also accepts an attribute holding
    another value; in general [from_dict(to_dict(x))] is [x] with the enum
    members named by those values in their place, and raises [ValueError]
    when a value names no member. *)
Theorem from_dict_to_dict :
  (forall now r, Registration_wf r ->
     Registration.from_dict now (Registration.to_dict r) = Ok r)
  /\ (forall now e, Event_wf e ->
        Event.from_dict now (Event.to_dict e) = Ok e)
  /\ (forall now r,
        Registration.from_dict now (Registration.to_dict r)
        = match RegistrationStatus.of_value
                  (Registration.status_value (Registration.status r)) with
          | Ok s => Ok (Registration.with_status (Member s) r)
          | Raise err => Raise err
          end)
  /\ (forall now e,
        Event.from_dict now (Event.to_dict e)
        = match EventCategory.of_value (Event.category_value (Event.category e)) with
          | Ok c =>
              match EventStatus.of_value (Event.status_value (Event.status e)) with
              | Ok s => Ok (Event.with_enums (Member c) (Member s) e)
              | Raise err => Raise err
              end
          | Raise err => Raise err
          end).
Proof.
  split; [apply Registration_from_to_dict|].
  split; [apply Event_from_to_dict|].
  split.
  - intros now r. apply Registration_from_to_dict_any.
  - intros now e. apply Event_from_to_dict_any.
Qed.

Lemma from_dict_to_dict_witness :
  Registration.from_dict (sample_clock 0)
    (Registration.to_dict (sample_registration "reg_01" "user_s1" (Member RegistrationStatus.ATTENDED)))
  = Ok (sample_registration "reg_01" "user_s1" (Member RegistrationStatus.ATTENDED))
  /\ Event.from_dict (sample_clock 0) (Event.to_dict (sample_event "2030-06-01T09:00:00" 5 2))
     = Ok (sample_event "2030-06-01T09:00:00" 5 2).
Proof.
  split.
  - apply (proj1 from_dict_to_dict). exact I.
  - apply (proj1 (proj2 from_dict_to_dict)). split; exact I.
Defined.

(** C9 fails as stated: [to_dict] writes the raw status as it is, and
    [from_dict] raises on it instead of returning the event. *)
Lemma from_dict_to_dict_counterexample :
  Event.to_dict sample_event_raw_status !! "status" = Some (JStr "postponed")
  /\ Event.from_dict (sample_clock 0) (Event.to_dict sample_event_raw_status)
     = Raise (ValueError "'postponed' is not a valid EventStatus").
Proof. split; reflexivity. Qed.

(** ** Saving a record *)

Lemma _save_registration_written r evs rs :
  RegistrationService._save_registration r (mkStore evs (Registration.to_dict <$> rs))
  = (Ok true,
     mkStore evs (Registration.to_dict <$>
       match list_find (fun x => Registration.registration_id x
                                 = Registration.registration_id r) rs with
       | Some (j, _) => <[j := r]> rs
       | None => rs
       end)).
Proof.
  unfold RegistrationService._save_registration. unfold_M. cbn [registrations_json events_json].
  rewrite find_index_registrations.
  destruct (list_find _ rs) as [[j x]|]; cbn; [|done].
  by rewrite list_fmap_insert.
Qed.

Lemma _save_event_written e es regs :
  EventService._save_event e (mkStore (Event.to_dict <$> es) regs)
  = (Ok true,
     mkStore (Event.to_dict <$>
       match list_find (fun x => Event.event_id x = Event.event_id e) es with
       | Some (j, _) => <[j := e]> es
       | None => es
       end) regs).
Proof.
  unfold EventService._save_event. unfold_M. cbn [registrations_json events_json].
  rewrite find_index_events.
  destruct (list_find _ es) as [[j x]|]; cbn; [|done].
  by rewrite list_fmap_insert.
Qed.

(** Saving an event leaves the registrations file alone. *)
Lemma _save_event_registrations e st :
  registrations_json (snd (EventService._save_event e st)) = registrations_json st.
Proof.
  unfold EventService._save_event. unfold_M.
  by destruct (find_index _ _ _ _) as [[[j x]|]|].
Qed.

(** The first record that carries the id of a stored record comes no later
    than that record, and is that record when ids are not repeated. *)
Lemma first_with_id (rs : list Registration.t) i r :
  rs !! i = Some r ->
  exists j r0,
    list_find (fun x => Registration.registration_id x = Registration.registration_id r) rs
      = Some (j, r0)
    /\ (j <= i)%nat
    /\ (NoDup (Registration.registration_id <$> rs) -> j = i /\ r0 = r).
Proof.
  intros Hi.
  destruct (list_find (fun x => Registration.registration_id x
                                = Registration.registration_id r) rs) as [[j r0]|] eqn:Hfind.
  - apply list_find_Some in Hfind as (Hj & Hid & Hmin).
    exists j, r0. split; [done|]. split.
    + destruct (decide (j <= i)%nat) as [|Hlt]; [done|].
      exfalso. apply (Hmin i r Hi); [lia|done].
    + intros Hnodup.
      assert (j = i) as ->.
      { eapply NoDup_lookup; [exact Hnodup| |].
        - rewrite list_lookup_fmap, Hj. cbn. reflexivity.
        - rewrite list_lookup_fmap, Hi. cbn. by rewrite Hid. }
      split; [done|congruence].
  - exfalso. eapply list_find_None in Hfind. rewrite Forall_forall in Hfind.
    apply (Hfind r); [|done]. by eapply list_elem_of_lookup_2.
Qed.

(** ** C3: the capacity boundary *)

(** An available event is not full, so the [is_full] check that follows the
    availability check in [register_for_event] never fires. *)
Lemma is_available_not_full fi now e :
  Event.is_available_for_registration fi now e = true -> Event.is_full e = false.
Proof.
  unfold Event.is_available_for_registration, Event.is_full.
  destruct (negb _); [done|]. by case_bool_decide.
Qed.

Lemma register_for_event_never_full fi clock token eid uid st res st' :
  RegistrationService.register_for_event fi clock token eid uid st = (Ok res, st') ->
  message res <> RegistrationService.MSG_EVENT_FULL.
Proof.
  unfold RegistrationService.register_for_event, try_except, bind.
  rewrite get_event_by_id_run.
  destruct (EventService.get_event_by_id_loop _ _ _) as [[event|]|e]; reduce_M;
    try (intros [= <- _]; cbn; discriminate).
  destruct (Event.is_available_for_registration fi (clock 0%nat) event) eqn:Havail;
    cbn [negb]; reduce_M; try (intros [= <- _]; cbn; discriminate).
  rewrite get_registration_run.
  destruct (RegistrationService.get_registration_loop _ _ _ _) as [existing|e];
    reduce_M; try (intros [= <- _]; cbn; discriminate).
  destruct (match existing with Some _ => _ | None => _ end); reduce_M;
    try (intros [= <- _]; cbn; discriminate).
  rewrite (is_available_not_full _ _ _ Havail).
  unfold FileManager.load_json, FileManager.save_json.
  match goal with
  | |- context [EventService._save_event ?e ?st] =>
      destruct (EventService._save_event e st) as [[b|e'] st1]
  end; reduce_M; intros [= <- _]; cbn; discriminate.
Qed.

(** C3, as the code has it: (a) for an Active event whose
    [current_attendees] has reached [max_capacity], [register_for_event]
    fails with the "event not available" outcome and writes nothing: the
    availability check comes first and already covers capacity, so the
    later [is_full] check and its "event is full" message are never reached;
    (b) for an Active, future-dated event with exactly one slot left and no
    active registration of the user, it succeeds, appends the Confirmed
    registration and leaves the event full; (c) no call of
    [register_for_event] answers the "event is full" message. *)
Theorem register_for_event_boundary :
  (forall fromisoformat clock token event_id user_id st event,
     fst (EventService.get_event_by_id (clock 0%nat) event_id st) = Ok (Some event) ->
     Event.status event = Member EventStatus.ACTIVE ->
     Event.current_attendees event >= Event.max_capacity event ->
     RegistrationService.register_for_event fromisoformat clock token event_id user_id st
     = (Ok (failure RegistrationService.MSG_EVENT_NOT_AVAILABLE), st))
  /\ (forall fromisoformat clock token event_id user_id es rs i event d,
        Forall Event_wf es ->
        Forall Registration_wf rs ->
        list_find (fun e => Event.event_id e = event_id) es = Some (i, event) ->
        Event.status event = Member EventStatus.ACTIVE ->
        fromisoformat (Event.event_date event) = Some d ->
        datetime.gt d (clock 0%nat) = Some true ->
        Event.current_attendees event + 1 = Event.max_capacity event ->
        active_for event_id user_id rs = [] ->
        let registration :=
          Registration.init (clock 1%nat) (clock 2%nat)
            (RegistrationService._generate_registration_id token) event_id user_id in
        let event' := Event.with_attendees (clock 3%nat) (Event.max_capacity event) event in
        RegistrationService.register_for_event fromisoformat clock token event_id user_id
          (written es rs)
        = (Ok {| success := true;
                 message := RegistrationService.MSG_REGISTERED;
                 registration := Some registration;
                 cancelled_count := None |},
           written (<[i := event']> es) (rs ++ [registration]))
        /\ Event.is_full event' = true)
  /\ (forall fromisoformat clock token event_id user_id st res st',
        RegistrationService.register_for_event fromisoformat clock token event_id user_id st
        = (Ok res, st') ->
        message res <> RegistrationService.MSG_EVENT_FULL).
Proof.
  split; [|split; [|apply register_for_event_never_full]].
  - intros fromisoformat clock token event_id user_id st event Hget Hact Hfull.
    rewrite get_event_by_id_run in Hget. cbn [fst] in Hget.
    unfold RegistrationService.register_for_event, try_except, bind.
    rewrite get_event_by_id_run, Hget.
    unfold Event.is_available_for_registration, Event.status_is. rewrite Hact.
    rewrite (bool_decide_eq_true_2 (EventStatus.ACTIVE = EventStatus.ACTIVE)) by done.
    cbn [negb]. by rewrite bool_decide_eq_true_2.
  - intros fromisoformat clock token event_id user_id es rs i event d
      Hes Hrs Hfind Hact Hdate Hgt Hslot Hnone registration event'.
    assert (Event.event_id event = event_id) as Heid
      by (by apply list_find_Some in Hfind as (_ & ? & _)).
    split.
    2:{ unfold Event.is_full, event'. cbn. apply bool_decide_eq_true_2. lia. }
    unfold written, RegistrationService.register_for_event, try_except, bind.
    rewrite get_event_by_id_run. cbn [events_json].
    rewrite get_event_by_id_loop_written, Hfind by done. cbn [fmap option_fmap option_map snd].
    unfold Event.is_available_for_registration, Event.status_is. rewrite Hact, Hdate, Hgt.
    rewrite (bool_decide_eq_true_2 (EventStatus.ACTIVE = EventStatus.ACTIVE)) by done.
    rewrite bool_decide_eq_false_2 by lia. cbn [negb].
    rewrite get_registration_run. cbn [registrations_json].
    rewrite get_registration_loop_written by done.
    assert (match snd <$> list_find (for_pair event_id user_id) rs with
            | Some r => Registration.is_active r
            | None => false
            end = false) as ->.
    { destruct (list_find _ rs) as [[j r]|] eqn:Hr; [|done]. cbn.
      apply list_find_Some in Hr as (Hj & Hpair & _).
      destruct (Registration.is_active r) eqn:Hr; [|done].
      assert (r ∈ active_for event_id user_id rs) as Hin.
      { apply list_elem_of_filter. split; [done|]. by eapply list_elem_of_lookup_2. }
      rewrite Hnone in Hin. by apply elem_of_nil in Hin. }
    unfold Event.is_full. rewrite bool_decide_eq_false_2 by lia.
    unfold ret, FileManager.load_json, FileManager.save_json. cbn [registrations_json events_json].
    unfold Event.add_attendee. rewrite bool_decide_eq_true_2 by lia. cbn [snd].
    rewrite Hslot. fold event'.
    change (Registration.init _ _ _ _ _) with registration.
    change ((Registration.to_dict <$> rs) ++ [Registration.to_dict registration])
      with ((Registration.to_dict <$> rs) ++ (Registration.to_dict <$> [registration])).
    rewrite <- (fmap_app Registration.to_dict rs [registration]).
    rewrite _save_event_written.
    change (Event.event_id event') with (Event.event_id event). rewrite Heid, Hfind.
    reflexivity.
Qed.

Lemma register_for_event_boundary_witness :
  RegistrationService.register_for_event sample_fromisoformat sample_clock
    "0a1b2c3d4e5f" "event_a1" "user_s2"
    (written [sample_event "2030-06-01T09:00:00" 1 1]
             [sample_registration "reg_01" "user_s1" (Member RegistrationStatus.CONFIRMED)])
  = (Ok (failure RegistrationService.MSG_EVENT_NOT_AVAILABLE),
     written [sample_event "2030-06-01T09:00:00" 1 1]
             [sample_registration "reg_01" "user_s1" (Member RegistrationStatus.CONFIRMED)])
  /\ let registration :=
       Registration.init (sample_clock 1) (sample_clock 2)
         (RegistrationService._generate_registration_id "0a1b2c3d4e5f") "event_a1" "user_s2" in
     let event' :=
       Event.with_attendees (sample_clock 3) 2 (sample_event "2030-06-01T09:00:00" 2 1) in
     RegistrationService.register_for_event sample_fromisoformat sample_clock
       "0a1b2c3d4e5f" "event_a1" "user_s2"
       (written [sample_event "2030-06-01T09:00:00" 2 1]
                [sample_registration "reg_01" "user_s1" (Member RegistrationStatus.CONFIRMED)])
     = (Ok {| success := true;
              message := RegistrationService.MSG_REGISTERED;
              registration := Some registration;
              cancelled_count := None |},
        written [event']
                [sample_registration "reg_01" "user_s1" (Member RegistrationStatus.CONFIRMED);
                 registration])
     /\ Event.is_full event' = true.
Proof.
  split.
  - apply (proj1 register_for_event_boundary sample_fromisoformat sample_clock
             "0a1b2c3d4e5f" "event_a1" "user_s2" _
             (sample_event "2030-06-01T09:00:00" 1 1)); [reflexivity|reflexivity|cbn; lia].
  - apply (proj1 (proj2 register_for_event_boundary) sample_fromisoformat sample_clock
             "0a1b2c3d4e5f" "event_a1" "user_s2"
             [sample_event "2030-06-01T09:00:00" 2 1]
             [sample_registration "reg_01" "user_s1" (Member RegistrationStatus.CONFIRMED)]
             0%nat (sample_event "2030-06-01T09:00:00" 2 1)
             (datetime.mk 1906534800 false "2030-06-01T09:00:00")).
    + repeat constructor.
    + repeat constructor.
    + reflexivity.
    + reflexivity.
    + reflexivity.
    + reflexivity.
    + reflexivity.
    + reflexivity.
Defined.

(** C3 fails as stated: registering for an Active event that is exactly at
    capacity answers "event not available", not "event is full". *)
Lemma register_for_event_boundary_counterexample :
  Event.status (sample_event "2030-06-01T09:00:00" 1 1) = Member EventStatus.ACTIVE
  /\ Event.current_attendees (sample_event "2030-06-01T09:00:00" 1 1)
     = Event.max_capacity (sample_event "2030-06-01T09:00:00" 1 1)
  /\ RegistrationService.register_for_event sample_fromisoformat sample_clock
       "0a1b2c3d4e5f" "event_a1" "user_s2"
       (written [sample_event "2030-06-01T09:00:00" 1 1] [])
     = (Ok (failure RegistrationService.MSG_EVENT_NOT_AVAILABLE),
        written [sample_event "2030-06-01T09:00:00" 1 1] [])
  /\ RegistrationService.MSG_EVENT_NOT_AVAILABLE <> RegistrationService.MSG_EVENT_FULL.
Proof.
  split; [reflexivity|]. split; [reflexivity|].
  split; [vm_compute; reflexivity | discriminate].
Qed.

(** ** C10: cancelling when the event record is gone *)

(** C10 on the code: a student registers, cancels and registers again, and
    the event record is then removed by [EventService.delete_event].  The
    file now holds an active registration of the pair and no event with the
    id, yet [cancel_registration] is refused as "already cancelled" and
    writes nothing: [get_registration] fetches the first record of the pair,
    the older cancelled one. *)
Theorem cancel_registration_missing_event_after_history :
  let first :=
    Registration.cancel (sample_clock 1) "timetable clash"
      (Registration.init (sample_clock 1) (sample_clock 2)
         "reg_0a0a0a0a0a0a" "event_a1" "user_s1") in
  let second :=
    Registration.init (sample_clock 1) (sample_clock 2)
      "reg_1b1b1b1b1b1b" "event_a1" "user_s1" in
  let st :=
    run sample_fromisoformat (written [sample_event "2030-06-01T09:00:00" 5 0] [])
      [Register sample_clock "0a0a0a0a0a0a" "event_a1" "user_s1";
       Cancel sample_clock "event_a1" "user_s1" "timetable clash";
       Register sample_clock "1b1b1b1b1b1b" "event_a1" "user_s1"] in
  snd (EventService.delete_event "event_a1" st) = written [] [first; second]
  /\ active_for "event_a1" "user_s1" [first; second] = [second]
  /\ fst (EventService.get_event_by_id (sample_clock 0) "event_a1"
            (written [] [first; second])) = Ok None
  /\ RegistrationService.cancel_registration sample_clock "event_a1" "user_s1" "event removed"
       (written [] [first; second])
     = (Ok (failure RegistrationService.MSG_ALREADY_CANCELLED), written [] [first; second]).
Proof.
  cbv zeta. split; [vm_compute; reflexivity|]. split; [vm_compute; reflexivity|].
  split; vm_compute; reflexivity.
Qed.

(** ** C7: cancelling every registration of an event *)


Lemma cancel_sweep_lookup clock eid reason rs :
  forall k i r,
    rs !! i = Some r ->
    cancel_sweep clock eid reason k rs !! i
    = Some (if decide (active_of_event eid r)
            then Registration.cancel
                   (clock (S (k + length (filter (active_of_event eid) (take i rs)))))
                   reason r
            else r).
Proof.
  induction rs as [|r0 rs IH]; intros k i r Hi; [done|].
  destruct i as [|i].
  - injection Hi as ->. cbn [cancel_sweep take]. rewrite filter_nil. cbn [length].
    rewrite Nat.add_0_r. by case_decide.
  - cbn in Hi. cbn [cancel_sweep take]. rewrite filter_cons.
    pose proof (IH k i r Hi) as IH0. pose proof (IH (S k) i r Hi) as IH1.
    repeat case_decide; try done; rewrite lookup_cons; cbn [length];
      rewrite ?Nat.add_succ_r in *; first [exact IH0 | exact IH1].
Qed.

(** Saving a record over the one that stands right after [done], when no
    record of [done] carries its id. *)
Lemma _save_registration_middle evs done r r' rest :
  Registration.registration_id r' = Registration.registration_id r ->
  NoDup (Registration.registration_id <$> (done ++ r :: rest)) ->
  RegistrationService._save_registration r'
    (mkStore evs (Registration.to_dict <$> (done ++ r :: rest)))
  = (Ok true, mkStore evs (Registration.to_dict <$> ((done ++ [r']) ++ rest))).
Proof.
  intros Hid Hnodup. rewrite _save_registration_written, Hid.
  assert (list_find (fun x => Registration.registration_id x = Registration.registration_id r)
            (done ++ r :: rest) = Some (length done, r)) as ->.
  { apply list_find_Some. split; [|split; [done|]].
    - by rewrite list_lookup_middle.
    - intros j y Hj Hlt Hy. rewrite lookup_app_l in Hj by done.
      rewrite fmap_app, fmap_cons in Hnodup.
      apply NoDup_app in Hnodup as (_ & Hdisj & _).
      apply (Hdisj (Registration.registration_id r)).
      + rewrite <- Hy. apply list_elem_of_fmap_2. by eapply list_elem_of_lookup_2.
      + apply list_elem_of_here. }
  do 3 f_equal. rewrite <- (Nat.add_0_r (length done)), insert_app_r. cbn.
  by rewrite <- app_assoc.
Qed.

Lemma bulk_cancel_loop_written clock eid reason evs rs :
  forall done k,
    NoDup (Registration.registration_id <$> (done ++ rs)) ->
    RegistrationService.bulk_cancel_loop clock reason
      (filter (fun r => Registration.event_id r = eid) rs) k
      (mkStore evs (Registration.to_dict <$> (done ++ rs)))
    = (Ok (k + length (filter (active_of_event eid) rs))%nat,
       mkStore evs (Registration.to_dict <$> (done ++ cancel_sweep clock eid reason k rs))).
Proof.
  induction rs as [|r rs IH]; intros done k Hnodup.
  { cbn. by rewrite Nat.add_0_r. }
  assert (NoDup (Registration.registration_id <$> ((done ++ [r]) ++ rs))) as Hnodup'
    by (by rewrite <- app_assoc).
  rewrite !filter_cons. cbn [cancel_sweep].
  destruct (decide (Registration.event_id r = eid)) as [He|He].
  - cbn [RegistrationService.bulk_cancel_loop].
    destruct (Registration.is_active r) eqn:Hact.
    + rewrite decide_True by done. rewrite decide_True by done.
      unfold bind.
      rewrite (_save_registration_middle evs done r
                 (Registration.cancel (clock (S k)) reason r) rs) by done.
      rewrite IH.
      * cbn [length]. rewrite <- app_assoc. cbn. do 3 f_equal. lia.
      * by rewrite <- app_assoc, fmap_app, fmap_cons in *.
    + rewrite decide_False by (intros [_ ?]; congruence).
      rewrite decide_False by (intros [_ ?]; congruence).
      rewrite (cons_middle r done rs), app_assoc, IH by done.
      by rewrite <- !app_assoc.
  - rewrite decide_False by (intros [? _]; done).
    rewrite decide_False by (intros [? _]; done).
    rewrite (cons_middle r done rs), app_assoc, IH by done.
    by rewrite <- !app_assoc.
Qed.

(** What one call does to a written registrations file whose ids are not
    repeated. *)
Lemma bulk_cancel_event_registrations_written clock eid reason evs rs :
  Forall Registration_wf rs ->
  NoDup (Registration.registration_id <$> rs) ->
  RegistrationService.bulk_cancel_event_registrations clock eid reason
    (mkStore evs (Registration.to_dict <$> rs))
  = (Ok {| success := true;
           message := "Đã hủy " +:+ pretty (length (filter (active_of_event eid) rs))
                      +:+ " đăng ký";
           registration := None;
           cancelled_count := Some (length (filter (active_of_event eid) rs)) |},
     mkStore evs (Registration.to_dict <$> cancel_sweep clock eid reason 0 rs)).
Proof.
  intros Hrs Hnodup.
  unfold RegistrationService.bulk_cancel_event_registrations, try_except, bind.
  rewrite get_event_registrations_run. cbn [registrations_json].
  rewrite get_event_registrations_loop_written by done.
  pose proof (bulk_cancel_loop_written clock eid reason evs rs [] 0%nat Hnodup) as Hloop.
  cbn [app Nat.add] in Hloop. by rewrite Hloop.
Qed.




(** ** C4: the terminal statuses *)

Lemma absorbs_refl regs : absorbs regs regs.
Proof. intros i d ? ?. eauto. Qed.

Lemma absorbs_trans regs1 regs2 regs3 :
  absorbs regs1 regs2 -> absorbs regs2 regs3 -> absorbs regs1 regs3.
Proof.
  intros H12 H23 i d Hi Hd. destruct (H12 i d Hi Hd) as (d' & Hi' & Hd'). eauto.
Qed.

Lemma absorbs_app regs l : absorbs regs (regs ++ l).
Proof. intros i d Hi Hd. exists d. split; [by apply lookup_app_l_Some|done]. Qed.

Lemma absorbs_insert regs j d0 : terminal_dict d0 -> absorbs regs (<[j := d0]> regs).
Proof.
  intros Hd0 i d Hi Hd. destruct (decide (j = i)) as [->|Hne].
  - exists d0. split; [|done]. apply list_lookup_insert_eq. by eapply lookup_lt_Some.
  - exists d. by rewrite list_lookup_insert_ne.
Qed.

Lemma terminal_dict_to_dict r s :
  Registration.status r = Member s -> terminal s = true ->
  terminal_dict (Registration.to_dict r).
Proof. intros Hs Ht. exists s. by rewrite Registration_to_dict_status, Hs. Qed.

(** [register_for_event] only ever appends to the registrations file. *)
Lemma register_for_event_registrations fi clock token eid uid st :
  exists l,
    registrations_json (snd (RegistrationService.register_for_event fi clock token eid uid st))
    = registrations_json st ++ l.
Proof.
  assert (exists l, registrations_json st = registrations_json st ++ l) as Hsame
    by (exists []; by rewrite app_nil_r).
  unfold RegistrationService.register_for_event, try_except, bind.
  rewrite get_event_by_id_run.
  destruct (EventService.get_event_by_id_loop _ _ _) as [[event|]|e]; reduce_M; try done.
  destruct (negb _); reduce_M; try done.
  rewrite get_registration_run.
  destruct (RegistrationService.get_registration_loop _ _ _ _) as [existing|e];
    reduce_M; try done.
  destruct (match existing with Some _ => _ | None => _ end); reduce_M; try done.
  destruct (Event.is_full event); reduce_M; try done.
  unfold FileManager.load_json, FileManager.save_json.
  match goal with
  | |- context [EventService._save_event ?e ?st] =>
      pose proof (_save_event_registrations e st) as Hsave;
      destruct (EventService._save_event e st) as [[b|e'] st']
  end; reduce_M; cbn [snd registrations_json] in Hsave; rewrite Hsave; eauto.
Qed.

Lemma _save_registration_absorbs r s st :
  Registration.status r = Member s -> terminal s = true ->
  absorbs (registrations_json st)
    (registrations_json (snd (RegistrationService._save_registration r st))).
Proof.
  intros Hs Ht. unfold RegistrationService._save_registration. unfold_M.
  destruct (find_index _ _ _ _) as [[[j x]|]|e]; reduce_M; try apply absorbs_refl.
  apply absorbs_insert. by eapply terminal_dict_to_dict.
Qed.

Lemma cancel_registration_absorbs clock eid uid reason st :
  absorbs (registrations_json st)
    (registrations_json (snd (RegistrationService.cancel_registration clock eid uid reason st))).
Proof.
  unfold RegistrationService.cancel_registration, try_except, bind.
  rewrite get_registration_run.
  destruct (RegistrationService.get_registration_loop _ _ _ _) as [[r|]|e];
    reduce_M; try apply absorbs_refl.
  destruct (negb _); reduce_M; try apply absorbs_refl.
  pose proof (_save_registration_absorbs (Registration.cancel (clock 1%nat) reason r)
                RegistrationStatus.CANCELLED st eq_refl eq_refl) as Hsave.
  destruct (RegistrationService._save_registration _ st) as [[b|e] st1];
    reduce_M; cbn [snd] in Hsave; [|done].
  rewrite get_event_by_id_run.
  destruct (EventService.get_event_by_id_loop _ _ _) as [[event|]|e]; reduce_M; try done.
  match goal with
  | |- context [EventService._save_event ?e ?st] =>
      pose proof (_save_event_registrations e st) as Hevent;
      destruct (EventService._save_event e st) as [[b'|e'] st2]
  end; reduce_M; cbn [snd] in Hevent; by rewrite Hevent.
Qed.

Lemma mark_attendance_absorbs clock rid attended st :
  absorbs (registrations_json st)
    (registrations_json (snd (RegistrationService.mark_attendance clock rid attended st))).
Proof.
  unfold RegistrationService.mark_attendance, try_except, bind. unfold_M.
  destruct (find_index _ _ _ _) as [[[j x]|]|e]; reduce_M; try apply absorbs_refl.
  destruct (Registration.from_dict _ _) as [r|e]; reduce_M; try apply absorbs_refl.
  apply absorbs_insert.
  destruct attended;
    [by apply (terminal_dict_to_dict _ RegistrationStatus.ATTENDED)
    |by apply (terminal_dict_to_dict _ RegistrationStatus.NO_SHOW)].
Qed.

Lemma bulk_cancel_loop_absorbs clock reason l :
  forall k st,
    absorbs (registrations_json st)
      (registrations_json (snd (RegistrationService.bulk_cancel_loop clock reason l k st))).
Proof.
  induction l as [|r l IH]; intros k st; [apply absorbs_refl|].
  cbn [RegistrationService.bulk_cancel_loop].
  destruct (Registration.is_active r); [|apply IH].
  unfold bind.
  pose proof (_save_registration_absorbs (Registration.cancel (clock (S k)) reason r)
                RegistrationStatus.CANCELLED st eq_refl eq_refl) as Hsave.
  destruct (RegistrationService._save_registration _ st) as [[b|e] st1];
    cbn [snd] in *; [|done].
  eapply absorbs_trans; [exact Hsave|apply IH].
Qed.

Lemma bulk_cancel_event_registrations_absorbs clock eid reason st :
  absorbs (registrations_json st)
    (registrations_json
       (snd (RegistrationService.bulk_cancel_event_registrations clock eid reason st))).
Proof.
  unfold RegistrationService.bulk_cancel_event_registrations, try_except, bind.
  rewrite get_event_registrations_run.
  destruct (RegistrationService.get_event_registrations_loop _ _ _) as [l|e];
    reduce_M; try apply absorbs_refl.
  pose proof (bulk_cancel_loop_absorbs clock reason l 0%nat st) as Hloop.
  by destruct (RegistrationService.bulk_cancel_loop clock reason l 0%nat st) as [[n|e] st1].
Qed.

Lemma step_absorbs fi st op :
  absorbs (registrations_json st) (registrations_json (step fi st op)).
Proof.
  destruct op as [clock token eid uid|clock eid uid reason|clock eid reason|clock rid attended];
    unfold step, call.
  - destruct (register_for_event_registrations fi clock token eid uid st) as [l ->].
    apply absorbs_app.
  - apply cancel_registration_absorbs.
  - apply bulk_cancel_event_registrations_absorbs.
  - apply mark_attendance_absorbs.
Qed.

Lemma run_absorbs fi ops :
  forall st, absorbs (registrations_json st) (registrations_json (run fi st ops)).
Proof.
  induction ops as [|op ops IH]; intros st; [apply absorbs_refl|].
  cbn [run fold_left]. eapply absorbs_trans; [apply step_absorbs|apply IH].
Qed.

(** The registrations file after [cancel_registration], on a written file. *)
Lemma cancel_registration_registrations_written clock eid uid reason evs rs :
  Forall Registration_wf rs ->
  registrations_json
    (snd (RegistrationService.cancel_registration clock eid uid reason
            (mkStore evs (Registration.to_dict <$> rs))))
  = Registration.to_dict <$>
      match list_find (for_pair eid uid) rs with
      | Some (_, r) =>
          if Registration.is_active r
          then match list_find (fun x => Registration.registration_id x
                                         = Registration.registration_id r) rs with
               | Some (j, _) => <[j := Registration.cancel (clock 1%nat) reason r]> rs
               | None => rs
               end
          else rs
      | None => rs
      end.
Proof.
  intros Hrs. unfold RegistrationService.cancel_registration, try_except, bind.
  rewrite get_registration_run. cbn [registrations_json].
  rewrite get_registration_loop_written by done.
  destruct (list_find (for_pair eid uid) rs) as [[i r]|]; [|done].
  cbn [fmap option_fmap option_map snd].
  destruct (Registration.is_active r); [|done]. cbn [negb].
  rewrite _save_registration_written.
  change (Registration.registration_id (Registration.cancel _ _ r))
    with (Registration.registration_id r).
  rewrite get_event_by_id_run.
  destruct (EventService.get_event_by_id_loop _ _ _) as [[event|]|e]; reduce_M; try done.
  match goal with
  | |- context [EventService._save_event ?e ?st] =>
      pose proof (_save_event_registrations e st) as Hevent;
      destruct (EventService._save_event e st) as [[b'|e'] st2]
  end; reduce_M; cbn [snd registrations_json] in Hevent; by rewrite Hevent.
Qed.


(** On a written file with distinct ids, the operations other than
    [mark_attendance] leave every registration that is not active as it is. *)
Lemma inactive_untouched fi op evs rs i r :
  marks op = false ->
  Forall Registration_wf rs ->
  NoDup (Registration.registration_id <$> rs) ->
  rs !! i = Some r ->
  Registration.is_active r = false ->
  registrations_json (step fi (mkStore evs (Registration.to_dict <$> rs)) op) !! i
  = Some (Registration.to_dict r).
Proof.
  intros Hop Hrs Hnodup Hi Hact.
  assert ((Registration.to_dict <$> rs) !! i = Some (Registration.to_dict r)) as Hdict
    by (by rewrite list_lookup_fmap, Hi).
  destruct op as [clock token eid uid|clock eid uid reason|clock eid reason|clock rid attended];
    [| | |done]; unfold step, call.
  - destruct (register_for_event_registrations fi clock token eid uid
                (mkStore evs (Registration.to_dict <$> rs))) as [l ->].
    cbn [registrations_json]. by apply lookup_app_l_Some.
  - rewrite cancel_registration_registrations_written by done.
    destruct (list_find (for_pair eid uid) rs) as [[i0 r0]|] eqn:Hfind; [|done].
    destruct (Registration.is_active r0) eqn:Hact0; [|done].
    apply list_find_Some in Hfind as (Hi0 & _ & _).
    destruct (first_with_id rs i0 r0 Hi0) as (j & r1 & -> & _ & Huniq).
    destruct (Huniq Hnodup) as [-> ->].
    rewrite list_lookup_fmap, list_lookup_insert_ne, Hi; [done|].
    intros ->. congruence.
  - rewrite bulk_cancel_event_registrations_written by done.
    cbn [snd registrations_json].
    rewrite list_lookup_fmap, (cancel_sweep_lookup clock eid reason rs 0 i r Hi).
    rewrite decide_False; [done|]. intros [_ ?]. congruence.
Qed.

(** C4 on the code: a student registers and cancels, and the organizer then
    marks the registration.  [mark_attendance] looks at no status: the
    registration that [cancel_registration] had set to Cancelled comes out
    Attended, and a second call with [attended=False] turns it into NoShow.
    The event's count, lowered by the cancellation, is not touched. *)
Theorem mark_attendance_leaves_terminal_status :
  let registration :=
    Registration.init (sample_clock 1) (sample_clock 2)
      "reg_0a0a0a0a0a0a" "event_a1" "user_s1" in
  let cancelled := Registration.cancel (sample_clock 1) "timetable clash" registration in
  let event :=
    Event.with_attendees (sample_clock 2) 0 (sample_event "2030-06-01T09:00:00" 5 0) in
  run sample_fromisoformat (written [sample_event "2030-06-01T09:00:00" 5 0] [])
    [Register sample_clock "0a0a0a0a0a0a" "event_a1" "user_s1";
     Cancel sample_clock "event_a1" "user_s1" "timetable clash"]
  = written [event] [cancelled]
  /\ Registration.status cancelled = Member RegistrationStatus.CANCELLED
  /\ RegistrationService.mark_attendance sample_clock "reg_0a0a0a0a0a0a" true
       (written [event] [cancelled])
     = (Ok (succeeded "Đã đánh dấu tham gia"),
        written [event] [Registration.mark_attended (sample_clock 1) cancelled])
  /\ Registration.status (Registration.mark_attended (sample_clock 1) cancelled)
     = Member RegistrationStatus.ATTENDED
  /\ RegistrationService.mark_attendance sample_clock "reg_0a0a0a0a0a0a" false
       (written [event] [Registration.mark_attended (sample_clock 1) cancelled])
     = (Ok (succeeded "Đã đánh dấu không tham gia"),
        written [event]
          [Registration.mark_no_show (sample_clock 1)
             (Registration.mark_attended (sample_clock 1) cancelled)]).
Proof.
  cbv zeta. split; [vm_compute; reflexivity|]. split; [reflexivity|].
  split; [vm_compute; reflexivity|]. split; [reflexivity|]. vm_compute. reflexivity.
Qed.

(** ** C1 and C6: a registration after a cancelled one *)

(** C1 on the code: starting from an empty registrations file, which
    satisfies the uniqueness invariant, the run [reregistration_ops]
    (register, cancel, register, register, all by one user for one event
    with free slots) ends with two Confirmed registrations of the same
    (event, user) pair.  [get_registration] fetches the first record of the
    pair, the cancelled one, so the duplicate check passes each time. *)
Theorem reregistration_breaks_uniqueness :
  unique_active []
  /\ registrations_json
       (run sample_fromisoformat (written [sample_event "2030-06-01T09:00:00" 5 0] [])
          reregistration_ops)
     = Registration.to_dict <$>
         [Registration.cancel (sample_clock 1) "timetable clash"
            (Registration.init (sample_clock 1) (sample_clock 2)
               "reg_0a0a0a0a0a0a" "event_a1" "user_s1");
          Registration.init (sample_clock 1) (sample_clock 2)
            "reg_1b1b1b1b1b1b" "event_a1" "user_s1";
          Registration.init (sample_clock 1) (sample_clock 2)
            "reg_2c2c2c2c2c2c" "event_a1" "user_s1"]
  /\ length (active_for "event_a1" "user_s1"
               [Registration.cancel (sample_clock 1) "timetable clash"
                  (Registration.init (sample_clock 1) (sample_clock 2)
                     "reg_0a0a0a0a0a0a" "event_a1" "user_s1");
                Registration.init (sample_clock 1) (sample_clock 2)
                  "reg_1b1b1b1b1b1b" "event_a1" "user_s1";
                Registration.init (sample_clock 1) (sample_clock 2)
                  "reg_2c2c2c2c2c2c" "event_a1" "user_s1"]) = 2%nat.
Proof.
  split; [|split].
  - intros eid uid. cbn. lia.
  - vm_compute. reflexivity.
  - vm_compute. reflexivity.
Qed.

(** C6 on the code: with an older, cancelled registration of the pair in
    the file, [register_for_event] succeeds and raises [current_attendees]
    from 0 to 1, and the [cancel_registration] that follows immediately is
    refused as "already cancelled" and leaves [current_attendees] at 1:
    the cancellation looks at the first record of the pair, the old one. *)
Theorem register_then_cancel_after_history :
  let st0 :=
    written [sample_event "2030-06-01T09:00:00" 5 0]
      [sample_registration "reg_01" "user_s1" (Member RegistrationStatus.CANCELLED)] in
  let registration :=
    Registration.init (sample_clock 1) (sample_clock 2)
      "reg_1b1b1b1b1b1b" "event_a1" "user_s1" in
  let st1 :=
    written [Event.with_attendees (sample_clock 3) 1 (sample_event "2030-06-01T09:00:00" 5 0)]
      [sample_registration "reg_01" "user_s1" (Member RegistrationStatus.CANCELLED);
       registration] in
  RegistrationService.register_for_event sample_fromisoformat sample_clock
    "1b1b1b1b1b1b" "event_a1" "user_s1" st0
  = (Ok {| success := true;
           message := RegistrationService.MSG_REGISTERED;
           registration := Some registration;
           cancelled_count := None |}, st1)
  /\ RegistrationService.cancel_registration sample_clock "event_a1" "user_s1" "timetable clash" st1
     = (Ok (failure RegistrationService.MSG_ALREADY_CANCELLED), st1).
Proof. split; vm_compute; reflexivity. Qed.

(** * Further properties of the models and the services *)

(** ** The attendee counter of an event *)

Lemma add_attendee_cases now e :
  Event.add_attendee now e
  = if bool_decide (Event.current_attendees e < Event.max_capacity e)
    then (true, Event.with_attendees now (Event.current_attendees e + 1) e)
    else (false, e).
Proof. reflexivity. Qed.

Lemma add_attendee_bounds now e :
  0 <= Event.current_attendees e <= Event.max_capacity e ->
  0 <= Event.current_attendees (snd (Event.add_attendee now e))
    <= Event.max_capacity (snd (Event.add_attendee now e)).
Proof. unfold Event.add_attendee. case_bool_decide; cbn; lia. Qed.

Lemma remove_attendee_bounds now e :
  0 <= Event.current_attendees e <= Event.max_capacity e ->
  0 <= Event.current_attendees (snd (Event.remove_attendee now e))
    <= Event.max_capacity (snd (Event.remove_attendee now e)).
Proof. unfold Event.remove_attendee. case_bool_decide; cbn; lia. Qed.

(** X1: [add_attendee] answers [True] exactly when the event has room and
    [remove_attendee] exactly when the count is positive, for every event;
    a [True] answer moves [current_attendees] by one, a [False] answer
    leaves the event as it is; and a count between 0 and [max_capacity]
    stays there. *)
Theorem attendee_count_stays_within_capacity (now : datetime.t) (e : Event.t) :
  let a := Event.add_attendee now e in
  let r := Event.remove_attendee now e in
  (fst a = true <-> Event.current_attendees e < Event.max_capacity e)
  /\ (fst r = true <-> 0 < Event.current_attendees e)
  /\ Event.current_attendees (snd a)
     = Event.current_attendees e + (if fst a then 1 else 0)
  /\ Event.current_attendees (snd r)
     = Event.current_attendees e - (if fst r then 1 else 0)
  /\ (fst a = false -> snd a = e)
  /\ (fst r = false -> snd r = e)
  /\ (0 <= Event.current_attendees e <= Event.max_capacity e ->
      0 <= Event.current_attendees (snd a) <= Event.max_capacity (snd a)
      /\ 0 <= Event.current_attendees (snd r) <= Event.max_capacity (snd r)).
Proof.
  intros a r. subst a r.
  assert (0 <= Event.current_attendees e <= Event.max_capacity e ->
          0 <= Event.current_attendees (snd (Event.add_attendee now e))
            <= Event.max_capacity (snd (Event.add_attendee now e))
          /\ 0 <= Event.current_attendees (snd (Event.remove_attendee now e))
               <= Event.max_capacity (snd (Event.remove_attendee now e))) as Hbounds.
  { intros Hb. split; [by apply add_attendee_bounds|by apply remove_attendee_bounds]. }
  unfold Event.add_attendee, Event.remove_attendee in *.
  repeat case_bool_decide; cbn in *; repeat split; intros; try done; try lia.
Qed.

Lemma attendee_count_stays_within_capacity_witness :
  let e := sample_event "2030-06-01T09:00:00" 5 7 in
  let a := Event.add_attendee (sample_clock 1) e in
  let r := Event.remove_attendee (sample_clock 1) e in
  (fst a = true <-> Event.current_attendees e < Event.max_capacity e)
  /\ (fst r = true <-> 0 < Event.current_attendees e)
  /\ Event.current_attendees (snd a)
     = Event.current_attendees e + (if fst a then 1 else 0)
  /\ Event.current_attendees (snd r)
     = Event.current_attendees e - (if fst r then 1 else 0)
  /\ (fst a = false -> snd a = e)
  /\ (fst r = false -> snd r = e)
  /\ (0 <= Event.current_attendees e <= Event.max_capacity e ->
      0 <= Event.current_attendees (snd a) <= Event.max_capacity (snd a)
      /\ 0 <= Event.current_attendees (snd r) <= Event.max_capacity (snd r)).
Proof.
  apply (attendee_count_stays_within_capacity (sample_clock 1)
           (sample_event "2030-06-01T09:00:00" 5 7)).
Defined.

(** X2: on an event with room and a count that is not negative,
    [add_attendee] followed by [remove_attendee] both answer [True] and give
    the event back with its count restored; only [updated_at] has moved. *)
Theorem add_then_remove_attendee (now1 now2 : datetime.t) (e : Event.t) :
  0 <= Event.current_attendees e < Event.max_capacity e ->
  Event.remove_attendee now2 (snd (Event.add_attendee now1 e))
  = (true, Event.with_attendees now2 (Event.current_attendees e) e)
  /\ fst (Event.add_attendee now1 e) = true.
Proof.
  intros Hb. unfold Event.add_attendee.
  rewrite bool_decide_eq_true_2 by lia. cbn [snd fst].
  unfold Event.remove_attendee. cbn [Event.current_attendees Event.with_attendees].
  rewrite bool_decide_eq_true_2 by lia. split; [|done].
  unfold Event.with_attendees. cbn. do 2 f_equal. lia.
Qed.

Lemma add_then_remove_attendee_witness :
  Event.remove_attendee (sample_clock 2)
    (snd (Event.add_attendee (sample_clock 1) (sample_event "2030-06-01T09:00:00" 5 4)))
  = (true, Event.with_attendees (sample_clock 2) 4 (sample_event "2030-06-01T09:00:00" 5 4))
  /\ fst (Event.add_attendee (sample_clock 1) (sample_event "2030-06-01T09:00:00" 5 4)) = true.
Proof.
  apply (add_then_remove_attendee (sample_clock 1) (sample_clock 2)
           (sample_event "2030-06-01T09:00:00" 5 4)).
  cbn. lia.
Defined.

(** X3: [get_remaining_slots] is never negative, is zero exactly when
    [is_full] holds, and is positive for every event that
    [is_available_for_registration] accepts; when the count does not exceed
    the capacity, count and remaining slots add up to the capacity. *)
Theorem get_remaining_slots_spec
    (fromisoformat : string -> option datetime.t) (now : datetime.t) (e : Event.t) :
  0 <= Event.get_remaining_slots e
  /\ (Event.get_remaining_slots e = 0 <-> Event.is_full e = true)
  /\ (Event.is_available_for_registration fromisoformat now e = true ->
      0 < Event.get_remaining_slots e)
  /\ (Event.current_attendees e <= Event.max_capacity e ->
      Event.current_attendees e + Event.get_remaining_slots e = Event.max_capacity e).
Proof.
  unfold Event.get_remaining_slots.
  split; [lia|]. split; [|split].
  - unfold Event.is_full. rewrite bool_decide_eq_true. lia.
  - intros H%is_available_not_full. unfold Event.is_full in H.
    apply bool_decide_eq_false in H. lia.
  - lia.
Qed.

Lemma get_remaining_slots_spec_witness :
  let e := sample_event "2030-06-01T09:00:00" 5 3 in
  0 <= Event.get_remaining_slots e
  /\ (Event.get_remaining_slots e = 0 <-> Event.is_full e = true)
  /\ 0 < Event.get_remaining_slots e
  /\ Event.current_attendees e + Event.get_remaining_slots e = Event.max_capacity e.
Proof.
  pose proof (get_remaining_slots_spec sample_fromisoformat (sample_clock 0)
                (sample_event "2030-06-01T09:00:00" 5 3)) as (H1 & H2 & H3 & H4).
  cbv zeta. split; [exact H1|]. split; [exact H2|]. split.
  - apply H3. vm_compute. reflexivity.
  - apply H4. vm_compute. discriminate.
Defined.

(** ** Users *)

Lemma UserRole_of_value r : UserRole.of_value (JStr (UserRole.value r)) = Ok r.
Proof. by destruct r. Qed.

Lemma User_from_to_dict now u : User.from_dict now (User.to_dict u) = Ok u.
Proof.
  destruct u as [uid name email pw role fn cr [ll|] act];
    unfold User.from_dict, User.to_dict, getitem, get; by destruct role.
Qed.

(** X4: [User.from_dict(u.to_dict())] gives [u] back, every field of it,
    whether or not the user has logged in before. *)
Theorem User_from_dict_to_dict (now : datetime.t) (u : User.t) :
  User.from_dict now (User.to_dict u) = Ok u.
Proof. apply User_from_to_dict. Qed.

(** X5: in the permission table, whatever a Visitor may do a Student may
    do too; [register_event] is granted to Students and Visitors only; and
    [create_event] to Admins and Organizers only. *)
Theorem permissions_by_role (u : User.t) (action : string) :
  (forall v s, User.role v = UserRole.VISITOR -> User.role s = UserRole.STUDENT ->
     User.has_permission v action = true -> User.has_permission s action = true)
  /\ (User.has_permission u "register_event" = true
      <-> User.role u = UserRole.STUDENT \/ User.role u = UserRole.VISITOR)
  /\ (User.has_permission u "create_event" = true
      <-> User.role u = UserRole.ADMIN \/ User.role u = UserRole.ORGANIZER).
Proof.
  split; [|split].
  - intros v s Hv Hs. unfold User.has_permission. rewrite Hv, Hs.
    repeat match goal with
           | |- context [User.items_get ?p ?r ?d] =>
               let l := eval vm_compute in (User.items_get p r d) in
               change (User.items_get p r d) with l
           end.
    rewrite !bool_decide_eq_true, !elem_of_cons. tauto.
  - unfold User.has_permission. destruct (User.role u);
      match goal with
      | |- ?b = true <-> _ => let b' := eval vm_compute in b in change b with b'
      end;
      (split; [intros H; try discriminate H; auto | intros [H|H]; try discriminate H; auto]).
  - unfold User.has_permission. destruct (User.role u);
      match goal with
      | |- ?b = true <-> _ => let b' := eval vm_compute in b in change b with b'
      end;
      (split; [intros H; try discriminate H; auto | intros [H|H]; try discriminate H; auto]).
Qed.

(** ** Lists: the first match after an update *)

Section list_find_update.

Context {A : Type} (P : A -> Prop) `{!forall x, Decision (P x)}.

Lemma list_find_insert_first l j x y :
  list_find P l = Some (j, x) -> P y -> list_find P (<[j := y]> l) = Some (j, y).
Proof.
  intros (Hj & _ & Hlt)%list_find_Some Hy. apply list_find_Some.
  split; [|split; [done|]].
  - apply list_lookup_insert_eq. by eapply lookup_lt_Some.
  - intros k z Hk Hkj. rewrite list_lookup_insert_ne in Hk by lia. by eapply Hlt.
Qed.

Lemma list_find_insert_other l j x y :
  l !! j = Some x -> ~ P x -> ~ P y ->
  list_find P (<[j := y]> l) = list_find P l.
Proof.
  intros Hj Hx Hy. destruct (list_find P l) as [[k z]|] eqn:E.
  - apply list_find_Some in E as (Hk & Hz & Hlt). apply list_find_Some.
    assert (j <> k) by (intros ->; congruence).
    split; [by rewrite list_lookup_insert_ne|]. split; [done|].
    intros i a Hi Hik. apply list_lookup_insert_Some in Hi as [(_ & <- & _)|[_ Hi]]; [done|].
    by eapply Hlt.
  - apply list_find_None in E. apply list_find_None.
    rewrite Forall_forall in *. intros a [i Hi]%list_elem_of_lookup.
    apply list_lookup_insert_Some in Hi as [(_ & <- & _)|[_ Hi]]; [done|].
    apply E. by eapply list_elem_of_lookup_2.
Qed.

Lemma list_find_delete_other l j x :
  l !! j = Some x -> ~ P x ->
  snd <$> list_find P (delete j l) = snd <$> list_find P l.
Proof.
  revert j. induction l as [|a l IH]; intros j Hj Hx; [done|].
  destruct j as [|j].
  - injection Hj as ->. change (delete 0%nat (x :: l)) with l.
    change (list_find P (x :: l))
      with (if decide (P x) then Some (0%nat, x) else prod_map S id <$> list_find P l).
    rewrite decide_False by done. by destruct (list_find P l) as [[k z]|].
  - change (delete (S j) (a :: l)) with (a :: delete j l).
    change (list_find P (a :: delete j l))
      with (if decide (P a) then Some (0%nat, a)
            else prod_map S id <$> list_find P (delete j l)).
    change (list_find P (a :: l))
      with (if decide (P a) then Some (0%nat, a) else prod_map S id <$> list_find P l).
    case_decide; [done|].
    specialize (IH j Hj Hx).
    destruct (list_find P l) as [[k z]|], (list_find P (delete j l)) as [[k' z']|];
      cbn in *; congruence.
Qed.

End list_find_update.

Lemma list_find_elem_of_fmap {A} (f : A -> string) (v : string) (l : list A) :
  v ∈ f <$> l -> exists i x, list_find (fun a => f a = v) l = Some (i, x).
Proof.
  intros (x & -> & Hx)%list_elem_of_fmap.
  destruct (list_find (fun a => f a = f x) l) as [[i y]|] eqn:E; [by eauto|].
  apply list_find_None in E. rewrite Forall_forall in E. by destruct (E x Hx).
Qed.

Lemma list_find_not_elem_of_fmap {A} (f : A -> string) (v : string) (l : list A) :
  v ∉ f <$> l -> list_find (fun a => f a = v) l = None.
Proof.
  intros Hv. apply list_find_None, Forall_forall. intros x Hx Heq.
  apply Hv, list_elem_of_fmap. eauto.
Qed.

Lemma list_find_delete_first_NoDup {A} (f : A -> string) (v : string) (l : list A) i x :
  NoDup (f <$> l) ->
  list_find (fun a => f a = v) l = Some (i, x) ->
  list_find (fun a => f a = v) (delete i l) = None.
Proof.
  intros Hnd (Hi & Hx & _)%list_find_Some.
  apply list_find_None, Forall_forall. intros y Hy Hfy.
  apply list_elem_of_lookup in Hy as [j Hj].
  rewrite <- (take_drop_middle l i x Hi) in Hnd.
  rewrite delete_take_drop in Hj.
  rewrite fmap_app, fmap_cons in Hnd.
  apply NoDup_app in Hnd as (_ & Hnd1 & Hnd2).
  apply NoDup_cons in Hnd2 as [Hnd2 _].
  assert (y ∈ take i l ++ drop (S i) l) as Hy by (apply list_elem_of_lookup; eauto).
  apply elem_of_app in Hy as [Hy|Hy].
  - apply (Hnd1 (f y)); [by apply list_elem_of_fmap_2|]. rewrite Hfy, <- Hx. left.
  - apply Hnd2. rewrite Hx, <- Hfy. by apply list_elem_of_fmap_2.
Qed.

(** ** Listings of the events file *)

Lemma Event_from_dicts_written clock es :
  Forall Event_wf es -> EventService.from_dicts clock (Event.to_dict <$> es) = Ok es.
Proof.
  induction 1 as [|e es He _ IH]; [done|].
  cbn [fmap list_fmap EventService.from_dicts] in *.
  fold (fmap (M:=list) Event.to_dict es). rewrite Event_from_to_dict by done.
  cbn [result_bind]. by rewrite IH.
Qed.

Lemma get_events_by_organizer_loop_written clock org es :
  Forall Event_wf es ->
  EventService.get_events_by_organizer_loop clock org (Event.to_dict <$> es)
  = Ok (filter (fun e => Event.organizer_id e = org) es).
Proof.
  induction 1 as [|e es He _ IH]; [done|].
  cbn [fmap list_fmap EventService.get_events_by_organizer_loop] in *.
  fold (fmap (M:=list) Event.to_dict es).
  unfold getitem at 1. change (Event.to_dict e !! "organizer_id")
    with (Some (JStr (Event.organizer_id e))).
  cbn [result_bind]. rewrite eq_str_JStr, filter_cons.
  case_bool_decide.
  - rewrite decide_True by done. rewrite Event_from_to_dict by done.
    cbn [result_bind]. by rewrite IH.
  - by rewrite decide_False.
Qed.

(** X6: on an events file as the application writes it, [get_all_events]
    returns the stored events, all of them and in file order, and
    [get_events_by_organizer] those among them whose [organizer_id] is the
    one asked for; neither writes. *)
Theorem get_all_events_written
    (clock : nat -> datetime.t) (organizer_id : string)
    (es : list Event.t) (rs : list Registration.t) :
  Forall Event_wf es ->
  EventService.get_all_events clock (written es rs) = (Ok es, written es rs)
  /\ EventService.get_events_by_organizer clock organizer_id (written es rs)
     = (Ok (filter (fun e => Event.organizer_id e = organizer_id) es), written es rs).
Proof.
  intros Hes. unfold EventService.get_all_events, EventService.get_events_by_organizer.
  unfold_M. unfold written. cbn [events_json].
  by rewrite Event_from_dicts_written, get_events_by_organizer_loop_written.
Qed.

Lemma get_all_events_written_witness :
  EventService.get_all_events sample_clock
    (written [sample_event "2030-06-01T09:00:00" 5 2; sample_event "2020-01-01T09:00:00" 9 9]
             sample_registrations)
  = (Ok [sample_event "2030-06-01T09:00:00" 5 2; sample_event "2020-01-01T09:00:00" 9 9],
     written [sample_event "2030-06-01T09:00:00" 5 2; sample_event "2020-01-01T09:00:00" 9 9]
             sample_registrations)
  /\ EventService.get_events_by_organizer sample_clock "user_org"
       (written [sample_event "2030-06-01T09:00:00" 5 2; sample_event "2020-01-01T09:00:00" 9 9]
                sample_registrations)
     = (Ok (filter (fun e => Event.organizer_id e = "user_org")
              [sample_event "2030-06-01T09:00:00" 5 2; sample_event "2020-01-01T09:00:00" 9 9]),
        written [sample_event "2030-06-01T09:00:00" 5 2; sample_event "2020-01-01T09:00:00" 9 9]
                sample_registrations).
Proof.
  apply (get_all_events_written sample_clock "user_org").
  repeat constructor.
Defined.

Lemma Event_from_dicts_raise clock es1 d l err :
  Forall Event_wf es1 ->
  Event.from_dict (clock 0%nat) d = Raise err ->
  EventService.from_dicts clock ((Event.to_dict <$> es1) ++ d :: l) = Raise err.
Proof.
  intros Hes Hd. induction Hes as [|e es He _ IH].
  - cbn. by rewrite Hd.
  - cbn [fmap list_fmap app EventService.from_dicts].
    fold (fmap (M:=list) Event.to_dict es). rewrite Event_from_to_dict by done.
    cbn [result_bind]. by rewrite IH.
Qed.

(** X7: one stored event whose [status] names no member of [EventStatus]
    makes [get_all_events] raise the enum's [ValueError], wherever the record
    stands in the file, while [get_event_by_id] still answers for every
    event stored before it. *)
Theorem get_all_events_unreadable_record
    (clock : nat -> datetime.t) (es1 es2 : list Event.t) (bad : Event.t)
    (rs : list Registration.t) (v : json) (err : exn) :
  Forall Event_wf es1 ->
  is_member (Event.category bad) ->
  Event.status bad = Raw v ->
  EventStatus.of_value v = Raise err ->
  fst (EventService.get_all_events clock (written (es1 ++ bad :: es2) rs)) = Raise err
  /\ forall event_id i e,
       list_find (fun e => Event.event_id e = event_id) es1 = Some (i, e) ->
       fst (EventService.get_event_by_id (clock 0%nat) event_id
              (written (es1 ++ bad :: es2) rs)) = Ok (Some e).
Proof.
  intros Hes Hc Hs Hv. split.
  - unfold EventService.get_all_events. unfold_M. unfold written. cbn [events_json fst].
    rewrite fmap_app, fmap_cons. apply Event_from_dicts_raise; [done|].
    rewrite Event_from_to_dict_any. destruct (Event.category bad) as [c|]; [|done].
    cbn [Event.category_value]. rewrite EventCategory_of_value. cbn [result_bind].
    rewrite Hs. cbn [Event.status_value]. by rewrite Hv.
  - intros eid i e Hfind. rewrite get_event_by_id_run. cbn [fst].
    unfold written. cbn [events_json]. rewrite fmap_app.
    clear Hc Hs Hv. revert i Hfind. induction Hes as [|a es Ha _ IH]; intros i; [done|].
    cbn [list_find fmap list_fmap app EventService.get_event_by_id_loop].
    fold (fmap (M:=list) Event.to_dict es).
    unfold getitem at 1. rewrite Event_to_dict_id. cbn [result_bind]. rewrite eq_str_JStr.
    case_decide as Hd.
    + intros [= <- <-]. rewrite bool_decide_eq_true_2 by done.
      by rewrite Event_from_to_dict.
    + rewrite bool_decide_eq_false_2 by done.
      destruct (list_find _ es) as [[k z]|] eqn:E; [|done].
      intros [= <- <-]. by apply (IH k).
Qed.

Lemma get_all_events_unreadable_record_witness :
  fst (EventService.get_all_events sample_clock
         (written ([sample_event "2030-06-01T09:00:00" 5 2] ++ sample_event_raw_status :: []) []))
  = Raise (ValueError "'postponed' is not a valid EventStatus")
  /\ forall event_id i e,
       list_find (fun e => Event.event_id e = event_id) [sample_event "2030-06-01T09:00:00" 5 2]
         = Some (i, e) ->
       fst (EventService.get_event_by_id (sample_clock 0%nat) event_id
              (written ([sample_event "2030-06-01T09:00:00" 5 2]
                          ++ sample_event_raw_status :: []) [])) = Ok (Some e).
Proof.
  apply (get_all_events_unreadable_record sample_clock
           [sample_event "2030-06-01T09:00:00" 5 2] [] sample_event_raw_status []
           (JStr "postponed")).
  - repeat constructor.
  - exact I.
  - reflexivity.
  - reflexivity.
Defined.

(** ** Saving, deleting and closing an event *)

Lemma get_event_by_id_written now eid es regs :
  Forall Event_wf es ->
  EventService.get_event_by_id now eid (mkStore (Event.to_dict <$> es) regs)
  = (Ok (snd <$> list_find (fun e => Event.event_id e = eid) es),
     mkStore (Event.to_dict <$> es) regs).
Proof.
  intros Hes. rewrite get_event_by_id_run. cbn [events_json].
  by rewrite get_event_by_id_loop_written.
Qed.

(** X8: [_save_event] updates and never adds.  When the file (as the
    application writes it) holds an event with the id of [e], a following
    [get_event_by_id] of that id returns [e]; when it holds none, the save
    leaves the file as it is and the event stays unknown.  Either way the
    answers for all other ids are what they were. *)
Theorem save_event_then_get_event_by_id
    (now : datetime.t) (e : Event.t) (es : list Event.t) (regs : list dict) :
  Forall Event_wf es ->
  Event_wf e ->
  let st := mkStore (Event.to_dict <$> es) regs in
  let st' := snd (EventService._save_event e st) in
  (Event.event_id e ∈ Event.event_id <$> es ->
   fst (EventService.get_event_by_id now (Event.event_id e) st') = Ok (Some e))
  /\ (Event.event_id e ∉ Event.event_id <$> es ->
      st' = st
      /\ fst (EventService.get_event_by_id now (Event.event_id e) st') = Ok None)
  /\ (forall event_id, event_id <> Event.event_id e ->
      fst (EventService.get_event_by_id now event_id st')
      = fst (EventService.get_event_by_id now event_id st)).
Proof.
  intros Hes He st st'. subst st st'. rewrite _save_event_written. cbn [snd].
  split; [|split].
  - intros (i & x & Hfind)%list_find_elem_of_fmap. rewrite Hfind.
    rewrite get_event_by_id_written by (by apply Forall_insert). cbn [fst].
    by rewrite (list_find_insert_first _ _ _ _ e Hfind).
  - intros Hnone%list_find_not_elem_of_fmap. rewrite Hnone. split; [done|].
    rewrite get_event_by_id_written by done. cbn [fst]. by rewrite Hnone.
  - intros eid Hne.
    destruct (list_find _ es) as [[i x]|] eqn:Hfind; [|done].
    rewrite !get_event_by_id_written by (done || by apply Forall_insert). cbn [fst].
    apply list_find_Some in Hfind as (Hi & Hx & _).
    rewrite (list_find_insert_other _ es i x e); congruence.
Qed.

Lemma save_event_then_get_event_by_id_witness :
  let e := sample_event "2030-06-01T09:00:00" 8 3 in
  let st := mkStore (Event.to_dict <$> [sample_event "2030-06-01T09:00:00" 5 2]) [] in
  let st' := snd (EventService._save_event e st) in
  (Event.event_id e ∈ Event.event_id <$> [sample_event "2030-06-01T09:00:00" 5 2] ->
   fst (EventService.get_event_by_id (sample_clock 0) (Event.event_id e) st') = Ok (Some e))
  /\ (Event.event_id e ∉ Event.event_id <$> [sample_event "2030-06-01T09:00:00" 5 2] ->
      st' = st
      /\ fst (EventService.get_event_by_id (sample_clock 0) (Event.event_id e) st') = Ok None)
  /\ (forall event_id, event_id <> Event.event_id e ->
      fst (EventService.get_event_by_id (sample_clock 0) event_id st')
      = fst (EventService.get_event_by_id (sample_clock 0) event_id st)).
Proof.
  apply (save_event_then_get_event_by_id (sample_clock 0)
           (sample_event "2030-06-01T09:00:00" 8 3)
           [sample_event "2030-06-01T09:00:00" 5 2] []).
  - repeat constructor.
  - repeat constructor.
Defined.

Lemma delete_event_written eid es regs :
  EventService.delete_event eid (mkStore (Event.to_dict <$> es) regs)
  = match list_find (fun e => Event.event_id e = eid) es with
    | Some (i, _) =>
        (Ok (succeeded "Xóa sự kiện thành công"),
         mkStore (Event.to_dict <$> delete i es) regs)
    | None => (Ok (failure "Không tìm thấy sự kiện"), mkStore (Event.to_dict <$> es) regs)
    end.
Proof.
  unfold EventService.delete_event. unfold_M. cbn [events_json registrations_json].
  rewrite find_index_events.
  destruct (list_find _ es) as [[i x]|]; cbn; [|done].
  by rewrite list_fmap_delete.
Qed.

(** X9: on a file with pairwise distinct event ids, [delete_event] of a
    stored id succeeds and removes that event and nothing else: afterwards
    [get_event_by_id] answers [None] for the id and what it answered before
    for every other id, and the registrations file is untouched (the
    registrations of the event stay).  For an id that is not stored the call
    answers "not found" and writes nothing. *)
Theorem delete_event_removes
    (now : datetime.t) (event_id : string) (es : list Event.t) (regs : list dict) :
  Forall Event_wf es ->
  NoDup (Event.event_id <$> es) ->
  let st := mkStore (Event.to_dict <$> es) regs in
  (event_id ∈ Event.event_id <$> es ->
   exists i e,
     es !! i = Some e
     /\ Event.event_id e = event_id
     /\ EventService.delete_event event_id st
        = (Ok (succeeded "Xóa sự kiện thành công"),
           mkStore (Event.to_dict <$> delete i es) regs)
     /\ fst (EventService.get_event_by_id now event_id
               (snd (EventService.delete_event event_id st))) = Ok None
     /\ forall other, other <> event_id ->
          fst (EventService.get_event_by_id now other
                 (snd (EventService.delete_event event_id st)))
          = fst (EventService.get_event_by_id now other st))
  /\ (event_id ∉ Event.event_id <$> es ->
      EventService.delete_event event_id st
      = (Ok (failure "Không tìm thấy sự kiện"), st)).
Proof.
  intros Hes Hnd st. subst st. rewrite delete_event_written. split.
  - intros (i & e & Hfind)%list_find_elem_of_fmap. rewrite Hfind.
    pose proof Hfind as (Hi & He & _)%list_find_Some.
    exists i, e. repeat split; try done; cbn [snd].
    + rewrite get_event_by_id_written by (by apply Forall_delete). cbn [fst].
      by rewrite (list_find_delete_first_NoDup _ _ _ _ _ Hnd Hfind).
    + intros other Hne.
      rewrite !get_event_by_id_written by (done || by apply Forall_delete). cbn [fst].
      rewrite (list_find_delete_other _ es i e); congruence.
  - intros Hnone%list_find_not_elem_of_fmap. by rewrite Hnone.
Qed.

Lemma delete_event_removes_witness :
  let st := mkStore (Event.to_dict <$> [sample_event "2030-06-01T09:00:00" 5 2])
                    (Registration.to_dict <$> sample_registrations) in
  ("event_a1" ∈ Event.event_id <$> [sample_event "2030-06-01T09:00:00" 5 2] ->
   exists i e,
     [sample_event "2030-06-01T09:00:00" 5 2] !! i = Some e
     /\ Event.event_id e = "event_a1"
     /\ EventService.delete_event "event_a1" st
        = (Ok (succeeded "Xóa sự kiện thành công"),
           mkStore (Event.to_dict <$> delete i [sample_event "2030-06-01T09:00:00" 5 2])
                   (Registration.to_dict <$> sample_registrations))
     /\ fst (EventService.get_event_by_id (sample_clock 0) "event_a1"
               (snd (EventService.delete_event "event_a1" st))) = Ok None
     /\ forall other, other <> "event_a1" ->
          fst (EventService.get_event_by_id (sample_clock 0) other
                 (snd (EventService.delete_event "event_a1" st)))
          = fst (EventService.get_event_by_id (sample_clock 0) other st))
  /\ ("event_a1" ∉ Event.event_id <$> [sample_event "2030-06-01T09:00:00" 5 2] ->
      EventService.delete_event "event_a1" st
      = (Ok (failure "Không tìm thấy sự kiện"), st)).
Proof.
  apply (delete_event_removes (sample_clock 0) "event_a1"
           [sample_event "2030-06-01T09:00:00" 5 2]
           (Registration.to_dict <$> sample_registrations)).
  - repeat constructor.
  - apply (bool_decide_unpack
             (NoDup (Event.event_id <$> [sample_event "2030-06-01T09:00:00" 5 2]))).
    vm_compute. exact I.
Defined.

Lemma cancel_event_written clock eid reason es regs i e :
  Forall Event_wf es ->
  list_find (fun e => Event.event_id e = eid) es = Some (i, e) ->
  EventService.cancel_event clock eid reason (mkStore (Event.to_dict <$> es) regs)
  = (Ok (succeeded "Hủy sự kiện thành công"),
     mkStore (Event.to_dict <$> <[i := Event.cancel (clock 1%nat) e]> es) regs).
Proof.
  intros Hes Hfind. unfold EventService.cancel_event, try_except, bind.
  rewrite get_event_by_id_written, Hfind by done. cbn [fmap option_fmap option_map snd].
  rewrite _save_event_written. change (Event.event_id (Event.cancel _ e)) with (Event.event_id e).
  pose proof Hfind as (_ & -> & _)%list_find_Some. by rewrite Hfind.
Qed.

Lemma complete_event_written clock eid es regs i e :
  Forall Event_wf es ->
  list_find (fun e => Event.event_id e = eid) es = Some (i, e) ->
  EventService.complete_event clock eid (mkStore (Event.to_dict <$> es) regs)
  = (Ok (succeeded "Đánh dấu hoàn thành sự kiện thành công"),
     mkStore (Event.to_dict <$> <[i := Event.complete (clock 1%nat) e]> es) regs).
Proof.
  intros Hes Hfind. unfold EventService.complete_event, try_except, bind.
  rewrite get_event_by_id_written, Hfind by done. cbn [fmap option_fmap option_map snd].
  rewrite _save_event_written.
  change (Event.event_id (Event.complete _ e)) with (Event.event_id e).
  pose proof Hfind as (_ & -> & _)%list_find_Some. by rewrite Hfind.
Qed.

Lemma register_for_event_unavailable fi clock token eid uid st event :
  fst (EventService.get_event_by_id (clock 0%nat) eid st) = Ok (Some event) ->
  Event.is_available_for_registration fi (clock 0%nat) event = false ->
  RegistrationService.register_for_event fi clock token eid uid st
  = (Ok (failure RegistrationService.MSG_EVENT_NOT_AVAILABLE), st).
Proof.
  intros Hget Hav. rewrite get_event_by_id_run in Hget. cbn [fst] in Hget.
  unfold RegistrationService.register_for_event, try_except, bind.
  by rewrite get_event_by_id_run, Hget, Hav.
Qed.

(** X10: [cancel_event] and [complete_event] of a stored event succeed,
    change that event's record only and leave the registrations file as it
    is (the registrations of a cancelled event are not cancelled with it);
    from then on every [register_for_event] for the event is refused as
    "not available" and writes nothing. *)
Theorem closed_event_refuses_registration
    (clock : nat -> datetime.t) (event_id reason : string)
    (es : list Event.t) (regs : list dict) (i : nat) (e : Event.t) :
  Forall Event_wf es ->
  list_find (fun e => Event.event_id e = event_id) es = Some (i, e) ->
  let st := mkStore (Event.to_dict <$> es) regs in
  let cancelled := mkStore (Event.to_dict <$> <[i := Event.cancel (clock 1%nat) e]> es) regs in
  let completed := mkStore (Event.to_dict <$> <[i := Event.complete (clock 1%nat) e]> es) regs in
  EventService.cancel_event clock event_id reason st
  = (Ok (succeeded "Hủy sự kiện thành công"), cancelled)
  /\ EventService.complete_event clock event_id st
     = (Ok (succeeded "Đánh dấu hoàn thành sự kiện thành công"), completed)
  /\ forall fromisoformat clock' token user_id,
       RegistrationService.register_for_event fromisoformat clock' token event_id user_id
         cancelled
       = (Ok (failure RegistrationService.MSG_EVENT_NOT_AVAILABLE), cancelled)
       /\ RegistrationService.register_for_event fromisoformat clock' token event_id user_id
            completed
          = (Ok (failure RegistrationService.MSG_EVENT_NOT_AVAILABLE), completed).
Proof.
  intros Hes Hfind st cancelled completed. subst st cancelled completed.
  split; [by apply cancel_event_written|]. split; [by apply complete_event_written|].
  pose proof Hfind as (Hi & He & _)%list_find_Some.
  assert (Event_wf e) as Hwf by (rewrite Forall_forall in Hes; eapply Hes, list_elem_of_lookup_2, Hi).
  intros fi clock' token uid. split.
  - apply register_for_event_unavailable with (event := Event.cancel (clock 1%nat) e).
    + rewrite get_event_by_id_written by (apply Forall_insert; [done|split; [apply Hwf|exact I]]).
      cbn [fst]. by rewrite (list_find_insert_first _ _ _ _ (Event.cancel (clock 1%nat) e) Hfind He).
    + reflexivity.
  - apply register_for_event_unavailable with (event := Event.complete (clock 1%nat) e).
    + rewrite get_event_by_id_written by (apply Forall_insert; [done|split; [apply Hwf|exact I]]).
      cbn [fst]. by rewrite (list_find_insert_first _ _ _ _ (Event.complete (clock 1%nat) e) Hfind He).
    + reflexivity.
Qed.

Lemma closed_event_refuses_registration_witness :
  let es := [sample_event "2030-06-01T09:00:00" 5 2] in
  let regs := Registration.to_dict <$> sample_registrations in
  let st := mkStore (Event.to_dict <$> es) regs in
  let cancelled :=
    mkStore (Event.to_dict <$> <[0%nat := Event.cancel (sample_clock 1)
                                            (sample_event "2030-06-01T09:00:00" 5 2)]> es) regs in
  let completed :=
    mkStore (Event.to_dict <$> <[0%nat := Event.complete (sample_clock 1)
                                            (sample_event "2030-06-01T09:00:00" 5 2)]> es) regs in
  EventService.cancel_event sample_clock "event_a1" "storm warning" st
  = (Ok (succeeded "Hủy sự kiện thành công"), cancelled)
  /\ EventService.complete_event sample_clock "event_a1" st
     = (Ok (succeeded "Đánh dấu hoàn thành sự kiện thành công"), completed)
  /\ forall fromisoformat clock' token user_id,
       RegistrationService.register_for_event fromisoformat clock' token "event_a1" user_id
         cancelled
       = (Ok (failure RegistrationService.MSG_EVENT_NOT_AVAILABLE), cancelled)
       /\ RegistrationService.register_for_event fromisoformat clock' token "event_a1" user_id
            completed
          = (Ok (failure RegistrationService.MSG_EVENT_NOT_AVAILABLE), completed).
Proof.
  apply (closed_event_refuses_registration sample_clock "event_a1" "storm warning"
           [sample_event "2030-06-01T09:00:00" 5 2]
           (Registration.to_dict <$> sample_registrations) 0
           (sample_event "2030-06-01T09:00:00" 5 2)).
  - repeat constructor.
  - reflexivity.
Defined.

(** ** The most popular events *)

Lemma insert_by_attendees_Permutation x l :
  EventService.insert_by_attendees x l ≡ₚ x :: l.
Proof.
  induction l as [|y l IH]; [done|].
  cbn [EventService.insert_by_attendees]. case_bool_decide; [|done].
  rewrite IH. apply Permutation_swap.
Qed.

Lemma sorted_by_attendees_Permutation l : EventService.sorted_by_attendees l ≡ₚ l.
Proof.
  induction l as [|x l IH]; [done|].
  cbn [EventService.sorted_by_attendees foldr].
  fold (EventService.sorted_by_attendees l).
  by rewrite insert_by_attendees_Permutation, IH.
Qed.

Lemma descending_attendance_cons x l :
  descending_attendance (x :: l)
  <-> (forall b, b ∈ l -> Event.current_attendees b <= Event.current_attendees x)
      /\ descending_attendance l.
Proof.
  split.
  - intros H. split.
    + intros b [j Hj]%list_elem_of_lookup. apply (H 0%nat (S j)); [done|done|lia].
    + intros i j a b Hi Hj Hij. apply (H (S i) (S j)); [done|done|lia].
  - intros [H1 H2] i j a b Hi Hj Hij.
    destruct i as [|i], j as [|j]; cbn in Hi, Hj.
    + injection Hi as <-. injection Hj as <-. lia.
    + injection Hi as <-. apply H1. by eapply list_elem_of_lookup_2.
    + lia.
    + apply (H2 i j); [done|done|lia].
Qed.

Lemma insert_by_attendees_descending x l :
  descending_attendance l -> descending_attendance (EventService.insert_by_attendees x l).
Proof.
  induction l as [|y l IH]; intros Hl.
  - apply descending_attendance_cons. split; [by intros b ?%elem_of_nil|done].
  - apply descending_attendance_cons in Hl as [Hy Hl].
    cbn [EventService.insert_by_attendees]. case_bool_decide as Hgt.
    + apply descending_attendance_cons. split; [|by apply IH].
      intros b Hb. rewrite insert_by_attendees_Permutation in Hb.
      apply elem_of_cons in Hb as [->|Hb]; [lia|by apply Hy].
    + apply descending_attendance_cons. split.
      * intros b [->|Hb]%elem_of_cons; [lia|]. specialize (Hy b Hb). lia.
      * apply descending_attendance_cons. by split.
Qed.

Lemma sorted_by_attendees_descending l :
  descending_attendance (EventService.sorted_by_attendees l).
Proof.
  induction l as [|x l IH]; [by intros [|?] ? ? ? ?|].
  by apply insert_by_attendees_descending.
Qed.

Lemma insert_by_attendees_filter k x l :
  filter (fun e => Event.current_attendees e = k) (EventService.insert_by_attendees x l)
  = filter (fun e => Event.current_attendees e = k) (x :: l).
Proof.
  induction l as [|y l IH]; [done|].
  cbn [EventService.insert_by_attendees]. case_bool_decide as Hgt; [|done].
  rewrite filter_cons, IH, !filter_cons.
  repeat case_decide; try done; lia.
Qed.

Lemma sorted_by_attendees_filter k l :
  filter (fun e => Event.current_attendees e = k) (EventService.sorted_by_attendees l)
  = filter (fun e => Event.current_attendees e = k) l.
Proof.
  induction l as [|x l IH]; [done|].
  cbn [EventService.sorted_by_attendees foldr].
  fold (EventService.sorted_by_attendees l).
  by rewrite insert_by_attendees_filter, !filter_cons, IH.
Qed.

(** X11: [get_popular_events(limit)] on an events file as the application
    writes it returns a front part of the stored events rearranged in
    descending order of [current_attendees], events with equal counts in
    file order (the sort is stable): nothing is lost or invented, the
    events left out are at most as popular as any returned one.  It returns
    [limit] events, or all when there are fewer; a negative [limit] drops
    that many events from the unpopular end instead.  It writes nothing. *)
Theorem get_popular_events_spec
    (clock : nat -> datetime.t) (limit : Z) (es : list Event.t) (rs : list Registration.t) :
  Forall Event_wf es ->
  exists l rest,
    EventService.get_popular_events clock limit (written es rs) = (Ok l, written es rs)
    /\ descending_attendance (l ++ rest)
    /\ l ++ rest ≡ₚ es
    /\ (forall k, filter (fun e => Event.current_attendees e = k) (l ++ rest)
                  = filter (fun e => Event.current_attendees e = k) es)
    /\ (0 <= limit -> length l = Nat.min (Z.to_nat limit) (length es))
    /\ (limit < 0 -> length l = Z.to_nat (Z.of_nat (length es) + limit)).
Proof.
  intros Hes.
  assert (length (EventService.sorted_by_attendees es) = length es) as Hlen
    by (by rewrite sorted_by_attendees_Permutation).
  unfold EventService.get_popular_events, EventService.get_all_events.
  unfold_M. unfold written at 1. cbn [events_json].
  rewrite Event_from_dicts_written by done.
  unfold EventService.slice_to. rewrite Hlen.
  set (n := if bool_decide (limit < 0) then Z.to_nat (Z.of_nat (length es) + limit)
            else Z.to_nat limit).
  exists (take n (EventService.sorted_by_attendees es)),
         (drop n (EventService.sorted_by_attendees es)).
  rewrite take_drop. split; [|split; [|split; [|split; [|split]]]].
  - subst n. by case_bool_decide.
  - apply sorted_by_attendees_descending.
  - apply sorted_by_attendees_Permutation.
  - intros k. apply sorted_by_attendees_filter.
  - intros Hl. subst n. rewrite bool_decide_eq_false_2 by lia.
    by rewrite length_take, Hlen.
  - intros Hl. subst n. rewrite bool_decide_eq_true_2 by lia.
    rewrite length_take, Hlen. lia.
Qed.

Lemma get_popular_events_spec_witness :
  exists l rest,
    EventService.get_popular_events sample_clock 2
      (written [sample_event "2030-06-01T09:00:00" 5 2; sample_event_b2 17; sample_event_c3 17]
               [])
    = (Ok l,
       written [sample_event "2030-06-01T09:00:00" 5 2; sample_event_b2 17; sample_event_c3 17]
               [])
    /\ descending_attendance (l ++ rest)
    /\ l ++ rest ≡ₚ [sample_event "2030-06-01T09:00:00" 5 2; sample_event_b2 17;
                     sample_event_c3 17]
    /\ (forall k, filter (fun e => Event.current_attendees e = k) (l ++ rest)
                  = filter (fun e => Event.current_attendees e = k)
                      [sample_event "2030-06-01T09:00:00" 5 2; sample_event_b2 17;
                       sample_event_c3 17])
    /\ (0 <= 2 -> length l = Nat.min (Z.to_nat 2) 3)
    /\ (2 < 0 -> length l = Z.to_nat (3 + 2)).
Proof.
  apply (get_popular_events_spec sample_clock 2
           [sample_event "2030-06-01T09:00:00" 5 2; sample_event_b2 17; sample_event_c3 17] []).
  repeat constructor.
Defined.

(** ** [register_for_event] and [cancel_registration] on written files *)

Lemma get_registration_written clock eid uid evs rs :
  Forall Registration_wf rs ->
  RegistrationService.get_registration clock eid uid
    (mkStore evs (Registration.to_dict <$> rs))
  = (Ok (snd <$> list_find (for_pair eid uid) rs),
     mkStore evs (Registration.to_dict <$> rs)).
Proof.
  intros Hrs. rewrite get_registration_run. cbn [registrations_json].
  by rewrite get_registration_loop_written.
Qed.

(** The whole decision of [register_for_event], on files as the
    application writes them. *)
Lemma register_for_event_written fi clock token eid uid es rs :
  Forall Event_wf es ->
  Forall Registration_wf rs ->
  RegistrationService.register_for_event fi clock token eid uid (written es rs)
  = match list_find (fun e => Event.event_id e = eid) es with
    | None => (Ok (failure RegistrationService.MSG_EVENT_NOT_FOUND), written es rs)
    | Some (i, event) =>
        if negb (Event.is_available_for_registration fi (clock 0%nat) event)
        then (Ok (failure RegistrationService.MSG_EVENT_NOT_AVAILABLE), written es rs)
        else if match snd <$> list_find (for_pair eid uid) rs with
                | Some r => Registration.is_active r
                | None => false
                end
        then (Ok (failure RegistrationService.MSG_ALREADY_REGISTERED), written es rs)
        else
          let registration :=
            Registration.init (clock 1%nat) (clock 2%nat)
              (RegistrationService._generate_registration_id token) eid uid in
          (Ok {| success := true;
                 message := RegistrationService.MSG_REGISTERED;
                 registration := Some registration;
                 cancelled_count := None |},
           written (<[i := Event.with_attendees (clock 3%nat)
                             (Event.current_attendees event + 1) event]> es)
                   (rs ++ [registration]))
    end.
Proof.
  intros Hes Hrs.
  unfold written, RegistrationService.register_for_event, try_except, bind.
  rewrite get_event_by_id_written by done.
  destruct (list_find _ es) as [[i event]|] eqn:Hfind;
    cbn [fmap option_fmap option_map snd]; [|done].
  destruct (Event.is_available_for_registration fi (clock 0%nat) event) eqn:Hav;
    cbn [negb]; [|done].
  rewrite get_registration_written by done.
  destruct (match snd <$> list_find (for_pair eid uid) rs with
            | Some r => Registration.is_active r
            | None => false
            end); [done|].
  pose proof (is_available_not_full _ _ _ Hav) as Hfull. rewrite Hfull.
  unfold Event.is_full in Hfull. apply bool_decide_eq_false in Hfull.
  unfold ret, FileManager.load_json, FileManager.save_json.
  cbn [registrations_json events_json].
  unfold Event.add_attendee. rewrite bool_decide_eq_true_2 by lia. cbn [snd].
  cbv zeta.
  change ((Registration.to_dict <$> rs) ++ [Registration.to_dict ?r])
    with ((Registration.to_dict <$> rs) ++ (Registration.to_dict <$> [r])).
  rewrite <- fmap_app.
  rewrite _save_event_written.
  change (Event.event_id (Event.with_attendees _ _ event)) with (Event.event_id event).
  pose proof Hfind as (_ & -> & _)%list_find_Some. by rewrite Hfind.
Qed.


(** X12: on files as the application writes them, [register_for_event]
    succeeds exactly when the event is stored, [is_available_for_registration]
    accepts it, and the first stored registration of the pair, if there is
    one, is not active.  A success appends one Confirmed registration with
    the generated id and raises the event's [current_attendees] by one; a
    refusal writes nothing. *)
Theorem register_for_event_outcome
    (fromisoformat : string -> option datetime.t) (clock : nat -> datetime.t)
    (token event_id user_id : string) (es : list Event.t) (rs : list Registration.t) :
  Forall Event_wf es ->
  Forall Registration_wf rs ->
  exists res st',
    RegistrationService.register_for_event fromisoformat clock token event_id user_id
      (written es rs) = (Ok res, st')
    /\ (success res = true
        <-> exists i event,
              list_find (fun e => Event.event_id e = event_id) es = Some (i, event)
              /\ Event.is_available_for_registration fromisoformat (clock 0%nat) event = true
              /\ forall j r, list_find (for_pair event_id user_id) rs = Some (j, r) ->
                             Registration.is_active r = false)
    /\ (success res = false -> st' = written es rs)
    /\ (success res = true ->
        exists i event,
          list_find (fun e => Event.event_id e = event_id) es = Some (i, event)
          /\ registration res
             = Some (Registration.init (clock 1%nat) (clock 2%nat)
                       (RegistrationService._generate_registration_id token)
                       event_id user_id)
          /\ st' = written
                     (<[i := Event.with_attendees (clock 3%nat)
                               (Event.current_attendees event + 1) event]> es)
                     (rs ++ [Registration.init (clock 1%nat) (clock 2%nat)
                               (RegistrationService._generate_registration_id token)
                               event_id user_id])).
Proof.
  intros Hes Hrs. rewrite register_for_event_written by done.
  destruct (list_find _ es) as [[i event]|] eqn:Hfind.
  2:{ eexists _, _. split; [done|]. cbn. split; [|by split].
      split; [done|]. by intros (? & ? & ? & _). }
  destruct (Event.is_available_for_registration _ _ event) eqn:Hav; cbn [negb].
  2:{ eexists _, _. split; [done|]. cbn. split; [|by split].
      split; [done|]. intros (? & ? & [= <- <-] & ? & _). congruence. }
  destruct (list_find (for_pair event_id user_id) rs) as [[j r]|] eqn:Hr;
    cbn [fmap option_fmap option_map snd].
  - destruct (Registration.is_active r) eqn:Hact.
    + eexists _, _. split; [done|]. cbn. split; [|by split].
      split; [done|]. intros (? & ? & _ & _ & H). specialize (H j r eq_refl). congruence.
    + eexists _, _. split; [done|]. cbn. split; [|split; [done|by eauto]].
      split; [|done]. intros _. exists i, event. repeat split; try done.
      by intros ? ? [= <- <-].
  - eexists _, _. split; [done|]. cbn. split; [|split; [done|by eauto]].
    split; [|done]. intros _. exists i, event. repeat split; done.
Qed.

Lemma register_for_event_outcome_witness :
  exists res st',
    RegistrationService.register_for_event sample_fromisoformat sample_clock
      "0a1b2c3d4e5f" "event_a1" "user_s2"
      (written [sample_event "2030-06-01T09:00:00" 5 2] sample_registrations) = (Ok res, st')
    /\ (success res = true
        <-> exists i event,
              list_find (fun e => Event.event_id e = "event_a1")
                [sample_event "2030-06-01T09:00:00" 5 2] = Some (i, event)
              /\ Event.is_available_for_registration sample_fromisoformat
                   (sample_clock 0) event = true
              /\ forall j r, list_find (for_pair "event_a1" "user_s2") sample_registrations
                             = Some (j, r) ->
                             Registration.is_active r = false)
    /\ (success res = false
        -> st' = written [sample_event "2030-06-01T09:00:00" 5 2] sample_registrations)
    /\ (success res = true ->
        exists i event,
          list_find (fun e => Event.event_id e = "event_a1")
            [sample_event "2030-06-01T09:00:00" 5 2] = Some (i, event)
          /\ registration res
             = Some (Registration.init (sample_clock 1) (sample_clock 2)
                       (RegistrationService._generate_registration_id "0a1b2c3d4e5f")
                       "event_a1" "user_s2")
          /\ st' = written
                     (<[i := Event.with_attendees (sample_clock 3)
                               (Event.current_attendees event + 1) event]>
                        [sample_event "2030-06-01T09:00:00" 5 2])
                     (sample_registrations
                        ++ [Registration.init (sample_clock 1) (sample_clock 2)
                              (RegistrationService._generate_registration_id "0a1b2c3d4e5f")
                              "event_a1" "user_s2"])).
Proof.
  apply (register_for_event_outcome sample_fromisoformat sample_clock
           "0a1b2c3d4e5f" "event_a1" "user_s2"
           [sample_event "2030-06-01T09:00:00" 5 2] sample_registrations).
  - repeat constructor.
  - repeat constructor.
Defined.

(** ** What a refused call leaves behind *)

Lemma Event_from_dict_id now d e :
  Event.from_dict now d = Ok e -> d !! "event_id" = Some (JStr (Event.event_id e)).
Proof.
  unfold Event.from_dict, getitem.
  destruct (d !! "event_id") as [[| | |s|]|]; try discriminate.
  cbn [result_bind as_str]. unfold result_bind. intros H.
  repeat match type of H with
         | match ?x with _ => _ end = _ => destruct x; try discriminate
         end.
  by injection H as <-.
Qed.

Lemma eq_str_true v s : eq_str v s = true -> v = JStr s.
Proof. destruct v; try discriminate. cbn. by intros ->%bool_decide_eq_true. Qed.

Lemma find_index_Some key value l k j d :
  find_index key value l k = Ok (Some (j, d)) ->
  (k <= j)%nat /\ l !! (j - k)%nat = Some d /\ d !! key = Some (JStr value).
Proof.
  revert k. induction l as [|a l IH]; intros k; [done|].
  cbn [find_index]. unfold getitem. destruct (a !! key) as [v|] eqn:Ha; [|done].
  cbn [result_bind]. destruct (eq_str v value) eqn:Hv.
  - intros [= <- <-]. apply eq_str_true in Hv as ->.
    rewrite Nat.sub_diag. by split; [lia|].
  - intros (Hk & Hl & Hd)%IH. split; [lia|]. split; [|done].
    replace (j - k)%nat with (S (j - S k)) by lia. done.
Qed.

(** The record that [get_event_by_id] builds its answer from is the one the
    loop of [_save_event] stops at. *)
Lemma get_event_by_id_loop_find_index now eid l e :
  EventService.get_event_by_id_loop now eid l = Ok (Some e) ->
  Event.event_id e = eid
  /\ forall k, exists j d,
       find_index "event_id" eid l k = Ok (Some (j, d))
       /\ Event.from_dict now d = Ok e.
Proof.
  induction l as [|a l IH]; [done|].
  cbn [EventService.get_event_by_id_loop find_index].
  destruct (getitem a "event_id") as [v|err] eqn:Ha; [|done]. cbn [result_bind].
  destruct (eq_str v eid) eqn:Hv.
  - destruct (Event.from_dict now a) as [e'|] eqn:Hfrom; [|done]. cbn [result_bind].
    intros [= ->]. apply eq_str_true in Hv as ->.
    pose proof (Event_from_dict_id _ _ _ Hfrom) as Hid.
    unfold getitem in Ha. rewrite Hid in Ha. injection Ha as Ha. split; [done|].
    intros k. by exists k, a.
  - intros [Hid Hk]%IH. split; [done|]. intros k. apply Hk.
Qed.

Lemma _save_event_found e st j d :
  find_index "event_id" (Event.event_id e) (events_json st) 0 = Ok (Some (j, d)) ->
  EventService._save_event e st
  = (Ok true, mkStore (<[j := Event.to_dict e]> (events_json st)) (registrations_json st)).
Proof. intros H. unfold EventService._save_event. unfold_M. by rewrite H. Qed.

Lemma add_attendee_id now e : Event.event_id (snd (Event.add_attendee now e)) = Event.event_id e.
Proof. unfold Event.add_attendee. by case_bool_decide. Qed.

Lemma remove_attendee_id now e :
  Event.event_id (snd (Event.remove_attendee now e)) = Event.event_id e.
Proof. unfold Event.remove_attendee. by case_bool_decide. Qed.

(** ** Well-typed records *)

Lemma EventCategory_of_value_error v e :
  EventCategory.of_value v = Raise e -> exists msg, e = ValueError msg.
Proof.
  unfold EventCategory.of_value. destruct (List.find _ _); [done|].
  intros [= <-]. eauto.
Qed.

Lemma EventStatus_of_value_error v e :
  EventStatus.of_value v = Raise e -> exists msg, e = ValueError msg.
Proof.
  unfold EventStatus.of_value. destruct (List.find _ _); [done|].
  intros [= <-]. eauto.
Qed.

Lemma RegistrationStatus_of_value_error v e :
  RegistrationStatus.of_value v = Raise e -> exists msg, e = ValueError msg.
Proof.
  unfold RegistrationStatus.of_value. destruct (List.find _ _); [done|].
  intros [= <-]. eauto.
Qed.

Lemma typed_at_getitem_str d key e :
  typed_at is_str d key ->
  result_bind (getitem d key) as_str = Raise e -> e = KeyError key.
Proof.
  unfold typed_at, getitem. destruct (d !! key) as [[]|]; cbn; try done.
  by intros _ [= <-].
Qed.

Lemma typed_at_getitem_int d key e :
  typed_at is_int d key ->
  result_bind (getitem d key) as_int = Raise e -> e = KeyError key.
Proof.
  unfold typed_at, getitem. destruct (d !! key) as [[]|]; cbn; try done.
  by intros _ [= <-].
Qed.

Lemma typed_at_get_str d key s e :
  typed_at is_str d key -> as_str (get d key (JStr s)) = Raise e -> False.
Proof. unfold typed_at, get. by destruct (d !! key) as [[]|]. Qed.

Lemma typed_at_get_int d key n e :
  typed_at is_int d key -> as_int (get d key (JInt n)) = Raise e -> False.
Proof. unfold typed_at, get. by destruct (d !! key) as [[]|]. Qed.

Lemma typed_at_get_list d key l e :
  typed_at is_list d key -> as_list (get d key (JList l)) = Raise e -> False.
Proof. unfold typed_at, get. by destruct (d !! key) as [[]|]. Qed.

(** On a well-typed record [from_dict] raises what the code raises there: the
    [KeyError] of a missing key or the [ValueError] of an enum. *)
Lemma Event_from_dict_typed now d e :
  event_typed d ->
  Event.from_dict now d = Raise e ->
  (exists key, e = KeyError key) \/ (exists msg, e = ValueError msg).
Proof.
  intros (Hstr & Hint & Hlist).
  repeat match goal with
         | H : Forall _ (_ :: _) |- _ => apply Forall_cons in H as [? H]
         end.
  unfold Event.from_dict.
  repeat match goal with
         | |- result_bind ?m _ = Raise _ -> _ =>
             let E := fresh "E" in
             destruct m eqn:E; cbn [result_bind];
             [|intros [= <-];
               first [ left; eexists; eapply typed_at_getitem_str; [|eassumption]; eassumption
                     | left; eexists; eapply typed_at_getitem_int; [|eassumption]; eassumption
                     | right; eapply EventCategory_of_value_error; eassumption
                     | right; eapply EventStatus_of_value_error; eassumption
                     | exfalso; eapply typed_at_get_str; [|eassumption]; eassumption
                     | exfalso; eapply typed_at_get_int; [|eassumption]; eassumption
                     | exfalso; eapply typed_at_get_list; [|eassumption]; eassumption ]]
         end.
  done.
Qed.

Lemma Registration_from_dict_typed now d e :
  registration_typed d ->
  Registration.from_dict now d = Raise e ->
  (exists key, e = KeyError key) \/ (exists msg, e = ValueError msg).
Proof.
  intros Hstr. unfold registration_typed in Hstr.
  repeat match goal with
         | H : Forall _ (_ :: _) |- _ => apply Forall_cons in H as [? H]
         end.
  unfold Registration.from_dict.
  repeat match goal with
         | |- result_bind ?m _ = Raise _ -> _ =>
             let E := fresh "E" in
             destruct m eqn:E; cbn [result_bind];
             [|intros [= <-];
               first [ left; eexists; eapply typed_at_getitem_str; [|eassumption]; eassumption
                     | right; eapply RegistrationStatus_of_value_error; eassumption
                     | exfalso; eapply typed_at_get_str; [|eassumption]; eassumption ]]
         end.
  done.
Qed.

Lemma Event_to_dict_typed e : event_typed (Event.to_dict e).
Proof.
  split; [|split];
    [repeat (apply Forall_cons_2; [exact I|]); apply Forall_nil_2 ..|exact I].
Qed.

Lemma Registration_to_dict_typed r : registration_typed (Registration.to_dict r).
Proof. repeat (apply Forall_cons_2; [exact I|]). apply Forall_nil_2. Qed.

Lemma written_typed es rs : typed (written es rs).
Proof.
  split; apply Forall_fmap, Forall_forall; intros x _;
    [apply Event_to_dict_typed|apply Registration_to_dict_typed].
Qed.

Lemma sample_untitled_store_typed :
  typed (mkStore [sample_untitled_event] (Registration.to_dict <$> sample_registrations)).
Proof.
  split.
  - constructor; [|constructor].
    split; [|split];
      [repeat (apply Forall_cons_2; [exact I|]); apply Forall_nil_2 ..|exact I].
  - apply Forall_fmap, Forall_forall. intros r _. apply Registration_to_dict_typed.
Qed.

(** X13: on files of well-typed records (each stored attribute of the
    JSON type the model class annotates; keys may be missing and statuses
    unknown), [register_for_event] and [mark_attendance] never raise, and a
    call that answers with a failure has written nothing. *)
Theorem refused_call_writes_nothing
    (fromisoformat : string -> option datetime.t) (clock : nat -> datetime.t)
    (token event_id user_id registration_id : string) (attended : bool) (st : Store) :
  typed st ->
  (exists res,
     fst (RegistrationService.register_for_event fromisoformat clock token event_id user_id st)
       = Ok res
     /\ (success res = false ->
         snd (RegistrationService.register_for_event fromisoformat clock token
                event_id user_id st) = st))
  /\ (exists res,
        fst (RegistrationService.mark_attendance clock registration_id attended st) = Ok res
        /\ (success res = false ->
            snd (RegistrationService.mark_attendance clock registration_id attended st) = st)).
Proof.
  intros _. split.
  - unfold RegistrationService.register_for_event, try_except, bind.
    rewrite get_event_by_id_run.
    destruct (EventService.get_event_by_id_loop _ _ _) as [[event|]|e] eqn:Hget; reduce_M;
      try by eauto.
    destruct (negb _); reduce_M; try by eauto.
    rewrite get_registration_run.
    destruct (RegistrationService.get_registration_loop _ _ _ _) as [existing|e];
      reduce_M; try by eauto.
    destruct (match existing with Some _ => _ | None => _ end); reduce_M; try by eauto.
    destruct (Event.is_full event); reduce_M; try by eauto.
    unfold FileManager.load_json, FileManager.save_json.
    apply get_event_by_id_loop_find_index in Hget as [Hid Hk].
    destruct (Hk 0%nat) as (j & d & Hj & _).
    erewrite _save_event_found
      by (cbn [events_json]; rewrite add_attendee_id, Hid; exact Hj).
    eexists. split; [done|]. cbn. discriminate.
  - unfold RegistrationService.mark_attendance, try_except, bind. unfold_M.
    destruct (find_index _ _ _ _) as [[[j x]|]|e]; reduce_M; try by eauto.
    destruct (Registration.from_dict _ _) as [r|e]; reduce_M; try by eauto.
    eexists. split; [done|]. cbn. discriminate.
Qed.

Lemma refused_call_writes_nothing_witness :
  (exists res,
     fst (RegistrationService.register_for_event sample_fromisoformat sample_clock
            "0a1b2c3d4e5f" "event_a1" "user_s9"
            (mkStore [sample_untitled_event] (Registration.to_dict <$> sample_registrations)))
       = Ok res
     /\ (success res = false ->
         snd (RegistrationService.register_for_event sample_fromisoformat sample_clock
                "0a1b2c3d4e5f" "event_a1" "user_s9"
                (mkStore [sample_untitled_event]
                   (Registration.to_dict <$> sample_registrations)))
         = mkStore [sample_untitled_event] (Registration.to_dict <$> sample_registrations)))
  /\ (exists res,
        fst (RegistrationService.mark_attendance sample_clock "reg_09" true
               (mkStore [sample_untitled_event]
                  (Registration.to_dict <$> sample_registrations))) = Ok res
        /\ (success res = false ->
            snd (RegistrationService.mark_attendance sample_clock "reg_09" true
                   (mkStore [sample_untitled_event]
                      (Registration.to_dict <$> sample_registrations)))
            = mkStore [sample_untitled_event] (Registration.to_dict <$> sample_registrations))).
Proof.
  apply (refused_call_writes_nothing sample_fromisoformat sample_clock
           "0a1b2c3d4e5f" "event_a1" "user_s9" "reg_09" true
           (mkStore [sample_untitled_event] (Registration.to_dict <$> sample_registrations))).
  apply sample_untitled_store_typed.
Defined.





(** ** Registering and cancelling again *)



(** ** What every run of the coordinator keeps *)

Lemma Event_from_dict_capacity now d e c m :
  Event.from_dict now d = Ok e ->
  d !! "current_attendees" = Some (JInt c) ->
  d !! "max_capacity" = Some (JInt m) ->
  Event.current_attendees e = c /\ Event.max_capacity e = m.
Proof.
  unfold Event.from_dict, getitem, get. intros H Hc Hm. rewrite Hc, Hm in H.
  cbn [result_bind as_int] in H. unfold result_bind in H.
  repeat match type of H with
         | match ?x with _ => _ end = _ => destruct x; try discriminate
         end.
  by injection H as <-.
Qed.

Lemma capacity_ok_to_dict e :
  0 <= Event.current_attendees e <= Event.max_capacity e -> capacity_ok (Event.to_dict e).
Proof. intros H. by exists (Event.current_attendees e), (Event.max_capacity e). Qed.

Lemma _save_registration_events r st :
  events_json (snd (RegistrationService._save_registration r st)) = events_json st.
Proof.
  unfold RegistrationService._save_registration. unfold_M.
  by destruct (find_index _ _ _ _) as [[[j x]|]|e].
Qed.

Lemma bulk_cancel_loop_events clock reason l :
  forall k st,
    events_json (snd (RegistrationService.bulk_cancel_loop clock reason l k st))
    = events_json st.
Proof.
  induction l as [|r l IH]; intros k st; [done|].
  cbn [RegistrationService.bulk_cancel_loop].
  destruct (Registration.is_active r); [|apply IH].
  unfold bind.
  pose proof (_save_registration_events (Registration.cancel (clock (S k)) reason r) st)
    as Hsave.
  destruct (RegistrationService._save_registration _ st) as [[b|e] st1];
    cbn [snd] in *; [|done].
  by rewrite IH.
Qed.

(** A step changes the events file in one way only: the record that
    [get_event_by_id] read is written back with its count moved by
    [add_attendee] or [remove_attendee]. *)
Lemma step_events fi st op :
  events_json (step fi st op) = events_json st
  \/ exists now now' eid j d e,
       find_index "event_id" eid (events_json st) 0 = Ok (Some (j, d))
       /\ Event.from_dict now d = Ok e
       /\ (events_json (step fi st op)
           = <[j := Event.to_dict (snd (Event.add_attendee now' e))]> (events_json st)
           \/ events_json (step fi st op)
              = <[j := Event.to_dict (snd (Event.remove_attendee now' e))]> (events_json st)).
Proof.
  destruct op as [clock token eid uid|clock eid uid reason|clock eid reason|clock rid attended];
    unfold step, call.
  - unfold RegistrationService.register_for_event, try_except, bind.
    rewrite get_event_by_id_run.
    destruct (EventService.get_event_by_id_loop _ _ _) as [[event|]|e] eqn:Hget; reduce_M;
      try by left.
    destruct (negb _); reduce_M; try by left.
    rewrite get_registration_run.
    destruct (RegistrationService.get_registration_loop _ _ _ _) as [existing|e];
      reduce_M; try by left.
    destruct (match existing with Some _ => _ | None => _ end); reduce_M; try by left.
    destruct (Event.is_full event); reduce_M; try by left.
    unfold FileManager.load_json, FileManager.save_json.
    apply get_event_by_id_loop_find_index in Hget as [Hid Hk].
    destruct (Hk 0%nat) as (j & d & Hj & Hd).
    erewrite _save_event_found
      by (cbn [events_json]; rewrite add_attendee_id, Hid; exact Hj).
    right. exists (clock 0%nat), (clock 3%nat), eid, j, d, event.
    split; [done|]. split; [done|]. by left.
  - unfold RegistrationService.cancel_registration, try_except, bind.
    rewrite get_registration_run.
    destruct (RegistrationService.get_registration_loop _ _ _ _) as [[r|]|e];
      reduce_M; try by left.
    destruct (negb _); reduce_M; try by left.
    pose proof (_save_registration_events (Registration.cancel (clock 1%nat) reason r) st)
      as Hsave.
    destruct (RegistrationService._save_registration _ st) as [[b|e] st1];
      reduce_M; cbn [snd] in Hsave; [|by left].
    rewrite get_event_by_id_run.
    destruct (EventService.get_event_by_id_loop _ _ _) as [[event|]|e] eqn:Hget; reduce_M;
      try by left.
    apply get_event_by_id_loop_find_index in Hget as [Hid Hk].
    destruct (Hk 0%nat) as (j & d & Hj & Hd).
    erewrite _save_event_found by (rewrite remove_attendee_id, Hid; exact Hj).
    reduce_M. right. exists (clock 0%nat), (clock 2%nat), eid, j, d, event.
    rewrite <- Hsave. split; [done|]. split; [done|]. by right.
  - left. unfold RegistrationService.bulk_cancel_event_registrations, try_except, bind.
    rewrite get_event_registrations_run.
    destruct (RegistrationService.get_event_registrations_loop _ _ _) as [l|e];
      reduce_M; try done.
    pose proof (bulk_cancel_loop_events clock reason l 0%nat st) as Hloop.
    by destruct (RegistrationService.bulk_cancel_loop clock reason l 0%nat st) as [[n|e] st1].
  - left. unfold RegistrationService.mark_attendance, try_except, bind. unfold_M.
    destruct (find_index _ _ _ _) as [[[j x]|]|e]; reduce_M; try done.
    by destruct (Registration.from_dict _ _) as [r|e].
Qed.

Lemma step_capacity_ok fi st op :
  Forall capacity_ok (events_json st) ->
  Forall capacity_ok (events_json (step fi st op))
  /\ length (events_json (step fi st op)) = length (events_json st).
Proof.
  intros Hst.
  destruct (step_events fi st op) as [->|(now & now' & eid & j & d & e & Hj & Hd & Hstep)];
    [done|].
  apply find_index_Some in Hj as (_ & Hj & _). rewrite Nat.sub_0_r in Hj.
  assert (capacity_ok d) as (c & m & Hc & Hm & Hcm)
    by (rewrite Forall_forall in Hst; eapply Hst, list_elem_of_lookup_2, Hj).
  destruct (Event_from_dict_capacity _ _ _ _ _ Hd Hc Hm) as [Hce Hme].
  assert (0 <= Event.current_attendees e <= Event.max_capacity e) as Hb by lia.
  destruct Hstep as [-> | ->]; rewrite length_insert; (split; [|done]);
    apply Forall_insert; try done; apply capacity_ok_to_dict.
  - by apply add_attendee_bounds.
  - by apply remove_attendee_bounds.
Qed.

(** X17: the capacity invariant.  If every stored event record has
    [0 <= current_attendees <= max_capacity], it is still so after any
    sequence of [register_for_event], [cancel_registration],
    [bulk_cancel_event_registrations] and [mark_attendance] calls, whatever
    the registrations file holds; the events file keeps its length. *)
Theorem capacity_kept_along_runs
    (fromisoformat : string -> option datetime.t) (ops : list Op) (st : Store) :
  Forall capacity_ok (events_json st) ->
  Forall capacity_ok (events_json (run fromisoformat st ops))
  /\ length (events_json (run fromisoformat st ops)) = length (events_json st).
Proof.
  revert st. induction ops as [|op ops IH]; intros st Hst; [done|].
  change (run fromisoformat st (op :: ops))
    with (run fromisoformat (step fromisoformat st op) ops).
  destruct (step_capacity_ok fromisoformat st op Hst) as [Hstep Hlen].
  destruct (IH _ Hstep) as [Hrun Hlen'].
  split; [done|]. by rewrite Hlen', Hlen.
Qed.

Lemma capacity_kept_along_runs_witness :
  Forall capacity_ok
    (events_json (run sample_fromisoformat
                    (written [sample_event "2030-06-01T09:00:00" 1 0] [])
                    reregistration_ops))
  /\ length (events_json (run sample_fromisoformat
                            (written [sample_event "2030-06-01T09:00:00" 1 0] [])
                            reregistration_ops))
     = length (events_json (written [sample_event "2030-06-01T09:00:00" 1 0] [])).
Proof.
  apply (capacity_kept_along_runs sample_fromisoformat reregistration_ops
           (written [sample_event "2030-06-01T09:00:00" 1 0] [])).
  constructor; [|constructor].
  exists 0, 1. split; [reflexivity|]. split; [reflexivity|]. lia.
Defined.

Lemma keeps_ids_refl regs : keeps_ids regs regs.
Proof. intros i d ?. eauto. Qed.

Lemma keeps_ids_trans regs1 regs2 regs3 :
  keeps_ids regs1 regs2 -> keeps_ids regs2 regs3 -> keeps_ids regs1 regs3.
Proof.
  intros H12 H23 i d Hi. destruct (H12 i d Hi) as (d' & Hi' & Hd').
  destruct (H23 i d' Hi') as (d'' & Hi'' & Hd''). exists d''. split; [done|congruence].
Qed.

Lemma keeps_ids_app regs l : keeps_ids regs (regs ++ l).
Proof. intros i d Hi. exists d. split; [by apply lookup_app_l_Some|done]. Qed.

Lemma keeps_ids_insert regs j d d0 :
  regs !! j = Some d ->
  d0 !! "registration_id" = d !! "registration_id" ->
  keeps_ids regs (<[j := d0]> regs).
Proof.
  intros Hj Hd0 i x Hi. destruct (decide (j = i)) as [->|Hne].
  - exists d0. split; [apply list_lookup_insert_eq; by eapply lookup_lt_Some|congruence].
  - exists x. by rewrite list_lookup_insert_ne.
Qed.

Lemma Registration_from_dict_id now d r :
  Registration.from_dict now d = Ok r ->
  d !! "registration_id" = Some (JStr (Registration.registration_id r)).
Proof.
  unfold Registration.from_dict, getitem.
  destruct (d !! "registration_id") as [[| | |s|]|]; try discriminate.
  cbn [result_bind as_str]. unfold result_bind. intros H.
  repeat match type of H with
         | match ?x with _ => _ end = _ => destruct x; try discriminate
         end.
  by injection H as <-.
Qed.

Lemma _save_registration_keeps_ids r st :
  keeps_ids (registrations_json st)
    (registrations_json (snd (RegistrationService._save_registration r st))).
Proof.
  unfold RegistrationService._save_registration. unfold_M.
  destruct (find_index _ _ _ _) as [[[j x]|]|e] eqn:Hj; reduce_M; try apply keeps_ids_refl.
  apply find_index_Some in Hj as (_ & Hj & Hx). rewrite Nat.sub_0_r in Hj.
  apply (keeps_ids_insert _ _ x); [done|]. by rewrite Hx.
Qed.

Lemma bulk_cancel_loop_keeps_ids clock reason l :
  forall k st,
    keeps_ids (registrations_json st)
      (registrations_json (snd (RegistrationService.bulk_cancel_loop clock reason l k st))).
Proof.
  induction l as [|r l IH]; intros k st; [apply keeps_ids_refl|].
  cbn [RegistrationService.bulk_cancel_loop].
  destruct (Registration.is_active r); [|apply IH].
  unfold bind.
  pose proof (_save_registration_keeps_ids (Registration.cancel (clock (S k)) reason r) st)
    as Hsave.
  destruct (RegistrationService._save_registration _ st) as [[b|e] st1];
    cbn [snd] in *; [|done].
  eapply keeps_ids_trans; [exact Hsave|apply IH].
Qed.

Lemma step_keeps_ids fi st op :
  keeps_ids (registrations_json st) (registrations_json (step fi st op)).
Proof.
  destruct op as [clock token eid uid|clock eid uid reason|clock eid reason|clock rid attended];
    unfold step, call.
  - destruct (register_for_event_registrations fi clock token eid uid st) as [l ->].
    apply keeps_ids_app.
  - unfold RegistrationService.cancel_registration, try_except, bind.
    rewrite get_registration_run.
    destruct (RegistrationService.get_registration_loop _ _ _ _) as [[r|]|e];
      reduce_M; try apply keeps_ids_refl.
    destruct (negb _); reduce_M; try apply keeps_ids_refl.
    pose proof (_save_registration_keeps_ids (Registration.cancel (clock 1%nat) reason r) st)
      as Hsave.
    destruct (RegistrationService._save_registration _ st) as [[b|e] st1];
      reduce_M; cbn [snd] in Hsave; [|done].
    rewrite get_event_by_id_run.
    destruct (EventService.get_event_by_id_loop _ _ _) as [[event|]|e]; reduce_M; try done.
    match goal with
    | |- context [EventService._save_event ?e ?st] =>
        pose proof (_save_event_registrations e st) as Hevent;
        destruct (EventService._save_event e st) as [[b'|e'] st2]
    end; reduce_M; cbn [snd] in Hevent; by rewrite Hevent.
  - unfold RegistrationService.bulk_cancel_event_registrations, try_except, bind.
    rewrite get_event_registrations_run.
    destruct (RegistrationService.get_event_registrations_loop _ _ _) as [l|e];
      reduce_M; try apply keeps_ids_refl.
    pose proof (bulk_cancel_loop_keeps_ids clock reason l 0%nat st) as Hloop.
    by destruct (RegistrationService.bulk_cancel_loop clock reason l 0%nat st) as [[n|e] st1].
  - unfold RegistrationService.mark_attendance, try_except, bind. unfold_M.
    destruct (find_index _ _ _ _) as [[[j x]|]|e] eqn:Hj; reduce_M;
      try apply keeps_ids_refl.
    destruct (Registration.from_dict _ _) as [r|e] eqn:Hr; reduce_M;
      try apply keeps_ids_refl.
    apply find_index_Some in Hj as (_ & Hj & _). rewrite Nat.sub_0_r in Hj.
    apply (keeps_ids_insert _ _ x); [done|].
    rewrite (Registration_from_dict_id _ _ _ Hr). by destruct attended.
Qed.

Lemma register_for_event_registrations_typed fi clock token eid uid st :
  Forall registration_typed (registrations_json st) ->
  Forall registration_typed
    (registrations_json (snd (RegistrationService.register_for_event fi clock token eid uid st))).
Proof.
  intros Hst.
  unfold RegistrationService.register_for_event, try_except, bind.
  rewrite get_event_by_id_run.
  destruct (EventService.get_event_by_id_loop _ _ _) as [[event|]|e]; reduce_M; try done.
  destruct (negb _); reduce_M; try done.
  rewrite get_registration_run.
  destruct (RegistrationService.get_registration_loop _ _ _ _) as [existing|e];
    reduce_M; try done.
  destruct (match existing with Some _ => _ | None => _ end); reduce_M; try done.
  destruct (Event.is_full event); reduce_M; try done.
  unfold FileManager.load_json, FileManager.save_json.
  assert (Forall registration_typed
            (registrations_json st
               ++ [Registration.to_dict
                     (Registration.init (clock 1%nat) (clock 2%nat)
                        (RegistrationService._generate_registration_id token) eid uid)]))
    as Happ.
  { apply Forall_app. split; [done|].
    apply Forall_cons_2; [apply Registration_to_dict_typed|apply Forall_nil_2]. }
  match goal with
  | |- context [EventService._save_event ?e ?st] =>
      pose proof (_save_event_registrations e st) as Hsave;
      destruct (EventService._save_event e st) as [[b|e'] st']
  end; reduce_M; cbn [snd registrations_json] in Hsave; by rewrite Hsave.
Qed.

Lemma _save_registration_typed r st :
  Forall registration_typed (registrations_json st) ->
  Forall registration_typed
    (registrations_json (snd (RegistrationService._save_registration r st))).
Proof.
  intros Hst. unfold RegistrationService._save_registration. unfold_M.
  destruct (find_index _ _ _ _) as [[[j x]|]|e]; reduce_M; try done.
  apply Forall_insert; [done|apply Registration_to_dict_typed].
Qed.

Lemma bulk_cancel_loop_typed clock reason l :
  forall k st,
    Forall registration_typed (registrations_json st) ->
    Forall registration_typed
      (registrations_json (snd (RegistrationService.bulk_cancel_loop clock reason l k st))).
Proof.
  induction l as [|r l IH]; intros k st Hst; [done|].
  cbn [RegistrationService.bulk_cancel_loop].
  destruct (Registration.is_active r); [|by apply IH].
  unfold bind.
  pose proof (_save_registration_typed (Registration.cancel (clock (S k)) reason r) st Hst)
    as Hsave.
  destruct (RegistrationService._save_registration _ st) as [[b|e] st1];
    cbn [snd] in *; [|done].
  by apply IH.
Qed.

Lemma step_registrations_typed fi st op :
  Forall registration_typed (registrations_json st) ->
  Forall registration_typed (registrations_json (step fi st op)).
Proof.
  intros Hst.
  destruct op as [clock token eid uid|clock eid uid reason|clock eid reason|clock rid attended];
    unfold step, call.
  - by apply register_for_event_registrations_typed.
  - unfold RegistrationService.cancel_registration, try_except, bind.
    rewrite get_registration_run.
    destruct (RegistrationService.get_registration_loop _ _ _ _) as [[r|]|e];
      reduce_M; try done.
    destruct (negb _); reduce_M; try done.
    pose proof (_save_registration_typed (Registration.cancel (clock 1%nat) reason r) st Hst)
      as Hsave.
    destruct (RegistrationService._save_registration _ st) as [[b|e] st1];
      reduce_M; cbn [snd] in Hsave; [|done].
    rewrite get_event_by_id_run.
    destruct (EventService.get_event_by_id_loop _ _ _) as [[event|]|e]; reduce_M; try done.
    match goal with
    | |- context [EventService._save_event ?e ?st] =>
        pose proof (_save_event_registrations e st) as Hevent;
        destruct (EventService._save_event e st) as [[b'|e'] st2]
    end; reduce_M; cbn [snd] in Hevent; by rewrite Hevent.
  - unfold RegistrationService.bulk_cancel_event_registrations, try_except, bind.
    rewrite get_event_registrations_run.
    destruct (RegistrationService.get_event_registrations_loop _ _ _) as [l|e];
      reduce_M; try done.
    pose proof (bulk_cancel_loop_typed clock reason l 0%nat st Hst) as Hloop.
    by destruct (RegistrationService.bulk_cancel_loop clock reason l 0%nat st) as [[n|e] st1].
  - unfold RegistrationService.mark_attendance, try_except, bind. unfold_M.
    destruct (find_index _ _ _ _) as [[[j x]|]|e]; reduce_M; try done.
    destruct (Registration.from_dict _ _) as [r|e]; reduce_M; try done.
    apply Forall_insert; [done|apply Registration_to_dict_typed].
Qed.

(** Well-typed files stay well typed: every record a step writes is a
    [to_dict] image. *)
Lemma step_typed fi st op : typed st -> typed (step fi st op).
Proof.
  intros [Hev Hreg]. split; [|by apply step_registrations_typed].
  destruct (step_events fi st op) as [->|(now & now' & eid & j & d & e & _ & _ & [-> | ->])];
    [done| |]; (apply Forall_insert; [done|apply Event_to_dict_typed]).
Qed.

Lemma run_typed fi ops : forall st, typed st -> typed (run fi st ops).
Proof.
  induction ops as [|op ops IH]; intros st Hst; [done|].
  change (run fi st (op :: ops)) with (run fi (step fi st op) ops).
  by apply IH, step_typed.
Qed.

Lemma run_keeps_ids fi ops :
  forall st, keeps_ids (registrations_json st) (registrations_json (run fi st ops)).
Proof.
  induction ops as [|op ops IH]; intros st; [apply keeps_ids_refl|].
  change (run fi st (op :: ops)) with (run fi (step fi st op) ops).
  eapply keeps_ids_trans; [apply step_keeps_ids|apply IH].
Qed.

(** X18: registrations are never deleted or moved.  On files of
    well-typed records (each stored attribute of the JSON type the model
    class annotates; keys may be missing and statuses unknown), after any
    sequence of [register_for_event], [cancel_registration],
    [bulk_cancel_event_registrations] and [mark_attendance] calls every
    position of the registrations file that held a record still holds one,
    with the same [registration_id]; the file never gets shorter, and both
    files are still well typed. *)
Theorem registrations_kept_along_runs
    (fromisoformat : string -> option datetime.t) (ops : list Op) (st : Store) :
  typed st ->
  keeps_ids (registrations_json st) (registrations_json (run fromisoformat st ops))
  /\ (length (registrations_json st)
      <= length (registrations_json (run fromisoformat st ops)))%nat
  /\ typed (run fromisoformat st ops).
Proof.
  intros Hst. split; [apply run_keeps_ids|]. split; [|by apply run_typed].
  destruct (decide (length (registrations_json st)
                    <= length (registrations_json (run fromisoformat st ops)))%nat)
    as [|Hlt]; [done|].
  destruct (lookup_lt_is_Some_2 (registrations_json st)
              (length (registrations_json (run fromisoformat st ops)))) as [d Hd]; [lia|].
  destruct (run_keeps_ids fromisoformat ops st _ _ Hd) as (d' & Hd' & _).
  apply lookup_lt_Some in Hd'. lia.
Qed.

Lemma registrations_kept_along_runs_witness :
  keeps_ids
    (registrations_json (mkStore [sample_untitled_event]
                           (Registration.to_dict <$> sample_registrations)))
    (registrations_json
       (run sample_fromisoformat
          (mkStore [sample_untitled_event] (Registration.to_dict <$> sample_registrations))
          [Register sample_clock "0a0a0a0a0a0a" "event_a1" "user_s9";
           MarkAttendance sample_clock "reg_02" true;
           BulkCancel sample_clock "event_a1" "Event cancelled"]))
  /\ (length (registrations_json
                (mkStore [sample_untitled_event]
                   (Registration.to_dict <$> sample_registrations)))
      <= length (registrations_json
                   (run sample_fromisoformat
                      (mkStore [sample_untitled_event]
                         (Registration.to_dict <$> sample_registrations))
                      [Register sample_clock "0a0a0a0a0a0a" "event_a1" "user_s9";
                       MarkAttendance sample_clock "reg_02" true;
                       BulkCancel sample_clock "event_a1" "Event cancelled"])))%nat
  /\ typed
       (run sample_fromisoformat
          (mkStore [sample_untitled_event] (Registration.to_dict <$> sample_registrations))
          [Register sample_clock "0a0a0a0a0a0a" "event_a1" "user_s9";
           MarkAttendance sample_clock "reg_02" true;
           BulkCancel sample_clock "event_a1" "Event cancelled"]).
Proof.
  apply (registrations_kept_along_runs sample_fromisoformat
           [Register sample_clock "0a0a0a0a0a0a" "event_a1" "user_s9";
            MarkAttendance sample_clock "reg_02" true;
            BulkCancel sample_clock "event_a1" "Event cancelled"]
           (mkStore [sample_untitled_event] (Registration.to_dict <$> sample_registrations))).
  apply sample_untitled_store_typed.
Defined.

(** ** The registrations of a user, and the statistics *)

Lemma get_user_registrations_loop_written clock uid rs :
  Forall Registration_wf rs ->
  RegistrationService.get_user_registrations_loop clock uid (Registration.to_dict <$> rs)
  = Ok (filter (fun r => Registration.user_id r = uid) rs).
Proof.
  induction 1 as [|r rs Hr _ IH]; [done|].
  cbn [fmap list_fmap RegistrationService.get_user_registrations_loop] in *.
  fold (fmap (M:=list) Registration.to_dict rs).
  unfold getitem at 1. rewrite Registration_to_dict_user.
  cbn [result_bind]. rewrite eq_str_JStr, filter_cons.
  case_bool_decide.
  - rewrite decide_True by done. rewrite Registration_from_to_dict by done.
    cbn [result_bind]. by rewrite IH.
  - by rewrite decide_False.
Qed.

Lemma get_user_registered_events_loop_written clock inc es rs l :
  Forall Event_wf es ->
  RegistrationService.get_user_registered_events_loop clock inc l (written es rs)
  = (Ok (omap (with_event es)
           (filter (fun r => inc = true \/ Registration.is_active r = true) l)),
     written es rs).
Proof.
  intros Hes. induction l as [|r l IH]; [done|].
  cbn [RegistrationService.get_user_registered_events_loop]. rewrite filter_cons.
  destruct inc, (Registration.is_active r) eqn:Hact; cbn [negb andb].
  4:{ rewrite IH. rewrite decide_False; [done|]. intros [|]; congruence. }
  all: rewrite decide_True by auto.
  all: unfold bind, written at 1; rewrite get_event_by_id_written by done.
  all: fold (written es rs); rewrite IH; unfold ret; cbn [omap list_omap].
  all: unfold written; change (with_event es r)
         with (match list_find (fun e => Event.event_id e = Registration.event_id r) es with
               | Some (_, e) => Some (e, r)
               | None => None
               end).
  all: by destruct (list_find (fun e => Event.event_id e = Registration.event_id r) es)
         as [[j e]|].
Qed.

(** X19: [get_user_registered_events] on files as the application writes
    them lists, in file order, the user's registrations paired with their
    events: all of the user's registrations when [include_cancelled] is set,
    otherwise the active ones only; a registration whose event is not stored
    (any more) is left out without a word.  Nothing is written. *)
Theorem get_user_registered_events_spec
    (clock : nat -> datetime.t) (user_id : string) (include_cancelled : bool)
    (es : list Event.t) (rs : list Registration.t) :
  Forall Event_wf es ->
  Forall Registration_wf rs ->
  RegistrationService.get_user_registered_events clock user_id include_cancelled
    (written es rs)
  = (Ok (omap (with_event es)
           (filter (fun r => Registration.user_id r = user_id
                             /\ (include_cancelled = true
                                 \/ Registration.is_active r = true)) rs)),
     written es rs).
Proof.
  intros Hes Hrs. unfold RegistrationService.get_user_registered_events, bind.
  unfold RegistrationService.get_user_registrations. unfold_M.
  unfold written at 1. cbn [registrations_json].
  rewrite get_user_registrations_loop_written by done.
  fold (written es rs). rewrite get_user_registered_events_loop_written by done.
  rewrite list_filter_filter. do 3 f_equal.
  apply list_filter_iff. intros r. tauto.
Qed.

Lemma get_user_registered_events_spec_witness :
  RegistrationService.get_user_registered_events sample_clock "user_s2" false
    (written [sample_event "2030-06-01T09:00:00" 5 2] sample_registrations)
  = (Ok (omap (with_event [sample_event "2030-06-01T09:00:00" 5 2])
           (filter (fun r => Registration.user_id r = "user_s2"
                             /\ (false = true \/ Registration.is_active r = true))
              sample_registrations)),
     written [sample_event "2030-06-01T09:00:00" 5 2] sample_registrations).
Proof.
  apply (get_user_registered_events_spec sample_clock "user_s2" false
           [sample_event "2030-06-01T09:00:00" 5 2] sample_registrations).
  - repeat constructor.
  - repeat constructor.
Defined.

Lemma Registration_from_dicts_written clock rs :
  Forall Registration_wf rs ->
  RegistrationService.from_dicts clock (Registration.to_dict <$> rs) = Ok rs.
Proof.
  induction 1 as [|r rs Hr _ IH]; [done|].
  cbn [fmap list_fmap RegistrationService.from_dicts] in *.
  fold (fmap (M:=list) Registration.to_dict rs). rewrite Registration_from_to_dict by done.
  cbn [result_bind]. by rewrite IH.
Qed.

Lemma RegistrationStatus_value_inj s s' :
  RegistrationStatus.value s = RegistrationStatus.value s' -> s = s'.
Proof. by destruct s, s'. Qed.

Lemma count_status_cons s r rs :
  count_status s (r :: rs)
  = ((if RegistrationService.status_equals r s then 1 else 0) + count_status s rs)%nat.
Proof.
  unfold count_status. rewrite filter_cons.
  destruct (RegistrationService.status_equals r s).
  - by rewrite decide_True.
  - by rewrite decide_False.
Qed.

Lemma status_stats_loop_spec rs :
  Forall Registration_wf rs ->
  forall acc, exists m,
    RegistrationService.status_stats_loop rs acc = Ok m
    /\ (forall s,
          m !! RegistrationStatus.value s
          = match count_status s rs with
            | O => acc !! RegistrationStatus.value s
            | S n => Some (default 0%nat (acc !! RegistrationStatus.value s) + S n)%nat
            end)
    /\ (forall key, (forall s, key <> RegistrationStatus.value s) -> m !! key = acc !! key).
Proof.
  induction 1 as [|r rs Hr _ IH]; intros acc.
  - exists acc. by repeat split.
  - cbn [RegistrationService.status_stats_loop].
    destruct r as [rid eid uid [s0|v] reg upd notes]; [|destruct Hr].
    cbn [Registration.status RegistrationService.status_tag result_bind].
    destruct (IH (<[RegistrationStatus.value s0 :=
                     S (default 0%nat (acc !! RegistrationStatus.value s0))]> acc))
      as (m & -> & Hm & Hother).
    exists m. split; [done|]. split.
    + intros s. rewrite Hm, count_status_cons.
      unfold RegistrationService.status_equals. cbn [Registration.status].
      case_bool_decide as Heq.
      * subst s0. rewrite lookup_insert_eq. cbn [default].
        change (1 + count_status s rs)%nat with (S (count_status s rs)).
        destruct (count_status s rs); unfold id; f_equal; lia.
      * rewrite lookup_insert_ne by (by intros ?%RegistrationStatus_value_inj).
        done.
    + intros key Hkey. rewrite Hother by done. by rewrite lookup_insert_ne.
Qed.

Lemma event_stats_loop_lookup rs :
  forall acc eid,
    RegistrationService.event_stats_loop rs acc !! eid
    = match filter (fun r => Registration.event_id r = eid) rs with
      | [] => acc !! eid
      | l => Some (foldl (fun st r => RegistrationService.count_registration r st)
                     (default (RegistrationService.mkEventStat 0 0 0 0) (acc !! eid)) l)
      end.
Proof.
  induction rs as [|r rs IH]; intros acc eid; [done|].
  cbn [RegistrationService.event_stats_loop]. rewrite IH, filter_cons.
  case_decide as Heq.
  - subst eid. rewrite lookup_insert_eq. cbn [default].
    by destruct (filter _ rs).
  - by rewrite lookup_insert_ne.
Qed.

Lemma count_registration_foldl l :
  forall st,
    foldl (fun st r => RegistrationService.count_registration r st) st l
    = {| RegistrationService.total := RegistrationService.total st + length l;
         RegistrationService.confirmed :=
           RegistrationService.confirmed st + count_status RegistrationStatus.CONFIRMED l;
         RegistrationService.cancelled :=
           RegistrationService.cancelled st + count_status RegistrationStatus.CANCELLED l;
         RegistrationService.attended :=
           RegistrationService.attended st + count_status RegistrationStatus.ATTENDED l |}%nat.
Proof.
  induction l as [|r l IH]; intros st.
  - destruct st. cbn. f_equal; unfold count_status; cbn; lia.
  - cbn [foldl]. rewrite IH, !count_status_cons.
    unfold RegistrationService.count_registration, RegistrationService.status_equals.
    destruct (Registration.status r) as [[]|];
      repeat (case_bool_decide; try discriminate); cbn; f_equal; lia.
Qed.

(** X20: [get_registration_statistics] on a registrations file as the
    application writes it never fails and counts what is stored:
    [total_registrations] is the number of records; [status_statistics]
    has, for each status that occurs, the number of registrations with it,
    and no entry for a status that does not occur nor for any other key;
    [event_statistics] has an entry exactly for the events with at least one
    registration, with their number and how many of them are Confirmed,
    Cancelled and Attended (Pending and NoShow only show in the total). *)
Theorem get_registration_statistics_spec
    (clock : nat -> datetime.t) (es : list Event.t) (rs : list Registration.t) :
  Forall Registration_wf rs ->
  exists stats,
    RegistrationService.get_registration_statistics clock (written es rs)
      = (Ok stats, written es rs)
    /\ RegistrationService.total_registrations stats = length rs
    /\ (forall s,
          RegistrationService.status_statistics stats !! RegistrationStatus.value s
          = match count_status s rs with
            | O => None
            | n => Some n
            end)
    /\ (forall key, (forall s, key <> RegistrationStatus.value s) ->
          RegistrationService.status_statistics stats !! key = None)
    /\ (forall event_id,
          RegistrationService.event_statistics stats !! event_id
          = match filter (fun r => Registration.event_id r = event_id) rs with
            | [] => None
            | l => Some {| RegistrationService.total := length l;
                           RegistrationService.confirmed :=
                             count_status RegistrationStatus.CONFIRMED l;
                           RegistrationService.cancelled :=
                             count_status RegistrationStatus.CANCELLED l;
                           RegistrationService.attended :=
                             count_status RegistrationStatus.ATTENDED l |}
            end).
Proof.
  intros Hrs.
  unfold RegistrationService.get_registration_statistics,
    RegistrationService.get_all_registrations.
  unfold_M. unfold written at 1. cbn [registrations_json].
  rewrite Registration_from_dicts_written by done.
  destruct (status_stats_loop_spec rs Hrs ∅) as (m & -> & Hm & Hother).
  eexists. split; [reflexivity|]. cbn.
  split; [done|]. split; [|split].
  - intros s. rewrite Hm, lookup_empty. by destruct (count_status s rs).
  - intros key Hkey. by rewrite Hother, lookup_empty.
  - intros eid. rewrite event_stats_loop_lookup, lookup_empty. cbn [default].
    destruct (filter _ rs) as [|r l] eqn:E; [done|].
    by rewrite count_registration_foldl.
Qed.

Lemma get_registration_statistics_spec_witness :
  exists stats,
    RegistrationService.get_registration_statistics sample_clock
      (written [sample_event "2030-06-01T09:00:00" 5 2] sample_registrations)
      = (Ok stats, written [sample_event "2030-06-01T09:00:00" 5 2] sample_registrations)
    /\ RegistrationService.total_registrations stats = length sample_registrations
    /\ (forall s,
          RegistrationService.status_statistics stats !! RegistrationStatus.value s
          = match count_status s sample_registrations with
            | O => None
            | n => Some n
            end)
    /\ (forall key, (forall s, key <> RegistrationStatus.value s) ->
          RegistrationService.status_statistics stats !! key = None)
    /\ (forall event_id,
          RegistrationService.event_statistics stats !! event_id
          = match filter (fun r => Registration.event_id r = event_id) sample_registrations with
            | [] => None
            | l => Some {| RegistrationService.total := length l;
                           RegistrationService.confirmed :=
                             count_status RegistrationStatus.CONFIRMED l;
                           RegistrationService.cancelled :=
                             count_status RegistrationStatus.CANCELLED l;
                           RegistrationService.attended :=
                             count_status RegistrationStatus.ATTENDED l |}
            end).
Proof.
  apply (get_registration_statistics_spec sample_clock
           [sample_event "2030-06-01T09:00:00" 5 2] sample_registrations).
  repeat constructor.
Defined.

(** ** Accounts *)

Section get_user_by_written.

Context (key : string) (proj : User.t -> string).
Hypothesis to_dict_key : forall u, User.to_dict u !! key = Some (JStr (proj u)).

Lemma get_user_by_written clock value us :
  AuthService.get_user_by clock key value (User.to_dict <$> us)
  = Ok (snd <$> list_find (fun u => proj u = value) us).
Proof.
  induction us as [|u us IH]; [done|].
  cbn [fmap list_fmap AuthService.get_user_by] in *.
  fold (fmap (M:=list) User.to_dict us).
  unfold getitem at 1. rewrite to_dict_key. cbn [result_bind]. rewrite eq_str_JStr.
  change (list_find (fun u => proj u = value) (u :: us))
    with (if decide (proj u = value) then Some (0%nat, u)
          else prod_map S id <$> list_find (fun u => proj u = value) us).
  case_bool_decide.
  - rewrite decide_True by done. by rewrite User_from_to_dict.
  - rewrite decide_False by done. rewrite IH. by destruct (list_find _ us) as [[j x]|].
Qed.

End get_user_by_written.

Lemma get_user_by_username_written clock name us cu :
  AuthService.get_user_by_username clock name (AuthService.mkState (User.to_dict <$> us) cu)
  = Ok (snd <$> list_find (fun u => User.username u = name) us).
Proof.
  unfold AuthService.get_user_by_username. cbn [AuthService.users_json].
  apply (get_user_by_written "username" User.username). intros u. reflexivity.
Qed.

Lemma get_user_by_email_written clock email us cu :
  AuthService.get_user_by_email clock email (AuthService.mkState (User.to_dict <$> us) cu)
  = Ok (snd <$> list_find (fun u => User.email u = email) us).
Proof.
  unfold AuthService.get_user_by_email. cbn [AuthService.users_json].
  apply (get_user_by_written "email" User.email). intros u. reflexivity.
Qed.

Lemma get_user_by_id_written clock uid us cu :
  AuthService.get_user_by_id clock uid (AuthService.mkState (User.to_dict <$> us) cu)
  = Ok (snd <$> list_find (fun u => User.user_id u = uid) us).
Proof.
  unfold AuthService.get_user_by_id. cbn [AuthService.users_json].
  apply (get_user_by_written "user_id" User.user_id). intros u. reflexivity.
Qed.

Lemma _update_user_written u us cu :
  AuthService._update_user u (AuthService.mkState (User.to_dict <$> us) cu)
  = Ok (AuthService.mkState
          (User.to_dict <$>
             match list_find (fun x => User.user_id x = User.user_id u) us with
             | Some (j, _) => <[j := u]> us
             | None => us
             end) cu).
Proof.
  unfold AuthService._update_user. cbn [AuthService.users_json AuthService.current_user].
  rewrite (find_index_fmap User.to_dict "user_id" User.user_id) by done.
  destruct (list_find _ us) as [[j x]|]; cbn; [|done].
  by rewrite list_fmap_insert.
Qed.

Lemma list_find_None_not_elem_of {A} (f : A -> string) (v : string) (l : list A) :
  list_find (fun a => f a = v) l = None -> v ∉ f <$> l.
Proof.
  intros Hnone Hin. apply list_find_None in Hnone.
  apply list_elem_of_fmap in Hin as (x & -> & Hx).
  rewrite Forall_forall in Hnone. by apply (Hnone x Hx).
Qed.

(** X21: [register_user] on a users file as the application writes it
    succeeds exactly when neither the name nor the address is taken; a
    success appends one active user with the given name, address and role
    and the hash of the password; a refusal writes nothing; nobody is logged
    in or out by it.  User names that were pairwise distinct before are so
    afterwards, and so are the addresses. *)
Theorem register_user_keeps_names_distinct
    (sha256_hexdigest : string -> string) (clock : nat -> datetime.t)
    (token username email password : string) (role : UserRole.t) (full_name : string)
    (us : list User.t) (cu : option User.t) :
  exists ans us',
    AuthService.register_user sha256_hexdigest clock token username email password
      role full_name (AuthService.mkState (User.to_dict <$> us) cu)
    = (ans, AuthService.mkState (User.to_dict <$> us') cu)
    /\ (AuthService.success ans = true
        <-> (username ∉ User.username <$> us) /\ (email ∉ User.email <$> us))
    /\ (AuthService.success ans = false -> us' = us)
    /\ (AuthService.success ans = true ->
        exists u,
          AuthService.user ans = Some u
          /\ us' = us ++ [u]
          /\ User.username u = username
          /\ User.email u = email
          /\ User.role u = role
          /\ User.password u = sha256_hexdigest password
          /\ User.is_active u = true)
    /\ (NoDup (User.username <$> us) -> NoDup (User.username <$> us'))
    /\ (NoDup (User.email <$> us) -> NoDup (User.email <$> us')).
Proof.
  unfold AuthService.register_user.
  rewrite get_user_by_username_written.
  destruct (list_find (fun u => User.username u = username) us) as [[i x]|] eqn:Hname;
    cbn [fmap option_fmap option_map].
  { exists (AuthService.refused "Tên đăng nhập đã tồn tại"), us.
    cbn [AuthService.success AuthService.refused AuthService.user].
    split; [done|]. split; [|by repeat split].
    split; [done|]. intros [Hn _]. apply list_find_Some in Hname as (Hi & Hx & _).
    destruct Hn. rewrite <- Hx. by eapply list_elem_of_fmap_2, list_elem_of_lookup_2. }
  rewrite get_user_by_email_written.
  destruct (list_find (fun u => User.email u = email) us) as [[i x]|] eqn:Hemail;
    cbn [fmap option_fmap option_map].
  { exists (AuthService.refused "Email đã được sử dụng"), us.
    cbn [AuthService.success AuthService.refused AuthService.user].
    split; [done|]. split; [|by repeat split].
    split; [done|]. intros [_ Hn]. apply list_find_Some in Hemail as (Hi & Hx & _).
    destruct Hn. rewrite <- Hx. by eapply list_elem_of_fmap_2, list_elem_of_lookup_2. }
  apply list_find_None_not_elem_of in Hname, Hemail.
  eexists _, (us ++ [_]). cbn [AuthService.users_json AuthService.current_user].
  split; [by rewrite fmap_app|].
  cbn [AuthService.success AuthService.user User.init User.username User.email User.role
       User.password User.is_active fmap list_fmap].
  split; [done|]. split; [done|]. split; [intros _; eexists; by repeat split|].
  split.
  - intros Hnames. rewrite fmap_app. apply NoDup_app. split; [done|].
    split; [|apply NoDup_singleton].
    intros y Hy ->%list_elem_of_singleton. done.
  - intros Hemails. rewrite fmap_app. apply NoDup_app. split; [done|].
    split; [|apply NoDup_singleton].
    intros y Hy ->%list_elem_of_singleton. done.
Qed.

Lemma register_user_keeps_names_distinct_witness :
  exists ans us',
    AuthService.register_user sample_sha256 sample_clock "0a1b2c3d" "student2"
      "student2@campus.edu" "pass1234" UserRole.STUDENT "Student Two"
      (AuthService.mkState (User.to_dict <$> [sample_admin; sample_student]) None)
    = (ans, AuthService.mkState (User.to_dict <$> us') None)
    /\ (AuthService.success ans = true
        <-> ("student2" ∉ User.username <$> [sample_admin; sample_student])
            /\ ("student2@campus.edu" ∉ User.email <$> [sample_admin; sample_student]))
    /\ (AuthService.success ans = false -> us' = [sample_admin; sample_student])
    /\ (AuthService.success ans = true ->
        exists u,
          AuthService.user ans = Some u
          /\ us' = [sample_admin; sample_student] ++ [u]
          /\ User.username u = "student2"
          /\ User.email u = "student2@campus.edu"
          /\ User.role u = UserRole.STUDENT
          /\ User.password u = sample_sha256 "pass1234"
          /\ User.is_active u = true)
    /\ (NoDup (User.username <$> [sample_admin; sample_student])
        -> NoDup (User.username <$> us'))
    /\ (NoDup (User.email <$> [sample_admin; sample_student])
        -> NoDup (User.email <$> us')).
Proof.
  apply (register_user_keeps_names_distinct sample_sha256 sample_clock "0a1b2c3d"
           "student2" "student2@campus.edu" "pass1234" UserRole.STUDENT "Student Two"
           [sample_admin; sample_student] None).
Defined.

(** The whole decision of [login], on a users file as the application
    writes it. *)
Lemma login_written sha clock name pw us cu :
  AuthService.login sha clock name pw (AuthService.mkState (User.to_dict <$> us) cu)
  = match list_find (fun u => User.username u = name) us with
    | None =>
        (AuthService.refused "Tên đăng nhập không tồn tại",
         AuthService.mkState (User.to_dict <$> us) cu)
    | Some (_, u) =>
        if negb (User.is_active u)
        then (AuthService.refused "Tài khoản đã bị khóa",
              AuthService.mkState (User.to_dict <$> us) cu)
        else if negb (bool_decide (User.password u = sha pw))
        then (AuthService.refused "Mật khẩu không đúng",
              AuthService.mkState (User.to_dict <$> us) cu)
        else
          let u' := User.update_last_login (clock 1%nat) u in
          ({| AuthService.success := true;
              AuthService.message := "Đăng nhập thành công";
              AuthService.user := Some u' |},
           AuthService.mkState
             (User.to_dict <$>
                match list_find (fun x => User.user_id x = User.user_id u) us with
                | Some (j, _) => <[j := u']> us
                | None => us
                end) (Some u'))
    end.
Proof.
  unfold AuthService.login. rewrite get_user_by_username_written.
  destruct (list_find _ us) as [[i u]|]; cbn [fmap option_fmap option_map snd]; [|done].
  destruct (User.is_active u); cbn [negb]; [|done].
  unfold AuthService._hash_password.
  destruct (bool_decide (User.password u = sha pw)); cbn [negb]; [|done].
  by rewrite _update_user_written.
Qed.


Lemma register_user_fresh sha clock token name email pw role fn us cu :
  name ∉ User.username <$> us ->
  email ∉ User.email <$> us ->
  AuthService.register_user sha clock token name email pw role fn
    (AuthService.mkState (User.to_dict <$> us) cu)
  = ({| AuthService.success := true;
        AuthService.message := "Đăng ký thành công";
        AuthService.user :=
          Some (User.init (clock 1%nat) (AuthService._generate_user_id token) name email
                  (sha pw) role fn) |},
     AuthService.mkState
       (User.to_dict <$>
          us ++ [User.init (clock 1%nat) (AuthService._generate_user_id token) name email
                   (sha pw) role fn]) cu).
Proof.
  intros Hname%list_find_not_elem_of_fmap Hemail%list_find_not_elem_of_fmap.
  unfold AuthService.register_user.
  rewrite get_user_by_username_written, Hname, get_user_by_email_written, Hemail.
  cbn [fmap option_fmap option_map AuthService.users_json AuthService.current_user].
  by rewrite fmap_app.
Qed.

Lemma list_find_insert_NoDup {A} (f : A -> string) (l : list A) i x y :
  NoDup (f <$> l) ->
  l !! i = Some x ->
  f y = f x ->
  list_find (fun a => f a = f x) (<[i := y]> l) = Some (i, y).
Proof.
  intros Hnd Hi Hy. apply list_find_Some.
  split; [apply list_lookup_insert_eq; by eapply lookup_lt_Some|]. split; [done|].
  intros j z Hj Hji Hz. rewrite list_lookup_insert_ne in Hj by lia.
  assert (i = j); [|lia].
  apply (NoDup_lookup (f <$> l) i j (f x)); [done| |].
  - by rewrite list_lookup_fmap, Hi.
  - by rewrite list_lookup_fmap, Hj, <- Hz.
Qed.

(** X23: a user who has just registered can log in.  After a
    [register_user] with a name and an address that were free (users file
    as the application writes it), [login] with the same name and password
    succeeds and makes the new user the current one; with a password whose
    hash differs it is refused as a wrong password and changes nothing. *)
Theorem register_then_login
    (sha256_hexdigest : string -> string) (clock clock' : nat -> datetime.t)
    (token username email password : string) (role : UserRole.t) (full_name : string)
    (us : list User.t) (cu : option User.t) :
  username ∉ User.username <$> us ->
  email ∉ User.email <$> us ->
  let u :=
    User.init (clock 1%nat) (AuthService._generate_user_id token) username email
      (sha256_hexdigest password) role full_name in
  let st1 :=
    snd (AuthService.register_user sha256_hexdigest clock token username email password
           role full_name (AuthService.mkState (User.to_dict <$> us) cu)) in
  fst (AuthService.login sha256_hexdigest clock' username password st1)
  = {| AuthService.success := true;
       AuthService.message := "Đăng nhập thành công";
       AuthService.user := Some (User.update_last_login (clock' 1%nat) u) |}
  /\ AuthService.current_user
       (snd (AuthService.login sha256_hexdigest clock' username password st1))
     = Some (User.update_last_login (clock' 1%nat) u)
  /\ forall other,
       sha256_hexdigest other <> sha256_hexdigest password ->
       AuthService.login sha256_hexdigest clock' username other st1
       = (AuthService.refused "Mật khẩu không đúng", st1).
Proof.
  intros Hname Hemail u st1. subst st1.
  rewrite register_user_fresh by done. cbn [snd]. fold u.
  assert (list_find (fun x => User.username x = username) (us ++ [u])
          = Some (length us, u)) as Hfind.
  { rewrite (list_find_app_r _ _ _ (list_find_not_elem_of_fmap _ _ _ Hname)).
    change (list_find _ [u])
      with (if decide (User.username u = username) then Some (0%nat, u) else None).
    by rewrite decide_True. }
  rewrite !login_written, Hfind.
  change (User.is_active u) with true. change (User.password u) with (sha256_hexdigest password).
  cbn [negb]. rewrite bool_decide_eq_true_2 by done. cbn [negb fst snd].
  split; [done|]. split; [done|].
  intros other Hother. rewrite login_written, Hfind.
  change (User.is_active u) with true. change (User.password u) with (sha256_hexdigest password).
  cbn [negb]. by rewrite bool_decide_eq_false_2.
Qed.

Lemma register_then_login_witness :
  let u :=
    User.init (sample_clock 1) (AuthService._generate_user_id "0a1b2c3d") "student2"
      "student2@campus.edu" (sample_sha256 "pass1234") UserRole.STUDENT "Student Two" in
  let st1 :=
    snd (AuthService.register_user sample_sha256 sample_clock "0a1b2c3d" "student2"
           "student2@campus.edu" "pass1234" UserRole.STUDENT "Student Two"
           (AuthService.mkState (User.to_dict <$> [sample_admin; sample_student]) None)) in
  fst (AuthService.login sample_sha256 sample_clock "student2" "pass1234" st1)
  = {| AuthService.success := true;
       AuthService.message := "Đăng nhập thành công";
       AuthService.user := Some (User.update_last_login (sample_clock 1) u) |}
  /\ AuthService.current_user
       (snd (AuthService.login sample_sha256 sample_clock "student2" "pass1234" st1))
     = Some (User.update_last_login (sample_clock 1) u)
  /\ forall other,
       sample_sha256 other <> sample_sha256 "pass1234" ->
       AuthService.login sample_sha256 sample_clock "student2" other st1
       = (AuthService.refused "Mật khẩu không đúng", st1).
Proof.
  apply (register_then_login sample_sha256 sample_clock sample_clock "0a1b2c3d" "student2"
           "student2@campus.edu" "pass1234" UserRole.STUDENT "Student Two"
           [sample_admin; sample_student] None).
  - apply (bool_decide_unpack
             ("student2" ∉ User.username <$> [sample_admin; sample_student])).
    vm_compute. exact I.
  - apply (bool_decide_unpack
             ("student2@campus.edu" ∉ User.email <$> [sample_admin; sample_student])).
    vm_compute. exact I.
Defined.

(** X24: after [change_password] the new password opens the account and
    the old one no longer does.  For a stored, active user whose old
    password is right (user names distinct, file as the application writes
    it), [change_password] succeeds and rewrites that user's record only;
    [login] with the new password then succeeds, and with the old password
    it is refused whenever the two hashes differ. *)
Theorem change_password_then_login
    (sha256_hexdigest : string -> string) (clock clock' : nat -> datetime.t)
    (user_id old_password new_password : string)
    (us : list User.t) (cu : option User.t) (i : nat) (u : User.t) :
  NoDup (User.username <$> us) ->
  list_find (fun x => User.user_id x = user_id) us = Some (i, u) ->
  User.password u = sha256_hexdigest old_password ->
  User.is_active u = true ->
  let st1 :=
    AuthService.mkState
      (User.to_dict <$> <[i := User.with_password (sha256_hexdigest new_password) u]> us)
      cu in
  AuthService.change_password sha256_hexdigest clock user_id old_password new_password
    (AuthService.mkState (User.to_dict <$> us) cu)
  = ({| AuthService.success := true;
        AuthService.message := "Đổi mật khẩu thành công";
        AuthService.user := None |}, st1)
  /\ AuthService.success
       (fst (AuthService.login sha256_hexdigest clock' (User.username u) new_password st1))
     = true
  /\ (sha256_hexdigest old_password <> sha256_hexdigest new_password ->
      AuthService.login sha256_hexdigest clock' (User.username u) old_password st1
      = (AuthService.refused "Mật khẩu không đúng", st1)).
Proof.
  intros Hnd Hfind Hpw Hact st1. subst st1.
  pose proof Hfind as (Hi & Hid & _)%list_find_Some.
  set (u' := User.with_password (sha256_hexdigest new_password) u).
  assert (list_find (fun x => User.username x = User.username u) (<[i := u']> us)
          = Some (i, u')) as Hname
    by (by apply list_find_insert_NoDup).
  split; [|split].
  - unfold AuthService.change_password. rewrite get_user_by_id_written, Hfind.
    cbn [fmap option_fmap option_map snd]. unfold AuthService._hash_password.
    rewrite bool_decide_eq_true_2 by done. cbn [negb]. fold u'.
    rewrite _update_user_written.
    change (User.user_id u') with (User.user_id u). by rewrite Hid, Hfind.
  - rewrite login_written, Hname.
    change (User.is_active u') with (User.is_active u). rewrite Hact.
    change (User.password u') with (sha256_hexdigest new_password).
    cbn [negb]. by rewrite bool_decide_eq_true_2.
  - intros Hne. rewrite login_written, Hname.
    change (User.is_active u') with (User.is_active u). rewrite Hact.
    change (User.password u') with (sha256_hexdigest new_password).
    cbn [negb]. by rewrite bool_decide_eq_false_2.
Qed.

Lemma change_password_then_login_witness :
  let st1 :=
    AuthService.mkState
      (User.to_dict <$>
         <[1%nat := User.with_password (sample_sha256 "n3w-secret") sample_student]>
           [sample_admin; sample_student])
      None in
  AuthService.change_password sample_sha256 sample_clock "user_s1" "student123" "n3w-secret"
    (AuthService.mkState (User.to_dict <$> [sample_admin; sample_student]) None)
  = ({| AuthService.success := true;
        AuthService.message := "Đổi mật khẩu thành công";
        AuthService.user := None |}, st1)
  /\ AuthService.success
       (fst (AuthService.login sample_sha256 sample_clock (User.username sample_student)
               "n3w-secret" st1))
     = true
  /\ (sample_sha256 "student123" <> sample_sha256 "n3w-secret" ->
      AuthService.login sample_sha256 sample_clock (User.username sample_student)
        "student123" st1
      = (AuthService.refused "Mật khẩu không đúng", st1)).
Proof.
  apply (change_password_then_login sample_sha256 sample_clock sample_clock
           "user_s1" "student123" "n3w-secret" [sample_admin; sample_student] None
           1 sample_student).
  - apply (bool_decide_unpack (NoDup (User.username <$> [sample_admin; sample_student]))).
    vm_compute. exact I.
  - reflexivity.
  - reflexivity.
  - reflexivity.
Defined.

(** ** The manager's guards *)

Lemma bulk_cancel_event_registrations_events clock eid reason st :
  events_json (snd (RegistrationService.bulk_cancel_event_registrations clock eid reason st))
  = events_json st.
Proof.
  unfold RegistrationService.bulk_cancel_event_registrations, try_except, bind.
  rewrite get_event_registrations_run.
  destruct (RegistrationService.get_event_registrations_loop _ _ _) as [l|e];
    reduce_M; try done.
  pose proof (bulk_cancel_loop_events clock reason l 0%nat st) as Hloop.
  by destruct (RegistrationService.bulk_cancel_loop clock reason l 0%nat st) as [[n|e] st1].
Qed.

(** X25: the manager's [delete_event] does nothing for the wrong caller.
    Whatever the files hold, if the call succeeded or changed a file, then
    somebody was logged in, the event was stored, and the caller was an
    Admin or the Organizer whose id is the event's [organizer_id]. *)
Theorem manager_delete_event_guard
    (clock : nat -> datetime.t) (current_user : option User.t) (event_id : string)
    (st st' : Store) (r : result Result) :
  CampusEventManager.delete_event clock current_user event_id st = (r, st') ->
  st' <> st \/ (exists res, r = Ok res /\ success res = true) ->
  exists u e,
    current_user = Some u
    /\ fst (EventService.get_event_by_id (clock 0%nat) event_id st) = Ok (Some e)
    /\ (User.role u = UserRole.ADMIN
        \/ (User.role u = UserRole.ORGANIZER /\ Event.organizer_id e = User.user_id u)).
Proof.
  unfold CampusEventManager.delete_event.
  destruct current_user as [u|].
  2:{ unfold ret. intros [= <- <-] [?|(res & [= <-] & ?)]; done. }
  unfold bind. rewrite get_event_by_id_run.
  destruct (EventService.get_event_by_id_loop _ _ _) as [[e|]|err] eqn:Hget; cbn [fst].
  2:{ unfold ret. intros [= <- <-] [?|(res & [= <-] & ?)]; done. }
  2:{ intros [= <- <-] [?|(res & ? & ?)]; done. }
  unfold CampusEventManager.may_manage.
  case_bool_decide as Hadmin; cbn [orb].
  { intros _ _. exists u, e. by eauto. }
  case_bool_decide as Horg; cbn [andb].
  2:{ unfold ret. intros [= <- <-] [?|(res & [= <-] & ?)]; done. }
  case_bool_decide as Hown.
  2:{ unfold ret. intros [= <- <-] [?|(res & [= <-] & ?)]; done. }
  intros _ _. exists u, e. by eauto.
Qed.

Lemma manager_delete_event_guard_witness :
  exists u e,
    Some sample_admin = Some u
    /\ fst (EventService.get_event_by_id (sample_clock 0) "event_a1"
              (written [sample_event "2030-06-01T09:00:00" 5 2] sample_registrations))
       = Ok (Some e)
    /\ (User.role u = UserRole.ADMIN
        \/ (User.role u = UserRole.ORGANIZER /\ Event.organizer_id e = User.user_id u)).
Proof.
  apply (manager_delete_event_guard sample_clock (Some sample_admin) "event_a1"
           (written [sample_event "2030-06-01T09:00:00" 5 2] sample_registrations)
           (snd (CampusEventManager.delete_event sample_clock (Some sample_admin) "event_a1"
                   (written [sample_event "2030-06-01T09:00:00" 5 2] sample_registrations)))
           (fst (CampusEventManager.delete_event sample_clock (Some sample_admin) "event_a1"
                   (written [sample_event "2030-06-01T09:00:00" 5 2] sample_registrations)))).
  - by destruct (CampusEventManager.delete_event _ _ _ _).
  - right. eexists. split; [vm_compute; reflexivity|reflexivity].
Defined.



(** X27: who gets to see the registrations of an event.  The manager's
    [get_event_registrations] never writes; whatever the files hold, it
    returns a registration only to an Admin or to the Organizer whose id is
    the event's [organizer_id], everybody else gets the empty list; and an
    Admin gets, from a file as the application writes it, all registrations
    of the event in file order. *)
Theorem manager_get_event_registrations_access
    (clock : nat -> datetime.t) (event_id : string) :
  (forall current_user st r st',
     CampusEventManager.get_event_registrations clock current_user event_id st = (r, st') ->
     st' = st
     /\ forall l, r = Ok l -> l <> [] ->
          exists u,
            current_user = Some u
            /\ (User.role u = UserRole.ADMIN
                \/ (User.role u = UserRole.ORGANIZER
                    /\ exists e,
                         fst (EventService.get_event_by_id (clock 0%nat) event_id st)
                           = Ok (Some e)
                         /\ Event.organizer_id e = User.user_id u)))
  /\ (forall u es rs,
        User.role u = UserRole.ADMIN ->
        Forall Registration_wf rs ->
        CampusEventManager.get_event_registrations clock (Some u) event_id (written es rs)
        = (Ok (filter (fun r => Registration.event_id r = event_id) rs), written es rs)).
Proof.
  split.
  - intros cu st r st'. unfold CampusEventManager.get_event_registrations.
    assert (forall (err : exn) (P : Prop),
              (Raise err, st) = (r, st') \/ (Ok [], st) = (r, st') ->
              st' = st /\ forall l, r = Ok l -> l <> [] -> P) as Hnothing.
    { intros err P [[= <- <-]|[= <- <-]]; (split; [done|]); intros l [= <-] Hne; done. }
    destruct cu as [u|]; [|intros H; apply (Hnothing (KeyError "")); by right].
    case_bool_decide as Hadmin.
    { rewrite get_event_registrations_run. intros [= <- <-]. split; [done|]. by eauto. }
    case_bool_decide as Horg; [|intros H; apply (Hnothing (KeyError "")); by right].
    unfold bind. rewrite get_event_by_id_run.
    destruct (EventService.get_event_by_id_loop _ _ _) as [[e|]|err] eqn:Hget; cbn [fst];
      [|intros H; apply (Hnothing (KeyError "")); by right
       |intros H; apply (Hnothing err); by left].
    case_bool_decide as Hown; [|intros H; apply (Hnothing (KeyError "")); by right].
    rewrite get_event_registrations_run. intros [= <- <-]. split; [done|].
    intros l _ _. exists u. split; [done|]. right. split; [done|]. by exists e.
  - intros u es rs Hadmin Hrs. unfold CampusEventManager.get_event_registrations.
    rewrite bool_decide_eq_true_2 by done.
    rewrite get_event_registrations_run. unfold written at 1. cbn [registrations_json].
    by rewrite get_event_registrations_loop_written.
Qed.

(** ** Marking attendance *)



(** ** The statuses that are not active *)

(** X29: what is not active stays.  On files of well-typed records,
    along every sequence of [register_for_event], [cancel_registration],
    [bulk_cancel_event_registrations] and [mark_attendance] calls, a stored
    record whose status is Cancelled, Attended or NoShow keeps a status that
    is one of the three (it is never Pending or Confirmed again); and on a
    registrations file as the application writes it, with distinct
    registration ids, [register_for_event], [cancel_registration] and
    [bulk_cancel_event_registrations] leave every registration that is not
    active exactly as it is. *)
Theorem terminal_registrations_kept :
  (forall fromisoformat ops st i d,
     typed st ->
     registrations_json st !! i = Some d ->
     terminal_dict d ->
     exists d', registrations_json (run fromisoformat st ops) !! i = Some d'
                /\ terminal_dict d')
  /\ (forall fromisoformat op evs rs i r,
        marks op = false ->
        Forall Registration_wf rs ->
        NoDup (Registration.registration_id <$> rs) ->
        rs !! i = Some r ->
        Registration.is_active r = false ->
        registrations_json (step fromisoformat (mkStore evs (Registration.to_dict <$> rs)) op)
          !! i
        = Some (Registration.to_dict r)).
Proof.
  split.
  - intros fromisoformat ops st i d _ Hi Hd. by apply (run_absorbs fromisoformat ops st i d).
  - apply inactive_untouched.
Qed.

Lemma terminal_registrations_kept_witness :
  (exists d',
     registrations_json
       (run sample_fromisoformat
          (written [sample_event "2030-06-01T09:00:00" 5 2] sample_registrations)
          [Cancel sample_clock "event_a1" "user_s1" "timetable clash";
           MarkAttendance sample_clock "reg_02" true;
           BulkCancel sample_clock "event_a1" "Event cancelled"]) !! 1%nat = Some d'
     /\ terminal_dict d')
  /\ registrations_json
       (step sample_fromisoformat
          (mkStore [] (Registration.to_dict <$> sample_registrations))
          (BulkCancel sample_clock "event_a1" "Event cancelled")) !! 1%nat
     = Some (Registration.to_dict
               (sample_registration "reg_02" "user_s2" (Member RegistrationStatus.CANCELLED))).
Proof.
  split.
  - apply (proj1 terminal_registrations_kept sample_fromisoformat _ _ 1%nat
             (Registration.to_dict
                (sample_registration "reg_02" "user_s2" (Member RegistrationStatus.CANCELLED)))).
    + apply written_typed.
    + reflexivity.
    + exists RegistrationStatus.CANCELLED. split; reflexivity.
  - apply (proj2 terminal_registrations_kept sample_fromisoformat
             (BulkCancel sample_clock "event_a1" "Event cancelled") []
             sample_registrations 1%nat).
    + reflexivity.
    + repeat constructor.
    + apply (bool_decide_unpack
               (NoDup (Registration.registration_id <$> sample_registrations))).
      vm_compute. exact I.
    + reflexivity.
    + reflexivity.
Defined.
